(** * ChatLab: the canonical chat-session model, its parsers and queries

    A shallow embedding of [chatlab/models.py], [chatlab/parsers/json_parser.py],
    [chatlab/parsers/csv_parser.py], [chatlab/utils/helpers.py] and
    [chatlab/exporters/json_exporter.py], with the properties of the
    specification stated over it.

    Conventions.
    - A Python [int] is a [Z]; a [str] is a [string] (its UTF-8 bytes); a
      [dict] with string keys is a [gmap string _]; [Optional[str]] is
      [option string]; a [list] is a [list]; a [float] is the rational it
      stands for, and the division that gives one rounds to the nearest
      float ([nearest_float]).
    - A call that may raise returns a [result]; [Raise e] carries the
      exception.
    - Functions of the Python standard library that the code calls
      ([datetime.fromtimestamp], [str.lower], [json.loads],
      [ast.literal_eval], ...) are fields of small interfaces (type classes);
      the code is embedded over any implementation of them.  Reference
      instances ([Reference]) and sample data ([Samples]) serve to run the
      code on concrete inputs.

    The definitions come first: the Python values, the library interfaces,
    the modules of the package in the order [models], [helpers],
    [json_parser], [csv_parser], [json_exporter], then the reference
    instances, the samples and the notions the properties are stated with.
    The properties follow, by claim of the specification (C1 to C10), and
    then those of the rest of the package (X1 to X21). *)

From Stdlib Require Import ZArith QArith Qabs Qpower Qround Lia Lqa.
From Stdlib Require Import Permutation Sorted.
From stdpp Require Import gmap strings list fin_maps pretty.

Set Warnings "-register-all".
Set Default Proof Using "Type".

Local Open Scope Z_scope.

(** ** Python values *)

(** The values the decoders ([json.loads], [ast.literal_eval]) hand to the
    model classes.  Floating-point numbers are left out. *)
Inductive pyval : Type :=
  | PNone
  | PBool (b : bool)
  | PInt (z : Z)
  | PStr (s : string)
  | PList (l : list pyval)
  | PDict (d : gmap string pyval).

(** [x is None] *)
Definition is_None (v : pyval) : bool :=
  match v with PNone => true | _ => false end.

(** ** Exceptions and results *)

Inductive exn : Type :=
  | ValueError (msg : string)
  | JSONDecodeError
  | SyntaxError
  | TypeError
  | AttributeError
  | IndexError
  | OverflowError
  | MemoryError
  | RecursionError
  | IllTyped.

(** [IllTyped] is not a Python exception.  Dataclass fields are not checked
    at run time: a dict that carries, say, a number under ["name"] yields an
    object whose field violates its annotation.  The typed records below
    cannot hold such an object, and the decoders report it as [IllTyped].
    No statement below derives a failure of the program from it. *)

Inductive result (A : Type) : Type :=
  | Ok (a : A)
  | Raise (e : exn).
Arguments Ok {A} a.
Arguments Raise {A} e.

#[global] Instance result_ret : MRet result := @Ok.
#[global] Instance result_bind : MBind result :=
  fun A B f m => match m with Ok a => f a | Raise e => Raise e end.
#[global] Instance result_fmap : FMap result :=
  fun A B f m => match m with Ok a => Ok (f a) | Raise e => Raise e end.

(** A list comprehension [[f(x) for x in l]] whose body may raise: the
    elements are evaluated from left to right and the first exception ends
    the evaluation. *)
Fixpoint comprehension {A B : Type} (f : A -> result B) (l : list A)
  : result (list B) :=
  match l with
  | [] => Ok []
  | x :: l' => y ← f x; ys ← comprehension f l'; Ok (y :: ys)
  end.

(** ** The standard library, as interfaces *)

(** [datetime.fromtimestamp] renders epoch seconds in the local time zone and
    raises ([OverflowError], [OSError] or [ValueError], by platform) outside
    the range the platform supports: [None] here.  [strftime] is
    [datetime.strftime] at the one format [datetime_str] uses,
    ["%Y-%m-%d %H:%M:%S"]. *)
Class DateTimeLib : Type := {
  datetime : Type;
  fromtimestamp : Z -> option datetime;
  strftime : datetime -> string;
}.

(** [list.sort(key=...)] is a stable sort.  Straight insertion is the model:
    [sort_by_key_unique] below shows that a stable sort has one possible
    result, so the choice of algorithm is immaterial. *)
Section ListSort.
Context {A : Type} (key : A -> Z).

Fixpoint insert_by_key (x : A) (l : list A) : list A :=
  match l with
  | [] => [x]
  | y :: l' =>
      if key x <=? key y then x :: y :: l' else y :: insert_by_key x l'
  end.

Fixpoint sort_by_key (l : list A) : list A :=
  match l with
  | [] => []
  | x :: l' => insert_by_key x (sort_by_key l')
  end.

(** The elements of [l] whose key is [k], in their order in [l]. *)
Definition with_key (k : Z) (l : list A) : list A :=
  List.filter (fun x => key x =? k) l.

(** Ascending keys along the list. *)
Definition ascending (l : list A) : Prop :=
  forall (i : nat) (a b : A),
    l !! i = Some a -> l !! (S i) = Some b -> key a <= key b.

(** Keys never decrease from an element to any later one. *)
Definition sorted_by_key (l : list A) : Prop :=
  StronglySorted (fun a b => key a <= key b) l.
End ListSort.

(** ** Strings *)

(** [str.lower], [str.strip] and [str.splitlines]. *)
Class StrLib : Type := {
  lower : string -> string;
  strip : string -> string;
  splitlines : string -> list string;
}.

(** [needle in hay] on strings: [needle] occurs in [hay] as a contiguous
    run.  On UTF-8 text a run of bytes that is itself a text occurs in
    another text exactly where its code points do. *)
Fixpoint str_in (needle hay : string) : bool :=
  String.prefix needle hay
  || match hay with
     | EmptyString => false
     | String _ hay' => str_in needle hay'
     end.

(** [s[:n]] *)
Definition str_take (n : nat) (s : string) : string := String.substring 0 n s.

(** [a > b] on rationals. *)
Definition Qgt_bool (a b : Q) : bool := negb (Qle_bool a b).

(** *** Floats

    Python's [/] on two integers gives the float (IEEE 754 binary64) nearest
    to their quotient, ties going to the even significand.  A float is kept
    as the rational it stands for; a comparison of a float with an integer
    is exact in Python, and is that of the rationals here.  A quotient of
    2^1024 or more in size is no float, and Python raises [OverflowError]
    on it: the exponent has no bound here.  (A quotient of two integers by
    60 is never so small that the exponent would run out at the other
    end.) *)

(** The integer nearest to [x], the even one of the two when [x] is half
    way. *)
Definition round_half_even (x : Q) : Z :=
  let f := Qfloor x in
  match (x - inject_Z f ?= 1 # 2)%Q with
  | Lt => f
  | Gt => f + 1
  | Eq => if Z.even f then f else f + 1
  end.

(** The exponent [e] of a positive [x]: [2^e <= x < 2^(e+1)].  For
    [x = p/q] it is [log2 p - log2 q] or one less. *)
Definition binade (x : Q) : Z :=
  let e := Z.log2 (Qnum x) - Z.log2 (Z.pos (Qden x)) in
  if Qle_bool (2 ^ e)%Q x then e else e - 1.

(** The float nearest to [x]: a significand of 53 bits, so that the floats
    from [2^e] to [2^(e+1)] are the multiples of [2^(e-52)]. *)
Definition nearest_float (x : Q) : Q :=
  if Qeq_bool x 0 then 0%Q
  else
    let ulp := (2 ^ (binade (Qabs x) - 52))%Q in
    (inject_Z (round_half_even (x / ulp)) * ulp)%Q.

(** [gap = (curr.timestamp - prev.timestamp) / 60], a float. *)
Definition gap (prev_ts curr_ts : Z) : Q :=
  nearest_float (inject_Z (curr_ts - prev_ts) / 60).

(** The value under one sender in [get_sender_stats]. *)
Record sender_stat : Type := {
  stat_account_name : string;
  stat_count : Z;
  stat_first_message : string;
  stat_last_message : string;
}.

(** The values of the dict [get_statistics] returns. *)
Inductive stat_value : Type :=
  | StatInt (n : Z)
  | StatNone
  | StatDateRange (start end_ : string)
  | StatCounts (counts : gmap string Z)
  | StatSenders (senders : gmap string sender_stat).

(** ** models.py *)

Module MessageType.
Inductive t : Type :=
  | TEXT | IMAGE | VOICE | VIDEO | FILE
  | LOCATION | LINK | STICKER | SYSTEM | REVOKED.

Definition value (self : t) : Z :=
  match self with
  | TEXT => 0 | IMAGE => 1 | VOICE => 2 | VIDEO => 3 | FILE => 4
  | LOCATION => 5 | LINK => 6 | STICKER => 7 | SYSTEM => 8 | REVOKED => 9
  end.

(** [cls(value)], [None] for the [ValueError] of an unknown code. *)
Definition of_value (v : Z) : option t :=
  match v with
  | 0 => Some TEXT | 1 => Some IMAGE | 2 => Some VOICE | 3 => Some VIDEO
  | 4 => Some FILE | 5 => Some LOCATION | 6 => Some LINK
  | 7 => Some STICKER | 8 => Some SYSTEM | 9 => Some REVOKED
  | _ => None
  end.

Definition from_int (v : Z) : t :=
  match of_value v with Some x => x | None => TEXT end.

Definition names : gmap Z string :=
  list_to_map
    [ (0, "text"); (1, "image"); (2, "voice"); (3, "video"); (4, "file");
      (5, "location"); (6, "link"); (7, "sticker"); (8, "system");
      (9, "revoked") ]%string.

Definition to_string (self : t) : string :=
  default "unknown"%string (names !! value self).
End MessageType.

(** Reading a field of a decoded dict, [data.get(key, default)], at the type
    the dataclass annotates. *)
Definition get_str (data : gmap string pyval) (key default_ : string)
  : result string :=
  match data !! key with
  | None => Ok default_
  | Some (PStr s) => Ok s
  | Some _ => Raise IllTyped
  end.

Definition get_int (data : gmap string pyval) (key : string) (default_ : Z)
  : result Z :=
  match data !! key with
  | None => Ok default_
  | Some (PInt z) => Ok z
  | Some _ => Raise IllTyped
  end.

(** [data.get(key)] for an [Optional[str]] field. *)
Definition get_opt_str (data : gmap string pyval) (key : string)
  : result (option string) :=
  match data !! key with
  | None | Some PNone => Ok None
  | Some (PStr s) => Ok (Some s)
  | Some _ => Raise IllTyped
  end.

(** [data.get]: only a dict has the method. *)
Definition as_dict (data : pyval) : result (gmap string pyval) :=
  match data with
  | PDict d => Ok d
  | _ => Raise AttributeError
  end.

(** [data.get(key, {})] *)
Definition get_or_empty_dict (data : gmap string pyval) (key : string) : pyval :=
  default (PDict ∅) (data !! key).

(** [for m in data.get(key, [])]: the values iterated over.  A string
    yields its characters and a dict its keys, all strings; only their
    number matters below, since [from_dict] fails on a string. *)
Definition get_iter (data : gmap string pyval) (key : string)
  : result (list pyval) :=
  match data !! key with
  | None => Ok []
  | Some (PList l) => Ok l
  | Some (PStr s) => Ok ((fun c => PStr (String c "")) <$> String.list_ascii_of_string s)
  | Some (PDict d) => Ok (PStr <$> (map_to_list d).*1)
  | Some _ => Raise TypeError
  end.

(** The truth value of an [Optional[str]]: [None] and [""] are false. *)
Definition truthy (o : option string) : bool :=
  match o with
  | None => false
  | Some s => negb (String.eqb s "")
  end.

(** [if field: result[key] = field] *)
Definition set_if_truthy (key : string) (field : option string)
    (result_ : gmap string pyval) : gmap string pyval :=
  match field with
  | Some s => if truthy field then <[key := PStr s]> result_ else result_
  | None => result_
  end.

Module ChatLabVersion.
Record t : Type := {
  version : string;
  exported_at : Z;
  generator : string;
}.

Definition to_dict (self : t) : gmap string pyval :=
  <["version" := PStr (version self)]>
    (<["exportedAt" := PInt (exported_at self)]>
      (<["generator" := PStr (generator self)]> ∅)).

Definition from_dict (data : pyval) : result t :=
  d ← as_dict data;
  v ← get_str d "version" "0.0.1";
  e ← get_int d "exportedAt" 0;
  g ← get_str d "generator" "unknown";
  Ok {| version := v; exported_at := e; generator := g |}.
End ChatLabVersion.

Module ChatMeta.
Record t : Type := {
  name : string;
  platform : string;
  type : string;
  owner_id : string;
  avatar : option string;
  description : option string;
}.

Definition to_dict (self : t) : gmap string pyval :=
  let result_ : gmap string pyval :=
    <["name" := PStr (name self)]>
      (<["platform" := PStr (platform self)]>
        (<["type" := PStr (type self)]>
          (<["ownerId" := PStr (owner_id self)]> ∅))) in
  let result_ := set_if_truthy "avatar" (avatar self) result_ in
  let result_ := set_if_truthy "description" (description self) result_ in
  result_.

Definition from_dict (data : pyval) : result t :=
  d ← as_dict data;
  n ← get_str d "name" "Unknown";
  p ← get_str d "platform" "unknown";
  ty ← get_str d "type" "private";
  o ← get_str d "ownerId" "";
  a ← get_opt_str d "avatar";
  ds ← get_opt_str d "description";
  Ok {| name := n; platform := p; type := ty; owner_id := o;
        avatar := a; description := ds |}.
End ChatMeta.

Module ChatMember.
Record t : Type := {
  platform_id : string;
  account_name : string;
  role : option string;
  avatar : option string;
  remark : option string;
}.

Definition to_dict (self : t) : gmap string pyval :=
  let result_ : gmap string pyval :=
    <["platformId" := PStr (platform_id self)]>
      (<["accountName" := PStr (account_name self)]> ∅) in
  let result_ := set_if_truthy "role" (role self) result_ in
  let result_ := set_if_truthy "avatar" (avatar self) result_ in
  let result_ := set_if_truthy "remark" (remark self) result_ in
  result_.

Definition from_dict (data : pyval) : result t :=
  d ← as_dict data;
  p ← get_str d "platformId" "";
  a ← get_str d "accountName" "";
  r ← get_opt_str d "role";
  av ← get_opt_str d "avatar";
  rm ← get_opt_str d "remark";
  Ok {| platform_id := p; account_name := a; role := r; avatar := av;
        remark := rm |}.
End ChatMember.

Module ChatMessage.
Section WithDateTime.
Context `{DateTimeLib}.

Record t : Type := {
  sender : string;
  account_name : string;
  timestamp : Z;
  type : Z;
  content : string;
  platform_message_id : string;
  reply_to : option string;
  _datetime : datetime;
}.

(** The constructor followed by [__post_init__]; no caller in the package
    passes [_datetime], so it is always computed here. *)
Definition new (sender account_name : string) (timestamp type : Z)
    (content platform_message_id : string) (reply_to : option string)
  : result t :=
  match fromtimestamp timestamp with
  | Some dt =>
      Ok {| sender := sender; account_name := account_name;
            timestamp := timestamp; type := type; content := content;
            platform_message_id := platform_message_id;
            reply_to := reply_to; _datetime := dt |}
  | None => Raise OverflowError
  end.

(** A message as [new] leaves it. *)
Definition constructed (self : t) : Prop :=
  fromtimestamp (timestamp self) = Some (_datetime self).

Definition datetime_str (self : t) : string := strftime (_datetime self).

Definition message_type (self : t) : MessageType.t :=
  MessageType.from_int (type self).

Definition to_dict (self : t) : gmap string pyval :=
  let result_ : gmap string pyval :=
    <["sender" := PStr (sender self)]>
      (<["accountName" := PStr (account_name self)]>
        (<["timestamp" := PInt (timestamp self)]>
          (<["type" := PInt (type self)]>
            (<["content" := PStr (content self)]>
              (<["platformMessageId" := PStr (platform_message_id self)]>
                ∅))))) in
  let result_ := set_if_truthy "replyTo" (reply_to self) result_ in
  result_.

Definition from_dict (data : pyval) : result t :=
  d ← as_dict data;
  s ← get_str d "sender" "";
  a ← get_str d "accountName" "";
  ts ← get_int d "timestamp" 0;
  ty ← get_int d "type" 0;
  c ← get_str d "content" "";
  p ← get_str d "platformMessageId" "";
  r ← get_opt_str d "replyTo";
  new s a ts ty c p r.
End WithDateTime.
End ChatMessage.

Module ChatSession.
Section WithLibs.
Context `{DateTimeLib} `{StrLib}.

Record t : Type := {
  chatlab : ChatLabVersion.t;
  meta : ChatMeta.t;
  members : list ChatMember.t;
  messages : list ChatMessage.t;
}.

Definition __post_init__ (self : t) : t :=
  {| chatlab := chatlab self; meta := meta self; members := members self;
     messages := sort_by_key ChatMessage.timestamp (messages self) |}.

(** [ChatSession(chatlab=..., meta=..., members=..., messages=...)] *)
Definition new (chatlab : ChatLabVersion.t) (meta : ChatMeta.t)
    (members : list ChatMember.t) (messages : list ChatMessage.t) : t :=
  __post_init__
    {| chatlab := chatlab; meta := meta; members := members;
       messages := messages |}.

Definition to_dict (self : t) : gmap string pyval :=
  <["chatlab" := PDict (ChatLabVersion.to_dict (chatlab self))]>
    (<["meta" := PDict (ChatMeta.to_dict (meta self))]>
      (<["members" := PList (PDict ∘ ChatMember.to_dict <$> members self)]>
        (<["messages" :=
             PList (PDict ∘ ChatMessage.to_dict <$> messages self)]> ∅))).

Definition from_dict (data : pyval) : result t :=
  d ← as_dict data;
  c ← ChatLabVersion.from_dict (get_or_empty_dict d "chatlab");
  m ← ChatMeta.from_dict (get_or_empty_dict d "meta");
  mem_data ← get_iter d "members";
  mem ← comprehension ChatMember.from_dict mem_data;
  msg_data ← get_iter d "messages";
  msg ← comprehension ChatMessage.from_dict msg_data;
  Ok (new c m mem msg).

(** *** Queries *)

Definition get_messages_by_sender (self : t) (sender_id : string)
  : list ChatMessage.t :=
  List.filter (fun m => String.eqb (ChatMessage.sender m) sender_id)
    (messages self).

Definition get_messages_by_name (self : t) (name : string)
  : list ChatMessage.t :=
  List.filter (fun m => String.eqb (ChatMessage.account_name m) name)
    (messages self).

(** [str.startswith] is [String.prefix]. *)
Definition get_messages_by_date (self : t) (date_str : string)
  : list ChatMessage.t :=
  List.filter (fun m => String.prefix date_str (ChatMessage.datetime_str m))
    (messages self).

(** [msg_type: Union[int, MessageType]]: an integer on the left, a member
    of the enumeration on the right. *)
Definition get_messages_by_type (self : t) (msg_type : Z + MessageType.t)
  : list ChatMessage.t :=
  let type_val :=
    match msg_type with
    | inr mt => MessageType.value mt
    | inl v => v
    end in
  List.filter (fun m => ChatMessage.type m =? type_val) (messages self).

Definition get_messages_by_keyword (self : t) (keyword : string)
    (case_sensitive : bool) : list ChatMessage.t :=
  if negb case_sensitive then
    let keyword := lower keyword in
    List.filter (fun m => str_in keyword (lower (ChatMessage.content m)))
      (messages self)
  else
    List.filter (fun m => str_in keyword (ChatMessage.content m))
      (messages self).

(** The loop of [get_message_by_id], which returns at the first match. *)
Fixpoint first_with_id (msg_id : string) (msgs : list ChatMessage.t)
  : option ChatMessage.t :=
  match msgs with
  | [] => None
  | m :: msgs' =>
      if String.eqb (ChatMessage.platform_message_id m) msg_id then Some m
      else first_with_id msg_id msgs'
  end.

Definition get_message_by_id (self : t) (msg_id : string)
  : option ChatMessage.t :=
  first_with_id msg_id (messages self).

(** [counts[key] = counts.get(key, 0) + 1] *)
Definition count_up (key : string) (counts : gmap string Z) : gmap string Z :=
  <[key := default 0 (counts !! key) + 1]> counts.

(** The dict of [get_timeline]; [dict(sorted(...))] changes the order of the
    entries only, which a [gmap] does not record. *)
Definition get_timeline (self : t) : gmap string Z :=
  fold_left
    (fun timeline m =>
       let date := str_take 10 (ChatMessage.datetime_str m) in
       count_up date timeline)
    (messages self) ∅.

Definition add_count (e : sender_stat) : sender_stat :=
  {| stat_account_name := stat_account_name e;
     stat_count := stat_count e + 1;
     stat_first_message := stat_first_message e;
     stat_last_message := stat_last_message e |}.

Definition set_last_message (s : string) (e : sender_stat) : sender_stat :=
  {| stat_account_name := stat_account_name e;
     stat_count := stat_count e;
     stat_first_message := stat_first_message e;
     stat_last_message := s |}.

(** The body of the loop of [get_sender_stats]. *)
Definition sender_stats_step (stats : gmap string sender_stat)
    (m : ChatMessage.t) : gmap string sender_stat :=
  let key := ChatMessage.sender m in
  let stats :=
    match stats !! key with
    | None =>
        <[key := {| stat_account_name := ChatMessage.account_name m;
                    stat_count := 0;
                    stat_first_message := ChatMessage.datetime_str m;
                    stat_last_message := ChatMessage.datetime_str m |}]> stats
    | Some _ => stats
    end in
  let stats := alter add_count key stats in
  alter (set_last_message (ChatMessage.datetime_str m)) key stats.

Definition get_sender_stats (self : t) : gmap string sender_stat :=
  fold_left sender_stats_step (messages self) ∅.

(** The loop of [get_statistics] over [type_counts]. *)
Definition type_counts (msgs : list ChatMessage.t) : gmap string Z :=
  fold_left
    (fun counts m =>
       count_up (MessageType.to_string (ChatMessage.message_type m)) counts)
    msgs ∅.

(** [len(set(m.sender for m in self.messages))] *)
Definition unique_senders (msgs : list ChatMessage.t) : Z :=
  Z.of_nat (size (list_to_set (ChatMessage.sender <$> msgs) : gset string)).

Definition get_statistics (self : t) : gmap string stat_value :=
  match messages self with
  | [] =>
      <["total_messages" := StatInt 0]>
        (<["unique_senders" := StatInt 0]>
          (<["date_range" := StatNone]>
            (<["message_types" := StatCounts ∅]>
              (<["timeline" := StatCounts ∅]> ∅))))
  | first :: _ =>
      <["total_messages" := StatInt (Z.of_nat (length (messages self)))]>
        (<["unique_senders" := StatInt (unique_senders (messages self))]>
          (<["date_range" :=
               StatDateRange (ChatMessage.datetime_str first)
                 (ChatMessage.datetime_str (List.last (messages self) first))]>
            (<["message_types" := StatCounts (type_counts (messages self))]>
              (<["timeline" := StatCounts (get_timeline self)]>
                (<["sender_stats" := StatSenders (get_sender_stats self)]>
                  ∅)))))
  end.

(** [get_conversation_threads]; the pair [(threads, current_thread)] is the
    state of the loop [for i in range(1, len(self.messages))].  The indices
    [i-1] and [i] are always in range. *)
Definition get_conversation_threads (self : t) (max_gap_minutes : Z)
  : list (list ChatMessage.t) :=
  match messages self with
  | [] => []
  | first :: _ =>
      let '(threads, current_thread) :=
        fold_left
          (fun (st : list (list ChatMessage.t) * list ChatMessage.t)
               (i : nat) =>
             let '(threads, current_thread) := st in
             match messages self !! (i - 1)%nat, messages self !! i with
             | Some prev_msg, Some curr_msg =>
                 if Qgt_bool
                      (gap (ChatMessage.timestamp prev_msg)
                           (ChatMessage.timestamp curr_msg))
                      (inject_Z max_gap_minutes)
                 then (threads ++ [current_thread], [curr_msg])
                 else (threads, current_thread ++ [curr_msg])
             | _, _ => st
             end)
          (seq 1 (length (messages self) - 1)) ([], [first]) in
      match current_thread with
      | [] => threads
      | _ :: _ => threads ++ [current_thread]
      end
  end.
End WithLibs.
End ChatSession.

(** ** utils/helpers.py *)

Module helpers.
Section Duck.
(** Any objects with a [timestamp] attribute. *)
Context {A : Type} (timestamp : A -> Z).

Definition split_messages_by_time (messages : list A) (max_gap_minutes : Z)
  : list (list A) :=
  match messages with
  | [] => []
  | first :: _ =>
      let '(chunks, current_chunk) :=
        fold_left
          (fun (st : list (list A) * list A) (i : nat) =>
             let '(chunks, current_chunk) := st in
             match messages !! (i - 1)%nat, messages !! i with
             | Some prev_msg, Some curr_msg =>
                 if Qgt_bool (gap (timestamp prev_msg) (timestamp curr_msg))
                      (inject_Z max_gap_minutes)
                 then (chunks ++ [current_chunk], [curr_msg])
                 else (chunks, current_chunk ++ [curr_msg])
             | _, _ => st
             end)
          (seq 1 (length messages - 1)) ([], [first]) in
      match current_chunk with
      | [] => chunks
      | _ :: _ => chunks ++ [current_chunk]
      end
  end.
End Duck.

(** [s.replace(old, new)] where [old] is one ASCII character: each of its
    occurrences gives way to [new].  No byte of the UTF-8 form of another
    character is an ASCII byte, so the bytes are replaced exactly where the
    characters are. *)
Fixpoint replace_char (old : Ascii.ascii) (new s : string) : string :=
  match s with
  | EmptyString => EmptyString
  | String c s' =>
      if Ascii.eqb c old then new +:+ replace_char old new s'
      else String c (replace_char old new s')
  end.

(** The backslash, the single quote and the double quote. *)
Definition backslash : Ascii.ascii := Ascii.ascii_of_nat 92.
Definition single_quote : Ascii.ascii := Ascii.ascii_of_nat 39.
Definition double_quote : Ascii.ascii := Ascii.ascii_of_nat 34.

(** A backslash before the character [c]. *)
Definition escaped (c : Ascii.ascii) : string :=
  String backslash (String c EmptyString).

Definition escape_content (content : string) : string :=
  replace_char double_quote (escaped double_quote)
    (replace_char single_quote (escaped single_quote)
      (replace_char backslash (escaped backslash) content)).

Section Text.
(** [len] and the slices of a [str] count code points, not bytes: in
    [truncate_text] a text is the list of its code points, of any type. *)
Context {Char : Type}.

(** [text[:n]]; a negative [n] counts from the end, and the bounds are
    clipped to the text. *)
Definition slice_to (n : Z) (text : list Char) : list Char :=
  if 0 <=? n then take (Z.to_nat n) text
  else take (Z.to_nat (Z.of_nat (length text) + n)) text.

Definition truncate_text (text : list Char) (max_length : Z)
    (suffix : list Char) : list Char :=
  if Z.of_nat (length text) <=? max_length then text
  else slice_to (max_length - Z.of_nat (length suffix)) text ++ suffix.
End Text.
End helpers.

(** ** parsers/json_parser.py *)

(** [json.loads] (raising [JSONDecodeError] on text that is not JSON),
    [ast.literal_eval] (raising [ValueError] or [SyntaxError] on text that is
    not a literal and, as its documentation says, possibly [TypeError],
    [MemoryError] or [RecursionError]) and the substitution
    [re.sub(r',(\s*[}\]])', r'\1', text)].  Values outside [pyval] (floats,
    tuples, sets, bytes, dicts with other keys than strings) are not
    modelled. *)
Class DecoderLib : Type := {
  json_loads : string -> result pyval;
  literal_eval : string -> result pyval;
  re_sub_trailing_commas : string -> string;
}.

(** [v == s] for a string literal [s] *)
Definition eq_str (v : pyval) (s : string) : bool :=
  match v with
  | PStr s' => String.eqb s' s
  | _ => false
  end.

(** A [for] loop whose body may raise, over the loop's state. *)
Fixpoint for_each {S A : Type} (body : S -> A -> result S) (l : list A)
    (st : S) : result S :=
  match l with
  | [] => Ok st
  | x :: l' => st' ← body st x; for_each body l' st'
  end.

Module JSONParser.
Section WithLibs.
Context `{DateTimeLib} `{StrLib} `{DecoderLib}.

Definition _try_fix_and_parse (text : string) : pyval :=
  let text := re_sub_trailing_commas text in
  match literal_eval text with
  | Ok v => v
  | Raise _ => PNone
  end.

Definition format_error : exn :=
  ValueError "无法解析输入格式，请确保是有效的 JSON 或 Python 字典格式".

(** The first part of [parse], up to the [raise]: the raw data obtained
    from the text.  A source that names an existing file is replaced by the
    file's text before; the file system is not modelled. *)
Definition parse_data (source : string) : result pyval :=
  let text := strip source in
  let data := PNone in
  data ← match json_loads text with
         | Ok v => Ok v
         | Raise JSONDecodeError => Ok data
         | Raise e => Raise e
         end;
  data ← (if is_None data then
            match literal_eval text with
            | Ok v => Ok v
            | Raise (ValueError _) | Raise JSONDecodeError
            | Raise SyntaxError => Ok data
            | Raise e => Raise e
            end
          else Ok data);
  let data := if is_None data then _try_fix_and_parse text else data in
  if is_None data then Raise format_error else Ok data.

Definition parse (source : string) : result ChatSession.t :=
  data ← parse_data source;
  ChatSession.from_dict data.

(** The variables of the loop of [parse_jsonl]. *)
Record jsonl_state : Type := {
  header : option (gmap string pyval);
  members : list pyval;
  messages : list pyval;
}.

(** The body of [for line in lines]. *)
Definition jsonl_line (st : jsonl_state) (line : string) : result jsonl_state :=
  let line := strip line in
  if String.eqb line "" then Ok st
  else
    match json_loads line with
    | Raise JSONDecodeError => Ok st
    | Raise e => Raise e
    | Ok obj =>
        d ← as_dict obj;
        let type_ := default PNone (d !! "_type") in
        if eq_str type_ "header" then
          Ok {| header := Some d; members := members st;
                messages := messages st |}
        else if eq_str type_ "member" then
          Ok {| header := header st; members := members st ++ [obj];
                messages := messages st |}
        else if eq_str type_ "message" then
          Ok {| header := header st; members := members st;
                messages := messages st ++ [obj] |}
        else Ok st
    end.

Definition missing_header : exn := ValueError "JSONL 文件缺少 header 行".

Definition parse_jsonl (source : string) : result ChatSession.t :=
  let lines := splitlines (strip source) in
  st ← for_each jsonl_line lines
         {| header := None; members := []; messages := [] |};
  match header st with
  | None => Raise missing_header
  | Some h =>
      if bool_decide (dom h = ∅) then Raise missing_header
      else
        let data : gmap string pyval :=
          <["chatlab" := get_or_empty_dict h "chatlab"]>
            (<["meta" := get_or_empty_dict h "meta"]>
              (<["members" := PList (members st)]>
                (<["messages" := PList (messages st)]> ∅))) in
        ChatSession.from_dict (PDict data)
  end.
End WithLibs.
End JSONParser.

Module AutoParser.
Section WithLibs.
Context `{DateTimeLib} `{StrLib} `{DecoderLib}.

(** The two texts [parse] looks for: a line feed, and ["_type"] between
    its double quotes. *)
Definition newline : string := String (Ascii.ascii_of_nat 10) EmptyString.
Definition type_key : string :=
  String (Ascii.ascii_of_nat 34) "_type"
  +:+ String (Ascii.ascii_of_nat 34) EmptyString.

Definition looks_like_jsonl (text : string) : bool :=
  str_in newline text && str_in type_key text.

(** [parse] on a text that does not name a file.  The bare [except] catches
    whatever [parse_jsonl] raises.  Where the model answers [IllTyped], a
    dict held a value of another type than its field: Python then returns a
    session that is outside the typed records, or raises on the value;
    [IllTyped] is kept as the answer, and no statement reads it. *)
Definition parse (source : string) : result ChatSession.t :=
  let text := strip source in
  if looks_like_jsonl text then
    match JSONParser.parse_jsonl text with
    | Ok session => Ok session
    | Raise IllTyped => Raise IllTyped
    | Raise _ => JSONParser.parse text
    end
  else JSONParser.parse text.
End WithLibs.
End AutoParser.

(** ** parsers/csv_parser.py *)

(** [int(s)] on a string; [int(float(s))]; and
    [int(datetime.strptime(s, fmt).timestamp())], which reads [s] in the
    local time zone.  [None] stands for any exception. *)
Class NumLib : Type := {
  int_of_str : string -> option Z;
  int_of_float_str : string -> option Z;
  strptime_timestamp : string -> string -> option Z;
}.

(** A row of [csv.DictReader]: the cells under the column names, in the
    order of the header row.  Rows shorter or longer than the header, whose
    dict holds [None] or a list, are not modelled. *)
Definition csv_row : Type := list (string * string).

(** [row.get(key)] *)
Fixpoint row_get (row : csv_row) (key : string) : option string :=
  match row with
  | [] => None
  | (k, v) :: row' => if String.eqb k key then Some v else row_get row' key
  end.

(** The argument [headers] of [_detect_columns]: a list, as annotated, or
    the key view of a dict, as [parse] passes it.  Both can be iterated over;
    only a list can be subscripted. *)
Inductive str_seq : Type :=
  | AsList (items : list string)
  | AsKeys (items : list string).

Definition seq_items (s : str_seq) : list string :=
  match s with AsList l | AsKeys l => l end.

(** [headers[idx]] *)
Definition seq_subscript (s : str_seq) (idx : nat) : result string :=
  match s with
  | AsList l =>
      match l !! idx with
      | Some x => Ok x
      | None => Raise IndexError
      end
  | AsKeys _ => Raise TypeError
  end.

(** [x in l] and [l.index(x)] on lists of strings. *)
Definition list_in (x : string) (l : list string) : bool :=
  existsb (String.eqb x) l.

Fixpoint list_index (x : string) (l : list string) : nat :=
  match l with
  | [] => 0
  | y :: l' => if String.eqb y x then 0 else S (list_index x l')
  end.

Module CSVParser.
Section WithLibs.
Context `{DateTimeLib} `{StrLib} `{NumLib}.

Definition COLUMN_MAPPINGS : list (string * list string) :=
  [ ("time", ["time"; "timestamp"; "日期"; "时间"; "Time"; "Timestamp"]);
    ("sender", ["sender"; "sender_id"; "发送者"; "用户"; "Sender"; "From"]);
    ("content", ["content"; "message"; "内容"; "消息"; "Content"; "Message"]);
    ("name", ["name"; "account_name"; "昵称"; "Name"; "SenderName"]);
    ("type", ["type"; "msg_type"; "类型"; "Type"]) ]%string.

(** The inner loop of [_detect_columns], with its [break]. *)
Fixpoint detect_variants (headers : str_seq) (headers_lower : list string)
    (standard_name : string) (variants : list string)
    (column_map : gmap string string) : result (gmap string string) :=
  match variants with
  | [] => Ok column_map
  | variant :: variants' =>
      if list_in (lower variant) headers_lower then
        let idx := list_index (lower variant) headers_lower in
        h ← seq_subscript headers idx;
        Ok (<[standard_name := h]> column_map)
      else
        detect_variants headers headers_lower standard_name variants'
          column_map
  end.

(** [_detect_columns], on the attribute [self.column_map]. *)
Definition _detect_columns (headers : str_seq)
    (column_map : gmap string string) : result (gmap string string) :=
  let headers_lower := (fun h => strip (lower h)) <$> seq_items headers in
  for_each
    (fun column_map '(standard_name, variants) =>
       detect_variants headers headers_lower standard_name variants
         column_map)
    COLUMN_MAPPINGS column_map.

Definition formats : list string :=
  [ "%Y-%m-%d %H:%M:%S";
    "%Y/%m/%d %H:%M:%S";
    "%d/%m/%Y %H:%M:%S";
    "%Y-%m-%d";
    "%H:%M:%S";
    "%Y年%m月%d日 %H:%M" ]%string.

(** The loop [for fmt in formats] of [_parse_timestamp]. *)
Fixpoint try_formats (ts_str : string) (fmts : list string) : option Z :=
  match fmts with
  | [] => None
  | fmt :: fmts' =>
      match strptime_timestamp ts_str fmt with
      | Some ts => Some ts
      | None => try_formats ts_str fmts'
      end
  end.

Definition _parse_timestamp (ts_str : string) : result Z :=
  let ts_str := strip ts_str in
  match int_of_float_str ts_str with
  | Some ts => Ok ts
  | None =>
      match try_formats ts_str formats with
      | Some ts => Ok ts
      | None => Raise (ValueError ("无法解析时间格式: " +:+ ts_str))
      end
  end.

Definition _parse_row (column_map : gmap string string) (row : csv_row)
    (idx : nat) : result ChatMessage.t :=
  let time_col := default "time"%string (column_map !! "time") in
  let timestamp_str := default ""%string (row_get row time_col) in
  let timestamp :=
    match _parse_timestamp timestamp_str with
    | Ok ts => ts
    | Raise _ => Z.of_nat idx
    end in
  let sender_col := default "sender"%string (column_map !! "sender") in
  let sender := default "unknown"%string (row_get row sender_col) in
  let name_col := default sender_col (column_map !! "name") in
  let account_name := default sender (row_get row name_col) in
  let content_col := default "content"%string (column_map !! "content") in
  let content := default ""%string (row_get row content_col) in
  let type_col := default "type"%string (column_map !! "type") in
  type_val ← match row_get row type_col with
             | Some cell =>
                 if negb (String.eqb cell "") then
                   match int_of_str cell with
                   | Some v => Ok v
                   | None =>
                       (* the message of [int], without the cell it quotes *)
                       Raise (ValueError "invalid literal for int() with base 10")
                   end
                 else Ok 0
             | None => Ok 0
             end;
  ChatMessage.new sender account_name timestamp type_val content
    ("csv_" +:+ pretty idx) None.

(** The variables of the loop of [parse]: the index of [enumerate], the
    messages and [members_map], whose entries keep the order in which they
    were added. *)
Record csv_state : Type := {
  idx : nat;
  messages : list ChatMessage.t;
  members_map : list (string * string);
}.

Definition csv_row_step (column_map : gmap string string) (st : csv_state)
    (row : csv_row) : result csv_state :=
  msg ← _parse_row column_map row (idx st);
  Ok {| idx := S (idx st);
        messages := messages st ++ [msg];
        members_map :=
          match row_get (members_map st) (ChatMessage.sender msg) with
          | None =>
              members_map st
                ++ [(ChatMessage.sender msg, ChatMessage.account_name msg)]
          | Some _ => members_map st
          end |}.

(** [parse] on the rows [list(csv.DictReader(...))] read from the source.
    [column_map] is the attribute [self.column_map], empty in a new parser;
    [now] is [int(datetime.now().timestamp())]; [chat_type] and [owner_id]
    are the two keyword arguments read from [kwargs]. *)
Definition parse (column_map : gmap string string) (rows : list csv_row)
    (platform chat_name chat_type owner_id : string) (now : Z)
  : result ChatSession.t :=
  match rows with
  | [] => Raise (ValueError "CSV 文件为空")
  | first :: _ =>
      column_map ← _detect_columns (AsKeys first.*1) column_map;
      st ← for_each (csv_row_step column_map) rows
             {| idx := 0; messages := []; members_map := [] |};
      let members :=
        (fun '(sender, name) =>
           {| ChatMember.platform_id := sender;
              ChatMember.account_name := name;
              ChatMember.role := None; ChatMember.avatar := None;
              ChatMember.remark := None |}) <$> members_map st in
      let chatlab :=
        {| ChatLabVersion.version := "0.0.1";
           ChatLabVersion.exported_at := now;
           ChatLabVersion.generator := "chatlab-csv-parser" |} in
      let meta :=
        {| ChatMeta.name := chat_name; ChatMeta.platform := platform;
           ChatMeta.type := chat_type; ChatMeta.owner_id := owner_id;
           ChatMeta.avatar := None; ChatMeta.description := None |} in
      Ok (ChatSession.new chatlab meta members (messages st))
  end.
End WithLibs.
End CSVParser.

(** ** exporters/json_exporter.py *)

(** [{"_type": tag, **d}]: the entries of [d] are written after the tag and
    win over it. *)
Definition with_type_tag (tag : string) (d : gmap string pyval)
  : gmap string pyval :=
  d ∪ {[ "_type"%string := PStr tag ]}.

Module JSONLExporter.
Section WithDateTime.
Context `{DateTimeLib}.

Definition header (session : ChatSession.t) : gmap string pyval :=
  <["_type" := PStr "header"]>
    (<["chatlab" :=
         PDict (ChatLabVersion.to_dict (ChatSession.chatlab session))]>
      (<["meta" := PDict (ChatMeta.to_dict (ChatSession.meta session))]> ∅)).

Definition member_line (member : ChatMember.t) : gmap string pyval :=
  with_type_tag "member" (ChatMember.to_dict member).

Definition msg_line (msg : ChatMessage.t) : gmap string pyval :=
  with_type_tag "message" (ChatMessage.to_dict msg).

(** The objects [export_stream] yields, and [export] writes, one to a line,
    each through [json.dumps]: the header, the members, the messages. *)
Definition export_stream (session : ChatSession.t)
  : list (gmap string pyval) :=
  header session
    :: (member_line <$> ChatSession.members session)
    ++ (msg_line <$> ChatSession.messages session).
End WithDateTime.
End JSONLExporter.

Module CSVExporter.
Section WithDateTime.
Context `{DateTimeLib}.

Definition header_row : list string :=
  [ "timestamp"; "datetime"; "sender"; "account_name"; "type";
    "content" ]%string.

(** The cells of a message; [csv.writer] writes a number as [str] gives
    it. *)
Definition message_row (msg : ChatMessage.t) : list string :=
  [ pretty (ChatMessage.timestamp msg); ChatMessage.datetime_str msg;
    ChatMessage.sender msg; ChatMessage.account_name msg;
    pretty (ChatMessage.type msg); ChatMessage.content msg ].

(** The records [export] hands to [writer.writerow], the header first. *)
Definition export (session : ChatSession.t) : list (list string) :=
  header_row :: (message_row <$> ChatSession.messages session).
End WithDateTime.
End CSVExporter.

(** [list(csv.DictReader(f))] on a file that holds these records: the first
    record gives the field names, each of the others a row.  Records are as
    long as the first, as those of [CSVExporter] are. *)
Definition dict_reader (records : list (list string)) : list csv_row :=
  match records with
  | [] => []
  | fieldnames :: rows => (fun cells => zip fieldnames cells) <$> rows
  end.

(** ** Reference instances of the library interfaces

    Executable implementations used to run the code on concrete inputs.
    Each states the inputs on which it agrees with CPython. *)

Module Reference.

(** *** Dates: the time zone UTC *)

(** The civil date of a day number (days since 1970-01-01), proleptic
    Gregorian calendar. *)
Definition civil_of_days (days : Z) : Z * Z * Z :=
  let z := days + 719468 in
  let era := z / 146097 in
  let doe := z - era * 146097 in
  let yoe := (doe - doe / 1460 + doe / 36524 - doe / 146096) / 365 in
  let doy := doe - (365 * yoe + yoe / 4 - yoe / 100) in
  let mp := (5 * doy + 2) / 153 in
  let d := doy - (153 * mp + 2) / 5 + 1 in
  let m := if mp <? 10 then mp + 3 else mp - 9 in
  let y := yoe + era * 400 + (if m <=? 2 then 1 else 0) in
  (y, m, d).

(** A number in decimal, padded with zeros to [width] digits. *)
Definition zero_pad (width : nat) (n : Z) : string :=
  let s := pretty n in
  String.concat "" (replicate (width - String.length s) "0"%string) +:+ s.

Definition render_utc (ts : Z) : string :=
  let '(y, m, d) := civil_of_days (ts / 86400) in
  let secs := ts mod 86400 in
  zero_pad 4 y +:+ "-" +:+ zero_pad 2 m +:+ "-" +:+ zero_pad 2 d +:+ " "
  +:+ zero_pad 2 (secs / 3600) +:+ ":" +:+ zero_pad 2 (secs mod 3600 / 60)
  +:+ ":" +:+ zero_pad 2 (secs mod 60).

(** [datetime.fromtimestamp] and [strftime] of a process whose time zone is
    UTC, on a platform that accepts the years 1 to 9999.  A datetime is kept
    as its epoch seconds. *)
Definition utc : DateTimeLib := {|
  datetime := Z;
  fromtimestamp ts :=
    if (-62135596800 <=? ts) && (ts <=? 253402300799) then Some ts else None;
  strftime := render_utc;
|}.

(** *** Strings: the ASCII range *)

(** Is [c] the character of code [n]? *)
Definition is_char (n : nat) (c : Ascii.ascii) : bool :=
  (Ascii.nat_of_ascii c =? n)%nat.

Definition is_upper (c : Ascii.ascii) : bool :=
  let n := Ascii.nat_of_ascii c in (65 <=? n)%nat && (n <=? 90)%nat.

Definition lower_char (c : Ascii.ascii) : Ascii.ascii :=
  if is_upper c then Ascii.ascii_of_nat (Ascii.nat_of_ascii c + 32) else c.

Fixpoint lower_ascii (s : string) : string :=
  match s with
  | EmptyString => EmptyString
  | String c s' => String (lower_char c) (lower_ascii s')
  end.

(** Tab, line feed, vertical tab, form feed, carriage return, the four
    separators 28 to 31 and the space. *)
Definition is_space (c : Ascii.ascii) : bool :=
  let n := Ascii.nat_of_ascii c in
  ((9 <=? n)%nat && (n <=? 13)%nat) || ((28 <=? n)%nat && (n <=? 32)%nat).

Fixpoint lstrip (s : string) : string :=
  match s with
  | EmptyString => EmptyString
  | String c s' => if is_space c then lstrip s' else s
  end.

Fixpoint rstrip (s : string) : string :=
  match s with
  | EmptyString => EmptyString
  | String c s' =>
      match rstrip s' with
      | EmptyString => if is_space c then EmptyString else String c EmptyString
      | r => String c r
      end
  end.

Definition strip_ascii (s : string) : string := rstrip (lstrip s).

(** The line boundaries of [str.splitlines] in the ASCII range. *)
Definition is_linebreak (c : Ascii.ascii) : bool :=
  let n := Ascii.nat_of_ascii c in
  ((10 <=? n)%nat && (n <=? 13)%nat) || ((28 <=? n)%nat && (n <=? 30)%nat).

Definition is_cr (c : Ascii.ascii) : bool := is_char 13 c.
Definition is_lf (c : Ascii.ascii) : bool := is_char 10 c.

(** [current] is the line being read; [after_cr] tells that the previous
    character was a carriage return, which a line feed then completes. *)
Fixpoint splitlines_from (after_cr : bool) (current : string) (s : string)
  : list string :=
  match s with
  | EmptyString =>
      match current with
      | EmptyString => []
      | _ => [current]
      end
  | String c s' =>
      if is_lf c && after_cr then splitlines_from false current s'
      else if is_linebreak c then
        current :: splitlines_from (is_cr c) EmptyString s'
      else splitlines_from false (current +:+ String c EmptyString) s'
  end.

(** [str.lower], [str.strip] and [str.splitlines] on texts whose cased
    letters, white space and line boundaries are all ASCII (the bytes of
    other characters are left alone, which is right for scripts without
    case such as Chinese). *)
Definition ascii_strings : StrLib := {|
  lower := lower_ascii;
  strip := strip_ascii;
  splitlines := splitlines_from false EmptyString;
|}.

(** *** Numbers: plain decimal integers *)

Definition digit_of (c : Ascii.ascii) : option Z :=
  let n := Ascii.nat_of_ascii c in
  if (48 <=? n)%nat && (n <=? 57)%nat then Some (Z.of_nat (n - 48)) else None.

Fixpoint digits_from (acc : Z) (s : string) : option Z :=
  match s with
  | EmptyString => Some acc
  | String c s' =>
      match digit_of c with
      | Some d => digits_from (10 * acc + d) s'
      | None => None
      end
  end.

(** An optional sign and one or more digits, white space around them. *)
Definition decimal (s : string) : option Z :=
  match strip_ascii s with
  | EmptyString => None
  | String c s' =>
      if is_char 45 c then
        match s' with
        | EmptyString => None
        | _ => Z.opp <$> digits_from 0 s'
        end
      else if is_char 43 c then
        match s' with
        | EmptyString => None
        | _ => digits_from 0 s'
        end
      else digits_from 0 (String c s')
  end.

(** [int(s)] and [int(float(s))] on plain ASCII decimal integers of at
    most 15 digits, and on texts that hold no number in any notation, such
    as ["abc"]; [strptime] on texts that are no date under any of the
    formats of the parser.  Other numerals (["1_000"], ["1.5"], ["1e3"],
    ["nan"]) and dates are outside this instance. *)
Definition decimal_numbers : NumLib := {|
  int_of_str := decimal;
  int_of_float_str := decimal;
  strptime_timestamp _ _ := None;
|}.

(** *** Decoders: a table of sample texts *)

(** The double quote, and a text between double quotes. *)
Definition dquote : string := String (Ascii.ascii_of_nat 34) EmptyString.
Definition quoted (s : string) : string := dquote +:+ s +:+ dquote.

(** The line feed. *)
Definition line_feed : string := String (Ascii.ascii_of_nat 10) EmptyString.

(** The line [{"_type": "header"}]. *)
Definition header_line : string :=
  "{" +:+ quoted "_type" +:+ ": " +:+ quoted "header" +:+ "}".

(** The line [{"_type": "member", "platformId": "u1"}]. *)
Definition member_line : string :=
  "{" +:+ quoted "_type" +:+ ": " +:+ quoted "member" +:+ ", "
  +:+ quoted "platformId" +:+ ": " +:+ quoted "u1" +:+ "}".

(** The text [{"a": 1, "b": true}]. *)
Definition strict_sample : string :=
  "{" +:+ quoted "a" +:+ ": 1, " +:+ quoted "b" +:+ ": true}".

Definition sample_dict : pyval :=
  PDict (<["a" := PInt 1]> (<["b" := PBool true]> ∅)).

(** The pairs (text, value) of the table; looked up from the left. *)
Fixpoint table_lookup {A : Type} (table : list (string * A)) (text : string)
  : option A :=
  match table with
  | [] => None
  | (k, v) :: table' =>
      if String.eqb k text then Some v else table_lookup table' text
  end.

(** What CPython's [json.loads] returns on the sample texts. *)
Definition json_table : list (string * result pyval) :=
  [ ("null"%string, Ok PNone);
    ("42"%string, Ok (PInt 42));
    (header_line, Ok (PDict {[ "_type"%string := PStr "header" ]}));
    (member_line,
      Ok (PDict (<["_type" := PStr "member"]>
                  {[ "platformId"%string := PStr "u1" ]})));
    (strict_sample, Ok sample_dict);
    ("{'a': 1, 'b': True}"%string, Raise JSONDecodeError);
    ("{'a': 1,,}"%string, Raise JSONDecodeError);
    ("{[1]: 2}"%string, Raise JSONDecodeError);
    ("not json"%string, Raise JSONDecodeError) ].

(** What CPython's [ast.literal_eval] returns on the sample texts (the
    messages of its [ValueError] are cut short). *)
Definition literal_table : list (string * result pyval) :=
  [ ("null"%string, Raise (ValueError "malformed node or string"));
    ("42"%string, Ok (PInt 42));
    ("{'a': 1, 'b': True}"%string, Ok sample_dict);
    ("{'a': 1,,}"%string, Raise SyntaxError);
    ("{'a': 1,}"%string, Ok (PDict {[ "a"%string := PInt 1 ]}));
    ("{[1]: 2}"%string, Raise TypeError);
    ("not json"%string, Raise (ValueError "malformed node or string")) ].

(** Is the text, after its leading white space, at a closing bracket? *)
Definition at_closer (s : string) : bool :=
  match lstrip s with
  | String c _ => is_char 125 c || is_char 93 c
  | EmptyString => false
  end.

(** The substitution of [_try_fix_and_parse] with ASCII white space: a
    comma goes when white space and a closing bracket follow it.  The
    matches of the pattern cannot overlap, so each comma is judged alone. *)
Fixpoint drop_trailing_commas (s : string) : string :=
  match s with
  | EmptyString => EmptyString
  | String c s' =>
      if is_char 44 c && at_closer s' then drop_trailing_commas s'
      else String c (drop_trailing_commas s')
  end.

(** The decoders on the sample texts of the two tables; a text outside a
    table is answered as one that does not parse. *)
Definition sample_decoders : DecoderLib := {|
  json_loads text := default (Raise JSONDecodeError) (table_lookup json_table text);
  literal_eval text := default (Raise SyntaxError) (table_lookup literal_table text);
  re_sub_trailing_commas := drop_trailing_commas;
|}.

End Reference.

(** ** Sample data

    The session of the second example of [examples/basic_usage.py], and
    variations of it, under the reference instances. *)

Module Samples.
Import Reference.
#[local] Existing Instance utc.

Definition version : ChatLabVersion.t :=
  {| ChatLabVersion.version := "0.0.2";
     ChatLabVersion.exported_at := 1770985548;
     ChatLabVersion.generator := "WeFlow" |}.

Definition meta : ChatMeta.t :=
  {| ChatMeta.name := "Test"; ChatMeta.platform := "wechat";
     ChatMeta.type := "group"; ChatMeta.owner_id := "owner1";
     ChatMeta.avatar := None; ChatMeta.description := None |}.

(** The same, with an avatar that is the empty string. *)
Definition meta_empty_avatar : ChatMeta.t :=
  {| ChatMeta.name := "Test"; ChatMeta.platform := "wechat";
     ChatMeta.type := "group"; ChatMeta.owner_id := "owner1";
     ChatMeta.avatar := Some ""%string; ChatMeta.description := None |}.

Definition alice : ChatMember.t :=
  {| ChatMember.platform_id := "user1"; ChatMember.account_name := "Alice";
     ChatMember.role := Some "admin"%string; ChatMember.avatar := None;
     ChatMember.remark := None |}.

Definition bob : ChatMember.t :=
  {| ChatMember.platform_id := "user2"; ChatMember.account_name := "Bob";
     ChatMember.role := None; ChatMember.avatar := None;
     ChatMember.remark := None |}.

(** A text message at [ts], as the constructor builds it when the time zone
    is UTC. *)
Definition message (sender name : string) (ts : Z) (content id : string)
  : @ChatMessage.t utc :=
  {| ChatMessage.sender := sender; ChatMessage.account_name := name;
     ChatMessage.timestamp := ts; ChatMessage.type := 0;
     ChatMessage.content := content; ChatMessage.platform_message_id := id;
     ChatMessage.reply_to := None; ChatMessage._datetime := ts |}.

Definition hello_everyone : @ChatMessage.t utc :=
  message "user1" "Alice" 1770985500 "大家好" "1".
Definition hello_alice : @ChatMessage.t utc :=
  message "user2" "Bob" 1770985560 "你好 Alice" "2".
Definition nice_weather : @ChatMessage.t utc :=
  message "user1" "Alice" 1770985620 "今天天气不错" "3".
Definition hello : @ChatMessage.t utc :=
  message "user2" "Bob" 1770985680 "hello" "4".

(** The session, built from the messages in another order than that of
    their timestamps. *)
Definition session : @ChatSession.t utc :=
  ChatSession.new version meta [alice; bob]
    [nice_weather; hello_everyone; hello; hello_alice].

Definition session_empty_avatar : @ChatSession.t utc :=
  ChatSession.new version meta_empty_avatar [alice; bob] [hello_everyone].

(** The messages of the segmentation example, at 0, 100 and 3000 seconds. *)
Definition at_0 : @ChatMessage.t utc := message "user1" "Alice" 0 "a" "1".
Definition at_100 : @ChatMessage.t utc := message "user2" "Bob" 100 "b" "2".
Definition at_3000 : @ChatMessage.t utc := message "user1" "Alice" 3000 "c" "3".

Definition session_0_100_3000 : @ChatSession.t utc :=
  ChatSession.new version meta [alice; bob] [at_0; at_100; at_3000].

(** A session without messages. *)
Definition session_no_message : @ChatSession.t utc :=
  ChatSession.new version meta [alice; bob] [].

(** Rows of a CSV file with the header [time,sender,content] or
    [time,sender,content,type]. *)
Definition row_epoch_time : csv_row :=
  [ ("time", "1770985500"); ("sender", "u1"); ("content", "hi") ]%string.
Definition row_unreadable_time : csv_row :=
  [ ("time", "yesterday"); ("sender", "u1"); ("content", "hi") ]%string.
Definition row_text_type : csv_row :=
  [ ("time", "1770985500"); ("sender", "u1"); ("content", "hi");
    ("type", "abc") ]%string.

(** A row of a CSV file with the header [when,who,what], none of which is
    an alias of a column. *)
Definition row_other_header : csv_row :=
  [ ("when", "1770985500"); ("who", "u1"); ("what", "hi") ]%string.

(** A dict that holds two messages only, the later one first. *)
Definition later_first_data : pyval :=
  PDict {[ "messages"%string :=
             PList [ PDict {[ "timestamp"%string := PInt 100 ]};
                     PDict {[ "timestamp"%string := PInt 0 ]} ] ]}.
End Samples.

(** ** A session in JSON Lines

    A session of one member and one message, and the three lines
    [JSONLExporter] writes for it, as [json.dumps] gives them. *)

Module ExportSamples.
Import Reference Samples.
#[local] Existing Instance utc.

Definition bob_says_hello : @ChatSession.t utc :=
  ChatSession.new version meta [bob] [hello].

(** [{"key": "value"}] and [{"key": value}], without the braces. *)
Definition str_item (key value : string) : string :=
  quoted key +:+ ": " +:+ quoted value.
Definition raw_item (key value : string) : string :=
  quoted key +:+ ": " +:+ value.

Definition braces (items : list string) : string :=
  "{" +:+ String.concat ", " items +:+ "}".

Definition header_text : string :=
  braces
    [ str_item "_type" "header";
      raw_item "chatlab"
        (braces [ str_item "version" "0.0.2";
                  raw_item "exportedAt" "1770985548";
                  str_item "generator" "WeFlow" ]);
      raw_item "meta"
        (braces [ str_item "name" "Test"; str_item "platform" "wechat";
                  str_item "type" "group"; str_item "ownerId" "owner1" ]) ].

Definition member_text : string :=
  braces
    [ str_item "_type" "member"; str_item "platformId" "user2";
      str_item "accountName" "Bob" ].

Definition message_text : string :=
  braces
    [ str_item "_type" "message"; str_item "sender" "user2";
      str_item "accountName" "Bob"; raw_item "timestamp" "1770985680";
      raw_item "type" "0"; str_item "content" "hello";
      str_item "platformMessageId" "4" ].

(** The file [JSONLExporter.export] writes: each line and a line feed. *)
Definition exported_text : string :=
  header_text +:+ line_feed +:+ member_text +:+ line_feed
  +:+ message_text +:+ line_feed.

(** What CPython's [json.loads] returns on the three lines; on these
    [ast.literal_eval] returns the same. *)
Definition exported_table : list (string * result pyval) :=
  [ (header_text,
      Ok (PDict
            (<["_type" := PStr "header"]>
              (<["chatlab" :=
                   PDict (<["version" := PStr "0.0.2"]>
                           (<["exportedAt" := PInt 1770985548]>
                             {[ "generator"%string := PStr "WeFlow" ]}))]>
                {[ "meta"%string :=
                     PDict (<["name" := PStr "Test"]>
                             (<["platform" := PStr "wechat"]>
                               (<["type" := PStr "group"]>
                                 {[ "ownerId"%string :=
                                      PStr "owner1" ]}))) ]}))));
    (member_text,
      Ok (PDict
            (<["_type" := PStr "member"]>
              (<["platformId" := PStr "user2"]>
                {[ "accountName"%string := PStr "Bob" ]}))));
    (message_text,
      Ok (PDict
            (<["_type" := PStr "message"]>
              (<["sender" := PStr "user2"]>
                (<["accountName" := PStr "Bob"]>
                  (<["timestamp" := PInt 1770985680]>
                    (<["type" := PInt 0]>
                      (<["content" := PStr "hello"]>
                        {[ "platformMessageId"%string :=
                             PStr "4" ]})))))))) ].

(** The decoders on the three lines; any other text, the whole file
    included, is answered as one that does not parse. *)
Definition exported_decoders : DecoderLib := {|
  json_loads text :=
    default (Raise JSONDecodeError) (table_lookup exported_table text);
  literal_eval text :=
    default (Raise SyntaxError) (table_lookup exported_table text);
  re_sub_trailing_commas := drop_trailing_commas;
|}.
End ExportSamples.

(** ** The segmentation, as the specification words it

    "Partitions the timestamp-ordered messages into contiguous runs such that
    a new thread starts whenever the gap to the previous message exceeds the
    threshold."  This definition follows the specification, not the code;
    [split_messages_by_time_runs] compares the two. *)

Section Runs.
Context {A : Type} (timestamp : A -> Z).

(** Does the gap from [prev] to [curr] exceed [g] minutes? *)
Definition exceeds (g : Z) (prev curr : A) : bool :=
  Qgt_bool (gap (timestamp prev) (timestamp curr)) (inject_Z g).

(** The runs of [current ++ rest], where [current] is the run being
    gathered and [prev] its last message. *)
Fixpoint runs_from (g : Z) (current : list A) (prev : A) (rest : list A)
  : list (list A) :=
  match rest with
  | [] => [current]
  | curr :: rest' =>
      if exceeds g prev curr then current :: runs_from g [curr] curr rest'
      else runs_from g (current ++ [curr]) curr rest'
  end.

Definition runs (g : Z) (msgs : list A) : list (list A) :=
  match msgs with
  | [] => []
  | first :: rest => runs_from g [first] first rest
  end.

(** No gap between neighbours of [l] exceeds [g]. *)
Definition close_knit (g : Z) (l : list A) : Prop :=
  forall (i : nat) (a b : A),
    l !! i = Some a -> l !! (S i) = Some b ->
    (gap (timestamp a) (timestamp b) <= inject_Z g)%Q.

(** From the last message of each thread to the first of the next, the gap
    exceeds [g]. *)
Definition split_at_gaps (g : Z) (threads : list (list A)) : Prop :=
  forall (k : nat) (t1 t2 : list A),
    threads !! k = Some t1 -> threads !! (S k) = Some t2 ->
    exists a b : A,
      last t1 = Some a /\ head t2 = Some b /\
      (inject_Z g < gap (timestamp a) (timestamp b))%Q.
End Runs.

(** The number of gaps, from [prev] along [rest], that exceed [g]. *)
Section Gaps.
Context {A : Type} (timestamp : A -> Z).

Fixpoint gaps_exceeding (g : Z) (prev : A) (rest : list A) : nat :=
  match rest with
  | [] => 0
  | curr :: rest' =>
      ((if exceeds timestamp g prev curr then 1 else 0)
       + gaps_exceeding g curr rest')%nat
  end.
End Gaps.

(** ** Escaping, character by character *)

(** A backslash before a backslash, a single quote or a double quote; any
    other character as it is. *)
Definition escape_char (c : Ascii.ascii) : string :=
  if Ascii.eqb c helpers.backslash || Ascii.eqb c helpers.single_quote
     || Ascii.eqb c helpers.double_quote
  then helpers.escaped c
  else String c EmptyString.

Fixpoint escape_each (s : string) : string :=
  match s with
  | EmptyString => EmptyString
  | String c s' => escape_char c +:+ escape_each s'
  end.

(** The reading that drops a backslash and takes the character after it as
    it is; [pending] tells that a backslash was just dropped. *)
Fixpoint unescape_from (pending : bool) (s : string) : string :=
  match s with
  | EmptyString => EmptyString
  | String c s' =>
      if pending then String c (unescape_from false s')
      else if Ascii.eqb c helpers.backslash then unescape_from true s'
      else String c (unescape_from false s')
  end.

(** ** Canonical sessions *)

Section Canonical.
Context `{DateTimeLib}.

(** A session as the constructor leaves it: the messages are in ascending
    order of timestamp, and each message is as its own constructor leaves
    it. *)
Definition canonical (s : ChatSession.t) : Prop :=
  ascending ChatMessage.timestamp (ChatSession.messages s)
  /\ Forall ChatMessage.constructed (ChatSession.messages s).

(** An optional field that is absent or holds a string that is not empty. *)
Definition absent_or_filled (o : option string) : Prop := o <> Some ""%string.

(** No optional field of the session holds the empty string. *)
Definition optionals_filled (s : ChatSession.t) : Prop :=
  absent_or_filled (ChatMeta.avatar (ChatSession.meta s))
  /\ absent_or_filled (ChatMeta.description (ChatSession.meta s))
  /\ Forall (fun m => absent_or_filled (ChatMember.role m)
                      /\ absent_or_filled (ChatMember.avatar m)
                      /\ absent_or_filled (ChatMember.remark m))
       (ChatSession.members s)
  /\ Forall (fun m => absent_or_filled (ChatMessage.reply_to m))
       (ChatSession.messages s).
End Canonical.

(** ** The statistics of the senders *)

Section SenderStats.
Context `{DateTimeLib}.

(** What [get_sender_stats] holds under a sender whose messages, in the
    order of the session, are [found]. *)
Definition stat_of (found : list ChatMessage.t) : option sender_stat :=
  match found with
  | [] => None
  | first :: _ =>
      Some {| stat_account_name := ChatMessage.account_name first;
              stat_count := Z.of_nat (length found);
              stat_first_message := ChatMessage.datetime_str first;
              stat_last_message :=
                ChatMessage.datetime_str (List.last found first) |}
  end.
End SenderStats.

(** The sum of the counts of the senders of [get_sender_stats]. *)
Definition total_count (stats : gmap string sender_stat) : Z :=
  map_fold (fun _ e acc => stat_count e + acc) 0 stats.

(** The sum of the counts of a dict of counters. *)
Definition sum_counts (counts : gmap string Z) : Z :=
  map_fold (fun _ n acc => n + acc) 0 counts.

(** ** Fallback chains *)

(** The result of the first attempt that has one. *)
Fixpoint first_success {A : Type} (attempts : list (option A)) : option A :=
  match attempts with
  | [] => None
  | Some x :: _ => Some x
  | None :: attempts' => first_success attempts'
  end.

(** The value of an attempt at decoding, [None] when it raised. *)
Definition value_or_None (r : result pyval) : pyval :=
  match r with
  | Ok v => v
  | Raise _ => PNone
  end.

(** The first of the values that is not [None]. *)
Fixpoint first_not_None (values : list pyval) : option pyval :=
  match values with
  | [] => None
  | v :: values' => if is_None v then first_not_None values' else Some v
  end.

(** The exceptions [except (ValueError, SyntaxError)] catches;
    [JSONDecodeError] is a subclass of [ValueError]. *)
Definition is_literal_error (e : exn) : bool :=
  match e with
  | ValueError _ | JSONDecodeError | SyntaxError => true
  | _ => false
  end.

Section CsvCells.
Context `{StrLib} `{NumLib}.

(** The cell of a row under the time column, stripped, and the attempts of
    [_parse_timestamp] at it, in their order: epoch seconds, then each
    format. *)
Definition time_cell (column_map : gmap string string) (row : csv_row)
  : string :=
  strip (default ""%string
           (row_get row (default "time"%string (column_map !! "time")))).

Definition time_attempts (cell : string) : list (option Z) :=
  int_of_float_str cell :: (strptime_timestamp cell <$> CSVParser.formats).

(** The cell of a row under the type column. *)
Definition type_cell (column_map : gmap string string) (row : csv_row)
  : option string :=
  row_get row (default "type"%string (column_map !! "type")).

(** The type cell is missing, empty, or a number [int] reads. *)
Definition type_cell_readable (column_map : gmap string string)
    (row : csv_row) : Prop :=
  match type_cell column_map row with
  | None => True
  | Some cell => cell = ""%string \/ is_Some (int_of_str cell)
  end.
End CsvCells.

Section CsvHeaders.
Context `{StrLib}.

(** The first header that is an alias, up to case and to the white space
    around the header: lower-cased and stripped, it is the alias
    lower-cased. *)
Definition matching_header (headers : list string) (variant : string)
  : option string :=
  List.find (fun h => String.eqb (strip (lower h)) (lower variant)) headers.

(** The header of the first alias, in the order of the aliases, that has
    one. *)
Definition detected_header (headers variants : list string) : option string :=
  first_success (matching_header headers <$> variants).

(** The column map with the header detected for a column, if any. *)
Definition with_detected (headers : list string)
    (mapping : string * list string) (column_map : gmap string string)
  : gmap string string :=
  match detected_header headers mapping.2 with
  | Some h => <[mapping.1 := h]> column_map
  | None => column_map
  end.
End CsvHeaders.

Section CsvDefaults.
Context `{DateTimeLib}.

(** A message none of whose fields comes from a cell: [_parse_row] gave
    each the default of a missing column. *)
Definition no_cell_read (m : ChatMessage.t) : Prop :=
  ChatMessage.sender m = "unknown"%string
  /\ ChatMessage.account_name m = "unknown"%string
  /\ ChatMessage.content m = ""%string
  /\ ChatMessage.type m = 0
  /\ ChatMessage.reply_to m = None.
End CsvDefaults.

(** The entry of [members_map] for such messages. *)
Definition unknown_entry : string * string := ("unknown", "unknown")%string.

(** ** The lines of a JSON-Lines text *)

Section JsonLines.
Context `{StrLib} `{DecoderLib}.

(** The object of a line that holds one: the line, stripped, is not blank
    and [json.loads] returns a dict for it. *)
Definition line_object (line : string) : option (gmap string pyval) :=
  let line := strip line in
  if String.eqb line "" then None
  else
    match json_loads line with
    | Ok (PDict d) => Some d
    | _ => None
    end.

(** A line the loop can pass over or take: blank, not JSON, or an object. *)
Definition line_blank_invalid_or_object (line : string) : Prop :=
  strip line = ""%string
  \/ json_loads (strip line) = Raise JSONDecodeError
  \/ exists d, json_loads (strip line) = Ok (PDict d).

(** Is the object tagged [tag] under ["_type"]? *)
Definition tagged (tag : string) (d : gmap string pyval) : bool :=
  eq_str (default PNone (d !! "_type")) tag.

(** The objects of the lines that carry the tag, in the order of the
    lines. *)
Definition objects_tagged (tag : string) (lines : list string)
  : list (gmap string pyval) :=
  List.filter (tagged tag) (omap line_object lines).
End JsonLines.

(** ** Sessions as the encoding keeps them *)

Section AsEncoded.
Context `{DateTimeLib}.

(** An optional field as [to_dict] keeps it: the empty string is written no
    more than [None] is. *)
Definition drop_empty (o : option string) : option string :=
  if truthy o then o else None.

Definition meta_as_encoded (m : ChatMeta.t) : ChatMeta.t :=
  {| ChatMeta.name := ChatMeta.name m;
     ChatMeta.platform := ChatMeta.platform m;
     ChatMeta.type := ChatMeta.type m;
     ChatMeta.owner_id := ChatMeta.owner_id m;
     ChatMeta.avatar := drop_empty (ChatMeta.avatar m);
     ChatMeta.description := drop_empty (ChatMeta.description m) |}.

Definition member_as_encoded (m : ChatMember.t) : ChatMember.t :=
  {| ChatMember.platform_id := ChatMember.platform_id m;
     ChatMember.account_name := ChatMember.account_name m;
     ChatMember.role := drop_empty (ChatMember.role m);
     ChatMember.avatar := drop_empty (ChatMember.avatar m);
     ChatMember.remark := drop_empty (ChatMember.remark m) |}.

Definition message_as_encoded (m : ChatMessage.t) : ChatMessage.t :=
  {| ChatMessage.sender := ChatMessage.sender m;
     ChatMessage.account_name := ChatMessage.account_name m;
     ChatMessage.timestamp := ChatMessage.timestamp m;
     ChatMessage.type := ChatMessage.type m;
     ChatMessage.content := ChatMessage.content m;
     ChatMessage.platform_message_id := ChatMessage.platform_message_id m;
     ChatMessage.reply_to := drop_empty (ChatMessage.reply_to m);
     ChatMessage._datetime := ChatMessage._datetime m |}.

(** The session with every optional field that holds the empty string set
    to [None]. *)
Definition session_as_encoded (s : ChatSession.t) : ChatSession.t :=
  {| ChatSession.chatlab := ChatSession.chatlab s;
     ChatSession.meta := meta_as_encoded (ChatSession.meta s);
     ChatSession.members := member_as_encoded <$> ChatSession.members s;
     ChatSession.messages := message_as_encoded <$> ChatSession.messages s |}.

(** The values [from_dict] gives the fields of a dict that has none of its
    keys. *)
Definition default_version : ChatLabVersion.t :=
  {| ChatLabVersion.version := "0.0.1"; ChatLabVersion.exported_at := 0;
     ChatLabVersion.generator := "unknown" |}.

Definition default_meta : ChatMeta.t :=
  {| ChatMeta.name := "Unknown"; ChatMeta.platform := "unknown";
     ChatMeta.type := "private"; ChatMeta.owner_id := "";
     ChatMeta.avatar := None; ChatMeta.description := None |}.
End AsEncoded.

(** * Properties *)

(** Membership in a list that is written out. *)
Ltac own_key := repeat constructor.

(** ** The stable sort *)

Section SortFacts.
Context {A : Type} (key : A -> Z).

Lemma insert_by_key_perm (x : A) (l : list A) :
  insert_by_key key x l ≡ₚ x :: l.
Proof.
  induction l as [|y l IH]; simpl; [done|].
  destruct (key x <=? key y); [done|].
  rewrite IH. apply Permutation_swap.
Qed.

Lemma sort_by_key_perm (l : list A) : sort_by_key key l ≡ₚ l.
Proof.
  induction l as [|x l IH]; simpl; [done|].
  by rewrite insert_by_key_perm, IH.
Qed.

Lemma insert_by_key_sorted (x : A) (l : list A) :
  sorted_by_key key l -> sorted_by_key key (insert_by_key key x l).
Proof.
  unfold sorted_by_key.
  induction 1 as [|y l Hl IH Hy]; simpl.
  - repeat constructor.
  - destruct (Z.leb_spec (key x) (key y)) as [Hxy|Hxy].
    + constructor; [by constructor|].
      constructor; [done|].
      eapply Forall_impl; [exact Hy|]. simpl. intros; lia.
    + constructor; [done|].
      rewrite insert_by_key_perm. constructor; [lia|done].
Qed.

Lemma sort_by_key_sorted (l : list A) : sorted_by_key key (sort_by_key key l).
Proof.
  induction l as [|x l IH]; simpl.
  - constructor.
  - by apply insert_by_key_sorted.
Qed.

Lemma sorted_by_key_ascending (l : list A) :
  sorted_by_key key l -> ascending key l.
Proof.
  unfold sorted_by_key, ascending.
  induction 1 as [|y l Hl IH Hy]; intros i a b Ha Hb; [done|].
  destruct i as [|i]; simpl in *.
  - injection Ha as <-.
    rewrite Forall_forall in Hy. apply Hy.
    eapply list_elem_of_lookup_2. exact Hb.
  - eauto.
Qed.

Lemma ascending_sorted_by_key (l : list A) :
  ascending key l -> sorted_by_key key l.
Proof.
  unfold sorted_by_key, ascending.
  induction l as [|x l IH]; intros Hasc; constructor.
  - apply IH. intros i a b Ha Hb. exact (Hasc (S i) a b Ha Hb).
  - assert (Htl : StronglySorted (fun a b => key a <= key b) l).
    { apply IH. intros i a b Ha Hb. exact (Hasc (S i) a b Ha Hb). }
    destruct l as [|y l]; [constructor|].
    pose proof (Hasc 0%nat x y eq_refl eq_refl) as Hxy.
    constructor; [done|].
    apply StronglySorted_inv in Htl as [_ Hy].
    eapply Forall_impl; [exact Hy|]. simpl. intros; lia.
Qed.

Lemma with_key_insert (k : Z) (x : A) (l : list A) :
  with_key key k (insert_by_key key x l) = with_key key k (x :: l).
Proof.
  unfold with_key.
  induction l as [|y l IH]; simpl; [done|].
  destruct (Z.leb_spec (key x) (key y)) as [Hxy|Hxy]; simpl; [done|].
  rewrite IH. simpl.
  destruct (Z.eqb_spec (key x) k), (Z.eqb_spec (key y) k); try done; lia.
Qed.

Lemma with_key_sort (k : Z) (l : list A) :
  with_key key k (sort_by_key key l) = with_key key k l.
Proof.
  induction l as [|x l IH]; simpl; [done|].
  rewrite with_key_insert. unfold with_key in *. simpl. by rewrite IH.
Qed.

Lemma sort_by_key_sorted_id (l : list A) :
  sorted_by_key key l -> sort_by_key key l = l.
Proof.
  unfold sorted_by_key.
  induction 1 as [|x l Hl IH Hx]; simpl; [done|].
  rewrite IH. destruct l as [|y l]; simpl; [done|].
  apply Forall_cons in Hx as [Hxy _].
  by destruct (Z.leb_spec (key x) (key y)); [|lia].
Qed.

Lemma sort_by_key_idem (l : list A) :
  sort_by_key key (sort_by_key key l) = sort_by_key key l.
Proof. apply sort_by_key_sorted_id, sort_by_key_sorted. Qed.

(** Two sorted lists that hold, under every key, the same elements in the
    same order are equal. *)
Lemma sorted_with_key_eq (l1 l2 : list A) :
  sorted_by_key key l1 -> sorted_by_key key l2 ->
  (forall k, with_key key k l1 = with_key key k l2) ->
  l1 = l2.
Proof.
  unfold sorted_by_key, with_key.
  intros H1. revert l2.
  induction H1 as [|x l1 Hl1 IH Hx]; intros l2 H2 Heq.
  - destruct l2 as [|y l2]; [done|].
    specialize (Heq (key y)). simpl in Heq.
    by rewrite Z.eqb_refl in Heq.
  - destruct H2 as [|y l2 Hl2 Hy].
    { specialize (Heq (key x)). simpl in Heq.
      by rewrite Z.eqb_refl in Heq. }
    assert (Hin : forall (a : A) (l l' : list A),
               List.filter (fun z => key z =? key a) (a :: l)
               = List.filter (fun z => key z =? key a) l' -> In a l').
    { intros a l l' E. simpl in E. rewrite Z.eqb_refl in E.
      eapply proj1, filter_In. rewrite <- E. by left. }
    assert (Hkey : key x = key y).
    { pose proof (Hin x l1 (y :: l2) (Heq (key x))) as Hx2.
      pose proof (Hin y l2 (x :: l1) (eq_sym (Heq (key y)))) as Hy1.
      rewrite Forall_forall in Hx, Hy.
      destruct Hx2 as [->|Hx2]; [done|].
      destruct Hy1 as [->|Hy1]; [done|].
      apply list_elem_of_In in Hx2, Hy1.
      specialize (Hx _ Hy1). specialize (Hy _ Hx2). simpl in *. lia. }
    pose proof (Heq (key x)) as E. simpl in E.
    rewrite Z.eqb_refl in E. rewrite <- Hkey in E.
    rewrite Z.eqb_refl in E. injection E as <- E.
    f_equal. apply IH; [done|].
    intros k. specialize (Heq k). simpl in Heq.
    destruct (key x =? k); [by injection Heq|done].
Qed.

(** Any sorting that is stable gives the result of [sort_by_key]. *)
Lemma sort_by_key_unique (l l' : list A) :
  sorted_by_key key l' ->
  (forall k, with_key key k l' = with_key key k l) ->
  l' = sort_by_key key l.
Proof.
  intros Hs Hk. apply sorted_with_key_eq; [done|apply sort_by_key_sorted|].
  intros k. by rewrite with_key_sort.
Qed.
End SortFacts.

(** ** C2: the messages of a session are sorted, stably *)

Section SessionOrder.
Context `{DateTimeLib}.

(** C2.  Whatever the order of the list passed to the constructor, the
    messages of the constructed session have ascending timestamps along every
    consecutive pair; the messages of any one timestamp are in the order they
    had in the input; and the messages are those of the input. *)
Theorem session_messages_sorted_stable
    (chatlab : ChatLabVersion.t) (meta : ChatMeta.t)
    (members : list ChatMember.t) (msgs : list ChatMessage.t) :
  let s := ChatSession.new chatlab meta members msgs in
  (forall (i : nat) (a b : ChatMessage.t),
      ChatSession.messages s !! i = Some a ->
      ChatSession.messages s !! (S i) = Some b ->
      ChatMessage.timestamp a <= ChatMessage.timestamp b)
  /\ (forall ts : Z,
        List.filter (fun m => ChatMessage.timestamp m =? ts)
          (ChatSession.messages s)
        = List.filter (fun m => ChatMessage.timestamp m =? ts) msgs)
  /\ ChatSession.messages s ≡ₚ msgs.
Proof.
  simpl. split; [|split].
  - apply (sorted_by_key_ascending ChatMessage.timestamp), sort_by_key_sorted.
  - intros ts. apply (with_key_sort ChatMessage.timestamp).
  - apply sort_by_key_perm.
Qed.
End SessionOrder.

(** ** The float division of the gap *)

Section FloatFacts.

Lemma round_half_even_bounds (x : Q) :
  (x - (1 # 2) <= inject_Z (round_half_even x) <= x + (1 # 2))%Q.
Proof.
  unfold round_half_even.
  pose proof (Qfloor_le x) as Hle. pose proof (Qlt_floor x) as Hlt.
  rewrite inject_Z_plus in Hlt. change (inject_Z 1) with 1%Q in Hlt.
  destruct (Qcompare_spec (x - inject_Z (Qfloor x)) (1 # 2)) as [Heq|Hc|Hc].
  - destruct (Z.even (Qfloor x)); rewrite ?inject_Z_plus;
      change (inject_Z 1) with 1%Q; lra.
  - lra.
  - rewrite inject_Z_plus. change (inject_Z 1) with 1%Q. lra.
Qed.

Lemma round_half_even_Z (x : Q) (n : Z) :
  (x == inject_Z n)%Q -> round_half_even x = n.
Proof.
  intros Hx. unfold round_half_even.
  assert (Hfloor : Qfloor x = n) by (by rewrite Hx, Qfloor_Z).
  rewrite Hfloor.
  destruct (Qcompare_spec (x - inject_Z n) (1 # 2)) as [Heq|Hc|Hc];
    [lra|done|lra].
Qed.

Lemma binade_le (x : Q) : (0 < x)%Q -> (2 ^ binade x <= x)%Q.
Proof.
  intros Hx. unfold binade.
  destruct (Qle_bool _ x) eqn:Hle; [by apply Qle_bool_iff|].
  destruct x as [p q]. cbn [Qnum Qden].
  assert (Hp : 0 < p) by (unfold Qlt in Hx; cbn in Hx; lia).
  replace (Z.log2 p - Z.log2 (Z.pos q) - 1)
    with (Z.log2 p - (Z.log2 (Z.pos q) + 1)) by lia.
  rewrite Qpower_minus by done. change 2%Q with (inject_Z 2).
  rewrite <- !Zpower_Qpower
    by (pose proof (Z.log2_nonneg p); pose proof (Z.log2_nonneg (Z.pos q));
        lia).
  pose proof (Z.log2_spec p Hp) as [Hlow _].
  pose proof (Z.log2_spec (Z.pos q) ltac:(lia)) as [_ Hhigh].
  replace (Z.succ (Z.log2 (Z.pos q))) with (Z.log2 (Z.pos q) + 1) in Hhigh
    by lia.
  set (A := 2 ^ Z.log2 p) in *. set (B := 2 ^ (Z.log2 (Z.pos q) + 1)) in *.
  apply Qle_shift_div_r.
  - change 0%Q with (inject_Z 0). rewrite <- Zlt_Qlt. lia.
  - unfold Qle, Qmult, inject_Z. cbn [Qnum Qden]. nia.
Qed.

Lemma Qeq_bool_false (x : Q) : ~ (x == 0)%Q -> Qeq_bool x 0 = false.
Proof.
  intros Hx. destruct (Qeq_bool x 0) eqn:E; [|done].
  by apply Qeq_bool_eq in E.
Qed.

Lemma Qabs_nonzero (x : Q) : ~ (x == 0)%Q -> (0 < Qabs x)%Q.
Proof.
  intros Hx. apply Qabs_case; intros Hsign.
  - destruct (Qle_lt_or_eq _ _ Hsign) as [Hlt|Heq]; [done|].
    by symmetry in Heq.
  - destruct (Qle_lt_or_eq _ _ Hsign) as [Hlt|Heq]; [lra|done].
Qed.

(** The float is within half a unit in the last place of the number. *)
Lemma nearest_float_bounds (x : Q) :
  ~ (x == 0)%Q ->
  let ulp := (2 ^ (binade (Qabs x) - 52))%Q in
  (0 < ulp)%Q
  /\ (ulp <= Qabs x * (1 # 4503599627370496))%Q
  /\ (x - ulp * (1 # 2) <= nearest_float x <= x + ulp * (1 # 2))%Q.
Proof.
  intros Hx. cbv zeta. unfold nearest_float. rewrite Qeq_bool_false by done.
  set (e := binade (Qabs x)). set (ulp := (2 ^ (e - 52))%Q).
  assert (Hulp : (0 < ulp)%Q) by (apply Qpower_0_lt; reflexivity).
  assert (Habs : (0 < Qabs x)%Q) by (apply Qabs_nonzero; exact Hx).
  pose proof (binade_le (Qabs x) Habs) as He. fold e in He.
  assert (Hsplit : (ulp == 2 ^ e * (1 # 4503599627370496))%Q).
  { unfold ulp. rewrite Qpower_minus by done. reflexivity. }
  split; [done|]. split.
  - rewrite Hsplit. apply Qmult_le_compat_r; [done|done].
  - pose proof (round_half_even_bounds (x / ulp)) as [Hlow Hhigh].
    assert (Hy : (x / ulp * ulp == x)%Q) by (field; lra).
    apply (Qmult_le_compat_r _ _ ulp) in Hlow; [|lra].
    apply (Qmult_le_compat_r _ _ ulp) in Hhigh; [|lra].
    assert (Elow : ((x / ulp - (1 # 2)) * ulp == x - ulp * (1 # 2))%Q)
      by (field; lra).
    assert (Ehigh : ((x / ulp + (1 # 2)) * ulp == x + ulp * (1 # 2))%Q)
      by (field; lra).
    rewrite Elow in Hlow. rewrite Ehigh in Hhigh. by split.
Qed.

Lemma nearest_float_0 (x : Q) : (x == 0)%Q -> nearest_float x = 0%Q.
Proof.
  intros Hx. unfold nearest_float.
  by rewrite (proj2 (Qeq_bool_iff x 0) Hx).
Qed.

(** An integer of less than 54 bits is a float. *)
Lemma nearest_float_Z (x : Q) (n : Z) :
  (x == inject_Z n)%Q -> Z.abs n < 2 ^ 53 -> (nearest_float x == inject_Z n)%Q.
Proof.
  intros Hx Hn.
  destruct (Z.eq_dec n 0) as [->|Hn0].
  { by rewrite (nearest_float_0 x Hx). }
  assert (Hx0 : ~ (x == 0)%Q).
  { rewrite Hx. change 0%Q with (inject_Z 0). rewrite inject_Z_injective.
    done. }
  unfold nearest_float. rewrite Qeq_bool_false by done.
  set (e := binade (Qabs x)).
  assert (Habs : (Qabs x == inject_Z (Z.abs n))%Q).
  { rewrite Hx. unfold Qabs, inject_Z. reflexivity. }
  assert (He : e <= 52).
  { assert (Hpos : (0 < Qabs x)%Q).
    { rewrite Habs. change 0%Q with (inject_Z 0). rewrite <- Zlt_Qlt. lia. }
    pose proof (binade_le (Qabs x) Hpos) as Hle. fold e in Hle.
    destruct (Z.le_gt_cases e 52) as [|Hgt]; [done|].
    assert (Hbig : (2 ^ 53 <= 2 ^ e)%Q)
      by (apply Qpower_le_compat_l; [lia|done]).
    assert (Hlt : (Qabs x < 2 ^ 53)%Q).
    { rewrite Habs. change (2 ^ 53)%Q with (inject_Z (2 ^ 53)).
      by rewrite <- Zlt_Qlt. }
    lra. }
  assert (Hulp : (2 ^ (e - 52) * inject_Z (2 ^ (52 - e)) == 1)%Q).
  { rewrite Zpower_Qpower by lia. change (inject_Z 2) with 2%Q.
    rewrite <- Qpower_plus by done.
    replace (e - 52 + (52 - e)) with 0 by lia. reflexivity. }
  assert (Hpos : (0 < 2 ^ (e - 52))%Q) by (apply Qpower_0_lt; reflexivity).
  assert (Hy : (x / 2 ^ (e - 52) == inject_Z (n * 2 ^ (52 - e)))%Q).
  { rewrite inject_Z_mult, Hx.
    apply (Qmult_inj_r _ _ (2 ^ (e - 52))); [lra|].
    rewrite <- Qmult_assoc, (Qmult_comm (inject_Z (2 ^ (52 - e)))), Hulp.
    field. lra. }
  rewrite (round_half_even_Z _ _ Hy), inject_Z_mult.
  rewrite <- Qmult_assoc, (Qmult_comm (inject_Z (2 ^ (52 - e)))), Hulp.
  ring.
Qed.

Lemma round_half_even_nonneg (x : Q) : (0 <= x)%Q -> 0 <= round_half_even x.
Proof.
  intros Hx. pose proof (round_half_even_bounds x) as [Hlow _].
  assert (H : (inject_Z (-1) < inject_Z (round_half_even x))%Q).
  { change (inject_Z (-1)) with (-1)%Q. lra. }
  rewrite <- Zlt_Qlt in H. lia.
Qed.

Lemma nearest_float_nonneg (x : Q) : (0 <= x)%Q -> (0 <= nearest_float x)%Q.
Proof.
  intros Hx. unfold nearest_float. destruct (Qeq_bool x 0); [done|].
  set (ulp := (2 ^ _)%Q).
  assert (Hulp : (0 < ulp)%Q) by (apply Qpower_0_lt; reflexivity).
  apply Qmult_le_0_compat; [|lra].
  change 0%Q with (inject_Z 0). rewrite <- Zle_Qle.
  apply round_half_even_nonneg. apply Qle_shift_div_l; [done|lra].
Qed.

(** For timestamps less than 2^53 apart, the float comparison is the
    comparison of the integers. *)
Lemma Qgt_bool_gap (g prev_ts curr_ts : Z) :
  Z.abs (curr_ts - prev_ts) < 2 ^ 53 ->
  Qgt_bool (gap prev_ts curr_ts) (inject_Z g) = (60 * g <? curr_ts - prev_ts).
Proof.
  intros Hd. unfold gap. set (d := curr_ts - prev_ts) in *.
  set (x := (inject_Z d / 60)%Q).
  assert (Hx : (x * 60 == inject_Z d)%Q) by (unfold x; field).
  assert (Hexceeds : forall r, (inject_Z g < r)%Q -> Qgt_bool r (inject_Z g) = true).
  { intros r Hr. unfold Qgt_bool. apply negb_true_iff, not_true_is_false.
    rewrite Qle_bool_iff. lra. }
  assert (Hwithin : forall r, (r <= inject_Z g)%Q -> Qgt_bool r (inject_Z g) = false).
  { intros r Hr. unfold Qgt_bool. apply negb_false_iff. by apply Qle_bool_iff. }
  destruct (Z.eq_dec d (60 * g)) as [Heq|Hne].
  { assert (Hxg : (x == inject_Z g)%Q).
    { apply (Qmult_inj_r _ _ 60); [done|]. rewrite Hx, Heq, inject_Z_mult.
      change (inject_Z 60) with 60%Q. ring. }
    rewrite Heq, Z.ltb_irrefl. apply Hwithin.
    rewrite (nearest_float_Z x g Hxg) by lia. lra. }
  assert (Hx0 : ~ (x == 0)%Q \/ d = 0).
  { destruct (Z.eq_dec d 0) as [|Hd0]; [by right|]. left. intros Hx0.
    rewrite Hx0 in Hx. apply Hd0.
    apply inject_Z_injective. rewrite <- Hx. ring. }
  destruct Hx0 as [Hx0|Hd0].
  - destruct (nearest_float_bounds x Hx0) as (Hulp & Hsmall & Hlow & Hhigh).
    cbv zeta in *. set (ulp := (2 ^ _)%Q) in *.
    assert (Habs : (Qabs x * 60 == inject_Z (Z.abs d))%Q).
    { rewrite <- (Qabs_pos 60) at 1 by done.
      rewrite <- Qabs_Qmult, Hx. unfold Qabs, inject_Z. reflexivity. }
    assert (Hbound : (inject_Z (Z.abs d) < inject_Z (2 ^ 53))%Q)
      by (rewrite <- Zlt_Qlt; exact Hd).
    change (inject_Z (2 ^ 53)) with (9007199254740992)%Q in Hbound.
    destruct (Z.ltb_spec (60 * g) d) as [Hlt|Hge].
    + apply Hexceeds.
      assert (Hd1 : (inject_Z (60 * g + 1) <= inject_Z d)%Q)
        by (rewrite <- Zle_Qle; lia).
      rewrite inject_Z_plus, inject_Z_mult in Hd1.
      change (inject_Z 60) with 60%Q in Hd1.
      change (inject_Z 1) with 1%Q in Hd1. lra.
    + apply Hwithin.
      assert (Hd1 : (inject_Z (d + 1) <= inject_Z (60 * g))%Q)
        by (rewrite <- Zle_Qle; lia).
      rewrite inject_Z_plus, inject_Z_mult in Hd1.
      change (inject_Z 60) with 60%Q in Hd1.
      change (inject_Z 1) with 1%Q in Hd1. lra.
  - assert (Hx0 : (x == 0)%Q).
    { apply (Qmult_inj_r _ _ 60); [done|]. rewrite Hx, Hd0. reflexivity. }
    rewrite (nearest_float_0 x Hx0), Hd0.
    destruct (Z.ltb_spec (60 * g) 0) as [Hlt|Hge].
    + apply Hexceeds. change 0%Q with (inject_Z 0). rewrite <- Zlt_Qlt. lia.
    + apply Hwithin. change 0%Q with (inject_Z 0). rewrite <- Zle_Qle. lia.
Qed.

Lemma gap_nonneg (prev_ts curr_ts : Z) :
  prev_ts <= curr_ts -> (0 <= gap prev_ts curr_ts)%Q.
Proof.
  intros Hle. unfold gap. apply nearest_float_nonneg.
  apply Qle_shift_div_l; [done|].
  change (0 * 60)%Q with (inject_Z 0). rewrite <- Zle_Qle. lia.
Qed.
End FloatFacts.


(** ** C7, C10: segmentation by time gaps *)

Section SegmentationFacts.
Context {A : Type} (timestamp : A -> Z).

Lemma exceeds_true (g : Z) (a b : A) :
  exceeds timestamp g a b = true
  <-> (inject_Z g < gap (timestamp a) (timestamp b))%Q.
Proof.
  unfold exceeds, Qgt_bool. rewrite negb_true_iff.
  rewrite <- not_true_iff_false, Qle_bool_iff. split.
  - apply Qnot_le_lt.
  - apply Qlt_not_le.
Qed.

Lemma exceeds_false (g : Z) (a b : A) :
  exceeds timestamp g a b = false
  <-> (gap (timestamp a) (timestamp b) <= inject_Z g)%Q.
Proof.
  unfold exceeds, Qgt_bool. rewrite negb_false_iff. apply Qle_bool_iff.
Qed.

(** The state of the loop after the messages [pre ++ [prev]]: going through
    [rest] adds the runs of [rest] to those gathered so far. *)
Lemma split_loop (g : Z) (msgs : list A) (rest pre : list A) (prev : A)
    (chunks : list (list A)) (current : list A) :
  msgs = pre ++ prev :: rest ->
  current <> [] ->
  exists (chunks' : list (list A)) (current' : list A),
    fold_left
      (fun (st : list (list A) * list A) (i : nat) =>
         let '(chunks, current_chunk) := st in
         match msgs !! (i - 1)%nat, msgs !! i with
         | Some prev_msg, Some curr_msg =>
             if Qgt_bool (gap (timestamp prev_msg) (timestamp curr_msg))
                  (inject_Z g)
             then (chunks ++ [current_chunk], [curr_msg])
             else (chunks, current_chunk ++ [curr_msg])
         | _, _ => st
         end)
      (seq (S (length pre)) (length rest)) (chunks, current)
    = (chunks', current')
    /\ current' <> []
    /\ chunks' ++ [current'] = chunks ++ runs_from timestamp g current prev rest.
Proof.
  revert pre prev chunks current.
  induction rest as [|curr rest IH]; intros pre prev chunks current Hmsgs Hne.
  - simpl. by exists chunks, current.
  - cbn [length seq fold_left].
    assert (Hprev : msgs !! (S (length pre) - 1)%nat = Some prev).
    { rewrite Hmsgs. replace (S (length pre) - 1)%nat with (length pre) by lia.
      by rewrite list_lookup_middle. }
    assert (Hcurr : msgs !! S (length pre) = Some curr).
    { rewrite Hmsgs.
      rewrite (lookup_app_r pre) by lia.
      by replace (S (length pre) - length pre)%nat with 1%nat by lia. }
    rewrite Hprev, Hcurr.
    assert (Hmsgs' : msgs = (pre ++ [prev]) ++ curr :: rest).
    { by rewrite <- app_assoc. }
    assert (Hlen : S (length pre) = length (pre ++ [prev])).
    { rewrite length_app. simpl. lia. }
    cbn [runs_from]. unfold exceeds.
    destruct (Qgt_bool _ _).
    + rewrite Hlen.
      destruct (IH (pre ++ [prev]) curr (chunks ++ [current]) [curr] Hmsgs')
        as (chunks' & current' & Hfold & Hne' & Heq); [done|].
      exists chunks', current'. split; [done|]. split; [done|].
      by rewrite Heq, <- app_assoc.
    + rewrite Hlen.
      destruct (IH (pre ++ [prev]) curr chunks (current ++ [curr]) Hmsgs')
        as (chunks' & current' & Hfold & Hne' & Heq).
      { by destruct current. }
      by exists chunks', current'.
Qed.

(** The code computes the runs of the specification. *)
Lemma split_messages_by_time_runs (msgs : list A) (g : Z) :
  helpers.split_messages_by_time timestamp msgs g = runs timestamp g msgs.
Proof.
  unfold helpers.split_messages_by_time, runs.
  destruct msgs as [|first rest]; [done|].
  destruct (split_loop g (first :: rest) rest [] first [] [first])
    as (chunks' & current' & Hfold & Hne & Heq); [done..|].
  cbn [length] in *. replace (S (length rest) - 1)%nat with (length rest) by lia.
  rewrite Hfold. destruct current'; [done|]. by rewrite Heq.
Qed.

Lemma runs_from_concat (g : Z) (rest current : list A) (prev : A) :
  concat (runs_from timestamp g current prev rest) = current ++ rest.
Proof.
  revert current prev.
  induction rest as [|curr rest IH]; intros current prev; simpl.
  - by rewrite app_nil_r.
  - destruct (exceeds _ _ _ _); simpl; rewrite IH; [done|].
    by rewrite <- app_assoc.
Qed.

Lemma runs_from_nonempty (g : Z) (rest current : list A) (prev : A) :
  current <> [] ->
  Forall (fun t => t <> []) (runs_from timestamp g current prev rest).
Proof.
  revert current prev.
  induction rest as [|curr rest IH]; intros current prev Hne; simpl.
  - by constructor.
  - destruct (exceeds _ _ _ _).
    + constructor; [done|]. by apply IH.
    + apply IH. by destruct current.
Qed.

(** The first run starts with the messages gathered so far. *)
Lemma runs_from_first (g : Z) (rest current : list A) (prev : A) :
  exists (more : list A) (others : list (list A)),
    runs_from timestamp g current prev rest = (current ++ more) :: others.
Proof.
  revert current prev.
  induction rest as [|curr rest IH]; intros current prev; simpl.
  - exists [], []. by rewrite app_nil_r.
  - destruct (exceeds _ _ _ _).
    + exists [], (runs_from timestamp g [curr] curr rest).
      by rewrite app_nil_r.
    + destruct (IH (current ++ [curr]) curr) as (more & others & ->).
      exists (curr :: more), others. by rewrite <- app_assoc.
Qed.

Lemma close_knit_snoc (g : Z) (current : list A) (prev curr : A) :
  close_knit timestamp g current ->
  last current = Some prev ->
  exceeds timestamp g prev curr = false ->
  close_knit timestamp g (current ++ [curr]).
Proof.
  intros Hck Hlast Hgap i a b Ha Hb.
  destruct (decide (S i < length current)%nat) as [Hlt|Hge].
  - rewrite lookup_app_l in Ha, Hb by lia. eauto.
  - assert (Hi : S i = length current).
    { apply lookup_lt_Some in Hb. rewrite length_app in Hb. simpl in Hb. lia. }
    rewrite lookup_app_l in Ha by lia.
    rewrite lookup_app_r in Hb by lia.
    replace (S i - length current)%nat with 0%nat in Hb by lia.
    injection Hb as <-.
    rewrite last_lookup in Hlast.
    replace (Nat.pred (length current)) with i in Hlast by lia.
    rewrite Ha in Hlast. injection Hlast as ->.
    by apply exceeds_false.
Qed.

Lemma runs_from_close_knit (g : Z) (rest current : list A) (prev : A) :
  close_knit timestamp g current ->
  last current = Some prev ->
  Forall (close_knit timestamp g) (runs_from timestamp g current prev rest).
Proof.
  revert current prev.
  induction rest as [|curr rest IH]; intros current prev Hck Hlast; simpl.
  - by constructor.
  - destruct (exceeds timestamp g prev curr) eqn:Hgap.
    + constructor; [done|]. apply IH; [|done].
      intros [|i] a b Ha Hb; done.
    + apply IH.
      * by eapply close_knit_snoc.
      * by rewrite last_snoc.
Qed.

Lemma runs_from_split_at_gaps (g : Z) (rest current : list A) (prev : A) :
  last current = Some prev ->
  split_at_gaps timestamp g (runs_from timestamp g current prev rest).
Proof.
  revert current prev.
  induction rest as [|curr rest IH]; intros current prev Hlast; simpl.
  - intros [|k] t1 t2 H1 H2; done.
  - destruct (exceeds timestamp g prev curr) eqn:Hgap.
    + intros [|k] t1 t2 H1 H2.
      * simpl in H1, H2. injection H1 as <-.
        destruct (runs_from_first g rest [curr] curr) as (more & others & E).
        rewrite E in H2. simpl in H2. injection H2 as <-.
        exists prev, curr. split; [done|]. split; [done|].
        by apply exceeds_true.
      * simpl in H1, H2. by eapply (IH [curr] curr).
    + apply IH. by rewrite last_snoc.
Qed.

(** The partition [split_messages_by_time] computes. *)
Lemma split_messages_by_time_partition (msgs : list A) (g : Z) :
  let chunks := helpers.split_messages_by_time timestamp msgs g in
  concat chunks = msgs
  /\ Forall (fun t => t <> []) chunks
  /\ Forall (close_knit timestamp g) chunks
  /\ split_at_gaps timestamp g chunks.
Proof.
  simpl. rewrite split_messages_by_time_runs.
  destruct msgs as [|first rest]; simpl.
  - repeat split; try by constructor.
    intros k t1 t2 H1; done.
  - split; [by rewrite runs_from_concat|].
    split; [by apply runs_from_nonempty|].
    split; [|by apply runs_from_split_at_gaps].
    apply runs_from_close_knit; [|done].
    intros [|i] a b Ha Hb; done.
Qed.
End SegmentationFacts.

Section ThreadFacts.
Context `{DateTimeLib}.

(** The method and the helper are the same code. *)
Lemma get_conversation_threads_split (s : ChatSession.t) (g : Z) :
  ChatSession.get_conversation_threads s g
  = helpers.split_messages_by_time ChatMessage.timestamp
      (ChatSession.messages s) g.
Proof. reflexivity. Qed.

(** C7.  For a session whose timestamps are less than 2^52 in size (so are
    all those [datetime.fromtimestamp] accepts), and any threshold [g] in
    minutes, the threads are contiguous runs of the messages of the session:
    put end to end they give the messages back, and none is empty.  A new
    thread starts exactly where [(next.timestamp - prev.timestamp) / 60] is
    strictly greater than [g], which is to say where
    [next.timestamp - prev.timestamp] is more than [60 * g] seconds: between
    neighbours inside a thread the difference is at most [60 * g], and from
    the last message of a thread to the first of the next it is more than
    [60 * g].  No message gives no thread and one message gives one thread;
    two messages exactly [60 * g] seconds apart share a thread, and two
    messages further apart make two threads; the timestamps 0, 100 and 3000
    with a threshold of 30 minutes give the threads [[0, 100]] and
    [[3000]]. *)
Theorem conversation_threads_by_gap (s : ChatSession.t) (g : Z) :
  Forall (fun m => Z.abs (ChatMessage.timestamp m) < 2 ^ 52)
    (ChatSession.messages s) ->
  let threads := ChatSession.get_conversation_threads s g in
  concat threads = ChatSession.messages s
  /\ Forall (fun t => t <> []) threads
  /\ (forall (t : list ChatMessage.t) (i : nat) (a b : ChatMessage.t),
        t ∈ threads ->
        t !! i = Some a ->
        t !! (S i) = Some b ->
        ChatMessage.timestamp b - ChatMessage.timestamp a <= 60 * g)
  /\ (forall (k : nat) (t1 t2 : list ChatMessage.t),
        threads !! k = Some t1 ->
        threads !! (S k) = Some t2 ->
        exists a b : ChatMessage.t,
          last t1 = Some a /\ head t2 = Some b
          /\ 60 * g < ChatMessage.timestamp b - ChatMessage.timestamp a)
  /\ (ChatSession.messages s = [] -> threads = [])
  /\ (forall m, ChatSession.messages s = [m] -> threads = [[m]])
  /\ (forall a b,
        ChatSession.messages s = [a; b] ->
        ChatMessage.timestamp b - ChatMessage.timestamp a = 60 * g ->
        threads = [[a; b]])
  /\ (forall a b,
        ChatSession.messages s = [a; b] ->
        (60 * g < ChatMessage.timestamp b - ChatMessage.timestamp a
         <-> threads = [[a]; [b]])
        /\ (ChatMessage.timestamp b - ChatMessage.timestamp a <= 60 * g
            <-> threads = [[a; b]]))
  /\ (forall m0 m1 m2,
        ChatSession.messages s = [m0; m1; m2] ->
        ChatMessage.timestamp m0 = 0 ->
        ChatMessage.timestamp m1 = 100 ->
        ChatMessage.timestamp m2 = 3000 ->
        g = 30 ->
        threads = [[m0; m1]; [m2]]).
Proof.
  intros Hbound. cbv zeta. rewrite get_conversation_threads_split.
  destruct (split_messages_by_time_partition ChatMessage.timestamp
              (ChatSession.messages s) g) as (Hcat & Hne & Hck & Hsplit).
  assert (Hdiff : forall a b : ChatMessage.t,
            a ∈ ChatSession.messages s ->
            b ∈ ChatSession.messages s ->
            Z.abs (ChatMessage.timestamp b - ChatMessage.timestamp a)
            < 2 ^ 53).
  { intros a b Ha Hb. rewrite Forall_forall in Hbound.
    pose proof (Hbound a Ha). pose proof (Hbound b Hb). lia. }
  assert (Hrule : forall a b : ChatMessage.t,
            a ∈ ChatSession.messages s ->
            b ∈ ChatSession.messages s ->
            exceeds ChatMessage.timestamp g a b
            = (60 * g <? ChatMessage.timestamp b - ChatMessage.timestamp a)).
  { intros a b Ha Hb. unfold exceeds. apply Qgt_bool_gap. by apply Hdiff. }
  assert (Hin : forall (t : list ChatMessage.t) (m : ChatMessage.t),
            t ∈ helpers.split_messages_by_time ChatMessage.timestamp
                  (ChatSession.messages s) g ->
            m ∈ t -> m ∈ ChatSession.messages s).
  { intros t m Ht Hm. rewrite <- Hcat. apply list_elem_of_In, in_concat.
    exists t. by rewrite <- !list_elem_of_In. }
  split; [done|]. split; [done|]. split; [|split].
  - intros t i a b Ht Ha Hb. rewrite Forall_forall in Hck.
    pose proof (Hck t Ht i a b Ha Hb) as Hgap.
    apply exceeds_false in Hgap. rewrite Hrule in Hgap.
    + by apply Z.ltb_ge in Hgap.
    + apply (Hin t); [done|]. by eapply list_elem_of_lookup_2.
    + apply (Hin t); [done|]. by eapply list_elem_of_lookup_2.
  - intros k t1 t2 Ht1 Ht2.
    destruct (Hsplit k t1 t2 Ht1 Ht2) as (a & b & Ha & Hb & Hgap).
    exists a, b. split; [done|]. split; [done|].
    apply exceeds_true in Hgap. rewrite Hrule in Hgap.
    + by apply Z.ltb_lt in Hgap.
    + apply (Hin t1); [by eapply list_elem_of_lookup_2|].
      by apply last_Some_elem_of.
    + apply (Hin t2); [by eapply list_elem_of_lookup_2|].
      destruct t2 as [|b' t2]; [done|]. injection Hb as ->. by left.
  - rewrite split_messages_by_time_runs.
    split; [intros ->; reflexivity|]. split; [intros m ->; reflexivity|].
    assert (Hpair : forall a b,
              ChatSession.messages s = [a; b] ->
              runs ChatMessage.timestamp g [a; b]
              = if 60 * g <? ChatMessage.timestamp b - ChatMessage.timestamp a
                then [[a]; [b]] else [[a; b]]).
    { intros a b Hmsgs. cbn [runs runs_from].
      rewrite Hrule by (rewrite Hmsgs; own_key).
      by destruct (_ <? _). }
    split; [|split].
    + intros a b Hmsgs Heq. rewrite Hmsgs, (Hpair a b Hmsgs).
      by rewrite (proj2 (Z.ltb_ge _ _)) by lia.
    + intros a b Hmsgs. rewrite Hmsgs, (Hpair a b Hmsgs).
      destruct (Z.ltb_spec (60 * g)
                  (ChatMessage.timestamp b - ChatMessage.timestamp a));
        (split; split; (done || lia)).
    + intros m0 m1 m2 Hmsgs H0 H1 H2 ->. rewrite Hmsgs.
      cbn [runs runs_from].
      rewrite !Hrule by (rewrite Hmsgs; own_key).
      rewrite H0, H1, H2. reflexivity.
Qed.

(** C10.  For every session and threshold the threads, put end to end in
    order, are exactly the messages of the session, so that every message is
    in one thread and one only, at its place; no thread is empty;
    [split_messages_by_time] gives the same threads on the messages of the
    session, and on any list of messages the partition into runs.  For a
    session as its constructor leaves it, the timestamps ascend along the
    threads taken in order. *)
Theorem threads_partition_messages :
  (forall (s : ChatSession.t) (g : Z),
      let threads := ChatSession.get_conversation_threads s g in
      concat threads = ChatSession.messages s
      /\ Forall (fun t => t <> []) threads
      /\ helpers.split_messages_by_time ChatMessage.timestamp
           (ChatSession.messages s) g = threads)
  /\ (forall (msgs : list ChatMessage.t) (g : Z),
        let chunks :=
          helpers.split_messages_by_time ChatMessage.timestamp msgs g in
        concat chunks = msgs
        /\ Forall (fun t => t <> []) chunks
        /\ Forall (close_knit ChatMessage.timestamp g) chunks
        /\ split_at_gaps ChatMessage.timestamp g chunks)
  /\ (forall chatlab meta members msgs (g : Z),
        let s := ChatSession.new chatlab meta members msgs in
        ascending ChatMessage.timestamp
          (concat (ChatSession.get_conversation_threads s g))).
Proof.
  split; [|split].
  - intros s g. cbv zeta. rewrite get_conversation_threads_split.
    destruct (split_messages_by_time_partition ChatMessage.timestamp
                (ChatSession.messages s) g) as (Hcat & Hne & _ & _).
    done.
  - intros msgs g. apply split_messages_by_time_partition.
  - intros chatlab meta members msgs g. cbv zeta.
    rewrite get_conversation_threads_split.
    destruct (split_messages_by_time_partition ChatMessage.timestamp
                (ChatSession.messages
                   (ChatSession.new chatlab meta members msgs)) g)
      as (-> & _).
    apply (sorted_by_key_ascending ChatMessage.timestamp), sort_by_key_sorted.
Qed.
End ThreadFacts.

Section ThreadSamples.
Import Reference Samples.
#[local] Existing Instance utc.

(** The example of the specification: the messages at 0, 100 and 3000
    seconds and a threshold of 30 minutes give two threads; no message gives
    no thread. *)
Lemma conversation_threads_by_gap_witness :
  Forall (fun m => Z.abs (ChatMessage.timestamp m) < 2 ^ 52)
    (ChatSession.messages session_0_100_3000)
  /\ ChatSession.get_conversation_threads session_0_100_3000 30
     = [[at_0; at_100]; [at_3000]]
  /\ ChatSession.get_conversation_threads session_no_message 30 = [].
Proof.
  assert (Hbound : Forall (fun m => Z.abs (ChatMessage.timestamp m) < 2 ^ 52)
                     (ChatSession.messages session_0_100_3000)).
  { constructor; [reflexivity|]. constructor; [reflexivity|].
    constructor; [reflexivity|]. constructor. }
  assert (Hnone : Forall (fun m => Z.abs (ChatMessage.timestamp m) < 2 ^ 52)
                    (ChatSession.messages session_no_message))
    by constructor.
  destruct (conversation_threads_by_gap session_0_100_3000 30 Hbound)
    as (_ & _ & _ & _ & _ & _ & _ & _ & Hthree).
  destruct (conversation_threads_by_gap session_no_message 30 Hnone)
    as (_ & _ & _ & _ & Hempty & _).
  split; [exact Hbound|]. split.
  - exact (Hthree at_0 at_100 at_3000 eq_refl eq_refl eq_refl eq_refl
             eq_refl).
  - exact (Hempty eq_refl).
Defined.
End ThreadSamples.

(** ** C1: encoding a session and decoding it again *)

Section RoundTrip.
Context `{DateTimeLib}.

Lemma ChatLabVersion_round_trip (v : ChatLabVersion.t) :
  ChatLabVersion.from_dict (PDict (ChatLabVersion.to_dict v)) = Ok v.
Proof. by destruct v. Qed.

Lemma ChatMeta_round_trip (m : ChatMeta.t) :
  absent_or_filled (ChatMeta.avatar m) ->
  absent_or_filled (ChatMeta.description m) ->
  ChatMeta.from_dict (PDict (ChatMeta.to_dict m)) = Ok m.
Proof.
  unfold absent_or_filled.
  destruct m as [n p t o [[|a av]|] [[|b ds]|]]; simpl; intros Ha Hd;
    done.
Qed.

Lemma ChatMember_round_trip (m : ChatMember.t) :
  absent_or_filled (ChatMember.role m) ->
  absent_or_filled (ChatMember.avatar m) ->
  absent_or_filled (ChatMember.remark m) ->
  ChatMember.from_dict (PDict (ChatMember.to_dict m)) = Ok m.
Proof.
  unfold absent_or_filled.
  destruct m as [p n [[|a r]|] [[|b av]|] [[|c rm]|]]; simpl;
    intros Hr Ha Hm; done.
Qed.

Lemma ChatMessage_round_trip (m : ChatMessage.t) :
  ChatMessage.constructed m ->
  absent_or_filled (ChatMessage.reply_to m) ->
  ChatMessage.from_dict (PDict (ChatMessage.to_dict m)) = Ok m.
Proof.
  unfold absent_or_filled, ChatMessage.constructed.
  destruct m as [s n ts ty c p [[|a r]|] dt]; simpl; intros Hc Hr;
    try done.
  - transitivity (ChatMessage.new s n ts ty c p (Some (String a r)));
      [reflexivity|].
    unfold ChatMessage.new. by rewrite Hc.
  - transitivity (ChatMessage.new s n ts ty c p None); [reflexivity|].
    unfold ChatMessage.new. by rewrite Hc.
Qed.

Lemma comprehension_round_trip {A : Type} (decode : pyval -> result A)
    (encode : A -> pyval) (l : list A) :
  Forall (fun x => decode (encode x) = Ok x) l ->
  comprehension decode (encode <$> l) = Ok l.
Proof.
  induction 1 as [|x l Hx Hl IH]; [done|].
  rewrite fmap_cons. cbn [comprehension]. rewrite Hx, IH. reflexivity.
Qed.

(** [ChatSession.from_dict] on a dict that holds the four keys. *)
Lemma ChatSession_from_dict_fields (d : gmap string pyval)
    (dc dm : pyval) (lmem lmsg : list pyval)
    (c : ChatLabVersion.t) (m : ChatMeta.t) (mem : list ChatMember.t)
    (msg : list ChatMessage.t) :
  d !! "chatlab"%string = Some dc ->
  d !! "meta"%string = Some dm ->
  d !! "members"%string = Some (PList lmem) ->
  d !! "messages"%string = Some (PList lmsg) ->
  ChatLabVersion.from_dict dc = Ok c ->
  ChatMeta.from_dict dm = Ok m ->
  comprehension ChatMember.from_dict lmem = Ok mem ->
  comprehension ChatMessage.from_dict lmsg = Ok msg ->
  ChatSession.from_dict (PDict d) = Ok (ChatSession.new c m mem msg).
Proof.
  intros Hc Hm Hmem Hmsg Ec Em Emem Emsg.
  unfold ChatSession.from_dict, get_or_empty_dict, get_iter.
  cbn [as_dict]. unfold mbind at 1. unfold result_bind at 1.
  rewrite Hc, Hm, Hmem, Hmsg. cbn [default id].
  rewrite Ec. unfold mbind at 1, result_bind at 1.
  rewrite Em. unfold mbind at 1, result_bind at 1.
  unfold mbind at 1, result_bind at 1.
  rewrite Emem. unfold mbind at 1, result_bind at 1.
  unfold mbind at 1, result_bind at 1.
  rewrite Emsg. reflexivity.
Qed.

(** C1, as the code has it.  A session as the constructor leaves it, none of
    whose optional fields ([meta.avatar], [meta.description], the [role],
    [avatar] and [remark] of a member, the [replyTo] of a message) holds the
    empty string, is decoded from its encoded form as an equal session: the
    same version information, meta-data, members and messages, in the same
    order. *)
Theorem session_round_trip (s : ChatSession.t) :
  canonical s ->
  optionals_filled s ->
  ChatSession.from_dict (PDict (ChatSession.to_dict s)) = Ok s.
Proof.
  intros [Hasc Hcons] (Hav & Hds & Hmem & Hmsg).
  destruct s as [v m mem msgs]. cbn [ChatSession.messages ChatSession.meta
    ChatSession.members ChatSession.chatlab] in *.
  assert (Hsorted : ChatSession.new v m mem msgs
                    = {| ChatSession.chatlab := v; ChatSession.meta := m;
                         ChatSession.members := mem;
                         ChatSession.messages := msgs |}).
  { unfold ChatSession.new, ChatSession.__post_init__.
    cbn [ChatSession.messages ChatSession.meta ChatSession.members
         ChatSession.chatlab].
    rewrite (sort_by_key_sorted_id ChatMessage.timestamp); [done|].
    by apply ascending_sorted_by_key. }
  rewrite <- Hsorted at 2.
  eapply ChatSession_from_dict_fields; try reflexivity.
  - apply ChatLabVersion_round_trip.
  - by apply ChatMeta_round_trip.
  - apply (comprehension_round_trip ChatMember.from_dict
             (PDict ∘ ChatMember.to_dict)).
    eapply Forall_impl; [exact Hmem|]. cbn beta.
    intros x (? & ? & ?). by apply ChatMember_round_trip.
  - apply (comprehension_round_trip ChatMessage.from_dict
             (PDict ∘ ChatMessage.to_dict)).
    apply Forall_forall. intros x Hx.
    rewrite Forall_forall in Hcons, Hmsg.
    apply ChatMessage_round_trip; auto.
Qed.
End RoundTrip.

Section RoundTripSamples.
Import Reference Samples.
#[local] Existing Instance utc.

Lemma sample_session_canonical : canonical session.
Proof.
  split.
  - apply (sorted_by_key_ascending ChatMessage.timestamp), sort_by_key_sorted.
  - repeat constructor.
Qed.

Lemma sample_session_optionals_filled : optionals_filled session.
Proof.
  unfold optionals_filled, absent_or_filled. simpl.
  repeat split; repeat constructor; done.
Qed.

(** The round trip on the sample session. *)
Lemma session_round_trip_witness :
  canonical session /\ optionals_filled session
  /\ ChatSession.from_dict (PDict (ChatSession.to_dict session)) = Ok session.
Proof.
  split; [exact sample_session_canonical|].
  split; [exact sample_session_optionals_filled|].
  exact (session_round_trip session sample_session_canonical
           sample_session_optionals_filled).
Defined.

(** C1 as stated fails: a session as the constructor leaves it, whose
    [meta.avatar] is the empty string, is encoded without the key ["avatar"]
    and decoded with no avatar at all. *)
Lemma round_trip_drops_empty_avatar :
  canonical session_empty_avatar
  /\ ChatMeta.avatar (ChatSession.meta session_empty_avatar) = Some ""%string
  /\ ChatSession.to_dict session_empty_avatar !! "meta"%string
     = Some (PDict (ChatMeta.to_dict meta))
  /\ ChatSession.from_dict (PDict (ChatSession.to_dict session_empty_avatar))
     = Ok (ChatSession.new version meta [alice; bob] [hello_everyone])
  /\ ChatSession.from_dict (PDict (ChatSession.to_dict session_empty_avatar))
     <> Ok session_empty_avatar.
Proof.
  assert (E : ChatSession.from_dict
                (PDict (ChatSession.to_dict session_empty_avatar))
              = Ok (ChatSession.new version meta [alice; bob]
                      [hello_everyone])) by reflexivity.
  split.
  { split.
    - apply (sorted_by_key_ascending ChatMessage.timestamp), sort_by_key_sorted.
    - repeat constructor. }
  split; [reflexivity|]. split; [reflexivity|].
  split; [exact E|].
  rewrite E. intros Heq. discriminate Heq.
Qed.
End RoundTripSamples.

(** ** C9: keyword search *)

Section StringFacts.

Lemma prefix_app (needle hay : string) :
  String.prefix needle hay = true <-> exists post, hay = needle +:+ post.
Proof.
  revert hay. induction needle as [|c needle IH]; intros hay.
  - destruct hay; simpl; split; eauto.
  - destruct hay as [|c' hay]; simpl.
    + split; [done|]. by intros [post Hpost].
    + destruct (Ascii.ascii_dec c c') as [->|Hne].
      * rewrite IH. split.
        -- intros [post ->]. by exists post.
        -- intros [post Hpost]. injection Hpost as ->. by exists post.
      * split; [done|]. intros [post Hpost]. by injection Hpost as -> ->.
Qed.

(** [str_in] finds the contiguous occurrences. *)
Lemma str_in_spec (needle hay : string) :
  str_in needle hay = true
  <-> exists pre post, hay = pre +:+ needle +:+ post.
Proof.
  induction hay as [|c hay IH].
  - cbn [str_in]. rewrite orb_false_r, prefix_app. split.
    + intros [post ->]. by exists ""%string, post.
    + intros (pre & post & E). destruct pre as [|c pre]; [|done].
      by exists post.
  - cbn [str_in]. rewrite orb_true_iff, prefix_app, IH. split.
    + intros [[post ->]|(pre & post & ->)].
      * by exists ""%string, post.
      * by exists (String c pre), post.
    + intros (pre & post & E). destruct pre as [|c' pre].
      * left. by exists post.
      * right. simpl in E. injection E as -> ->. by exists pre, post.
Qed.

Lemma filter_sublist {A : Type} (f : A -> bool) (l : list A) :
  sublist (List.filter f l) l.
Proof.
  induction l as [|x l IH]; simpl; [constructor|].
  destruct (f x); by constructor.
Qed.

Lemma elem_of_filter {A : Type} (f : A -> bool) (l : list A) (x : A) :
  x ∈ List.filter f l <-> x ∈ l /\ f x = true.
Proof. rewrite !list_elem_of_In. apply filter_In. Qed.
End StringFacts.

Section KeywordSearch.
Context `{DateTimeLib} `{StrLib}.

(** C9.  A message is found, in the default mode, exactly when the
    lower-cased keyword occurs in its lower-cased content, so that keywords
    equal up to case find the same messages; with [case_sensitive] it is
    found exactly when the keyword itself occurs in its content.  The result
    is in both modes a sublist of the messages of the session, in their
    order.  The method is a function of the session and assigns nothing.
    Where [lower] sends "HELLO" and "hello" to "hello", the keyword "HELLO"
    finds a message "hello" in the default mode and not with
    [case_sensitive]; where it leaves Chinese text as it is, "天气" finds
    "今天天气不错". *)
Theorem keyword_search (s : ChatSession.t) (keyword : string) :
  let found := ChatSession.get_messages_by_keyword s keyword false in
  let found_exact := ChatSession.get_messages_by_keyword s keyword true in
  (forall m : ChatMessage.t,
      m ∈ found
      <-> m ∈ ChatSession.messages s
          /\ exists pre post : string,
               lower (ChatMessage.content m) = pre +:+ lower keyword +:+ post)
  /\ (forall m : ChatMessage.t,
        m ∈ found_exact
        <-> m ∈ ChatSession.messages s
            /\ exists pre post : string,
                 ChatMessage.content m = pre +:+ keyword +:+ post)
  /\ sublist found (ChatSession.messages s)
  /\ sublist found_exact (ChatSession.messages s)
  /\ (forall keyword' : string,
        lower keyword' = lower keyword ->
        ChatSession.get_messages_by_keyword s keyword' false = found)
  /\ (forall m : ChatMessage.t,
        m ∈ ChatSession.messages s ->
        ChatMessage.content m = "hello"%string ->
        keyword = "HELLO"%string ->
        lower "HELLO" = "hello"%string ->
        lower "hello" = "hello"%string ->
        (m ∈ found) /\ (m ∉ found_exact))
  /\ (forall m : ChatMessage.t,
        m ∈ ChatSession.messages s ->
        ChatMessage.content m = "今天天气不错"%string ->
        keyword = "天气"%string ->
        lower "天气" = "天气"%string ->
        lower "今天天气不错" = "今天天气不错"%string ->
        m ∈ found).
Proof.
  cbv zeta. unfold ChatSession.get_messages_by_keyword. cbn [negb].
  split; [|split; [|split; [|split; [|split; [|split]]]]].
  - intros m. rewrite elem_of_filter, str_in_spec. reflexivity.
  - intros m. rewrite elem_of_filter, str_in_spec. reflexivity.
  - apply filter_sublist.
  - apply filter_sublist.
  - intros keyword' ->. reflexivity.
  - intros m Hm Hc -> Hup Hlow. split.
    + apply elem_of_filter. split; [done|].
      rewrite Hup, Hc, Hlow. reflexivity.
    + intros Hin. apply elem_of_filter in Hin as [_ Hin].
      rewrite Hc in Hin. discriminate Hin.
  - intros m Hm Hc -> Hk Hl. apply elem_of_filter. split; [done|].
    rewrite Hc, Hk, Hl. reflexivity.
Qed.
End KeywordSearch.

Section KeywordSearchSamples.
Import Reference Samples.
#[local] Existing Instances utc ascii_strings.

(** The search on the sample session, with the reference strings: "天气"
    finds the message about the weather, "HELLO" finds "hello" unless the
    search is case-sensitive, and the session is the argument still. *)
Lemma keyword_search_witness :
  ChatSession.get_messages_by_keyword session "天气" false = [nice_weather]
  /\ (hello ∈ ChatSession.get_messages_by_keyword session "HELLO" false)
  /\ (hello ∉ ChatSession.get_messages_by_keyword session "HELLO" true)
  /\ (nice_weather
      ∈ ChatSession.get_messages_by_keyword session "天气" false).
Proof.
  split; [reflexivity|].
  assert (Hhello : hello ∈ ChatSession.messages session).
  { apply list_elem_of_In. simpl. tauto. }
  assert (Hweather : nice_weather ∈ ChatSession.messages session).
  { apply list_elem_of_In. simpl. tauto. }
  pose proof (keyword_search session "HELLO") as (_ & _ & _ & _ & _ & Hh & _).
  pose proof (keyword_search session "天气") as (_ & _ & _ & _ & _ & _ & Hw).
  destruct (Hh hello Hhello eq_refl eq_refl eq_refl eq_refl) as [Hin Hout].
  split; [exact Hin|]. split; [exact Hout|].
  exact (Hw nice_weather Hweather eq_refl eq_refl eq_refl eq_refl).
Defined.
End KeywordSearchSamples.

(** ** C8: statistics *)

Section CountFacts.

(** A dict of counters filled by a loop holds, under each key, the number of
    elements counted under it, and no entry for a key never counted. *)
Lemma count_up_fold {A : Type} (f : A -> string) (l : list A)
    (init : gmap string Z) (k : string) :
  fold_left (fun counts x => ChatSession.count_up (f x) counts) l init !! k
  = match List.filter (fun x => String.eqb (f x) k) l with
    | [] => init !! k
    | found =>
        Some (default 0 (init !! k) + Z.of_nat (length found))
    end.
Proof.
  revert init. induction l as [|x l IH]; intros init; [done|].
  cbn [fold_left List.filter]. rewrite IH. unfold ChatSession.count_up.
  destruct (String.eqb_spec (f x) k) as [->|Hne].
  - rewrite lookup_insert_eq.
    destruct (List.filter _ l); cbn [from_option id length]; f_equal; lia.
  - by rewrite lookup_insert_ne.
Qed.

Lemma total_count_insert (stats : gmap string sender_stat) (k : string)
    (e : sender_stat) :
  stats !! k = None ->
  total_count (<[k := e]> stats) = stat_count e + total_count stats.
Proof.
  intros Hk. unfold total_count.
  rewrite map_fold_insert_L; [done| |done].
  intros. lia.
Qed.

Lemma total_count_delete (stats : gmap string sender_stat) (k : string)
    (e : sender_stat) :
  stats !! k = Some e ->
  total_count stats = stat_count e + total_count (delete k stats).
Proof.
  intros Hk. unfold total_count.
  rewrite (map_fold_delete_L _ _ k e stats); [done| |done].
  intros. lia.
Qed.
End CountFacts.

Section Statistics.
Context `{DateTimeLib}.

Lemma sender_stats_lookup (s : ChatSession.t) (sender_id : string) :
  ChatSession.get_sender_stats s !! sender_id
  = stat_of (ChatSession.get_messages_by_sender s sender_id).
Proof.
  unfold ChatSession.get_sender_stats, ChatSession.get_messages_by_sender.
  induction (ChatSession.messages s) as [|m l IH] using rev_ind; [done|].
  rewrite fold_left_app, List.filter_app. cbn [fold_left List.filter].
  set (stats := fold_left ChatSession.sender_stats_step l ∅) in *.
  unfold ChatSession.sender_stats_step.
  destruct (String.eqb_spec (ChatMessage.sender m) sender_id) as [<-|Hne].
  - rewrite !lookup_alter_eq.
    destruct (stats !! ChatMessage.sender m) as [e|] eqn:He.
    + rewrite He. symmetry in IH.
      destruct (List.filter _ l) as [|first found]; [done|].
      cbn [stat_of] in IH. injection IH as <-.
      cbn [fmap option_fmap option_map app stat_of].
      unfold ChatSession.set_last_message, ChatSession.add_count.
      cbn [stat_account_name stat_count stat_first_message stat_last_message].
      f_equal. f_equal.
      * cbn [length]. rewrite length_app. cbn [length]. lia.
      * change (first :: found ++ [m]) with ((first :: found) ++ [m]).
        by rewrite last_last.
    + rewrite lookup_insert_eq. symmetry in IH.
      destruct (List.filter _ l) as [|first found]; [|done].
      reflexivity.
  - rewrite app_nil_r, !lookup_alter_ne by done.
    destruct (stats !! ChatMessage.sender m); [done|].
    by rewrite lookup_insert_ne.
Qed.

Lemma sender_stats_step_total (stats : gmap string sender_stat)
    (m : ChatMessage.t) :
  total_count (ChatSession.sender_stats_step stats m) = total_count stats + 1.
Proof.
  unfold ChatSession.sender_stats_step.
  destruct (stats !! ChatMessage.sender m) as [e|] eqn:He.
  - rewrite (alter_alt _ stats), He.
    rewrite alter_insert_eq.
    rewrite <- insert_delete_eq.
    rewrite total_count_insert by apply lookup_delete_eq.
    rewrite (total_count_delete stats _ e He).
    unfold ChatSession.set_last_message, ChatSession.add_count.
    cbn [stat_count]. lia.
  - rewrite !alter_insert_eq, total_count_insert by done.
    unfold ChatSession.set_last_message, ChatSession.add_count.
    cbn [stat_count]. lia.
Qed.

(** The counts of the senders add up to the number of messages. *)
Lemma sender_stats_total (s : ChatSession.t) :
  total_count (ChatSession.get_sender_stats s)
  = Z.of_nat (length (ChatSession.messages s)).
Proof.
  unfold ChatSession.get_sender_stats.
  induction (ChatSession.messages s) as [|m l IH] using rev_ind; [done|].
  rewrite fold_left_app. cbn [fold_left].
  rewrite sender_stats_step_total, IH, length_app. cbn [length]. lia.
Qed.

(** The senders of [get_sender_stats] are the senders of the messages. *)
Lemma sender_stats_dom (s : ChatSession.t) :
  dom (ChatSession.get_sender_stats s)
  = list_to_set (ChatMessage.sender <$> ChatSession.messages s).
Proof.
  apply set_eq. intros k.
  rewrite elem_of_dom, sender_stats_lookup, elem_of_list_to_set,
    list_elem_of_fmap.
  unfold ChatSession.get_messages_by_sender. split.
  - intros [e He].
    destruct (List.filter _ _) as [|first found] eqn:Hf; [done|].
    assert (Hin : first ∈ List.filter
                    (fun m => String.eqb (ChatMessage.sender m) k)
                    (ChatSession.messages s)).
    { rewrite Hf. by left. }
    apply elem_of_filter in Hin as [Hin Hk].
    apply String.eqb_eq in Hk. by exists first.
  - intros (m & -> & Hin).
    assert (Hm : m ∈ List.filter
                   (fun m' => String.eqb (ChatMessage.sender m')
                                (ChatMessage.sender m))
                   (ChatSession.messages s)).
    { apply elem_of_filter. split; [done|]. apply String.eqb_refl. }
    destruct (List.filter _ _) as [|first found]; [by inversion Hm|].
    by eexists.
Qed.
(** The label of a type code: its name in the table, "text" for a code
    outside 0..9; the code stored in the message is not touched. *)
Lemma message_type_label (m : ChatMessage.t) :
  MessageType.to_string (ChatMessage.message_type m)
  = default "text"%string (MessageType.names !! ChatMessage.type m).
Proof.
  unfold ChatMessage.message_type, MessageType.from_int, MessageType.of_value.
  destruct (ChatMessage.type m) as [|p|p]; [done| |done].
  do 4 (destruct p as [p|p|]; try done).
Qed.

Lemma unique_senders_dom (s : ChatSession.t) :
  ChatSession.unique_senders (ChatSession.messages s)
  = Z.of_nat (size (ChatSession.get_sender_stats s)).
Proof.
  unfold ChatSession.unique_senders.
  by rewrite <- sender_stats_dom, size_dom.
Qed.

(** What [get_statistics] reports.  The total is the number of messages; the
    number of senders is that of the distinct sender ids, which are the keys
    of the per-sender statistics; the date range goes from the first message
    to the last, and is [None] without messages; the counts by type are keyed
    by the label of the type and count the messages of each label; the
    timeline counts the messages of each date; the per-sender statistics
    hold, for each sender, the name and time of its first message, the time
    of its last, and the number of its messages, which add up to the total.
    Without messages the dict has no entry "sender_stats". *)
Theorem session_statistics (s : ChatSession.t) :
  let stats := ChatSession.get_statistics s in
  let msgs := ChatSession.messages s in
  stats !! "total_messages"%string = Some (StatInt (Z.of_nat (length msgs)))
  /\ stats !! "unique_senders"%string
     = Some (StatInt
               (Z.of_nat
                  (size (list_to_set (ChatMessage.sender <$> msgs)
                         : gset string))))
  /\ stats !! "date_range"%string
     = Some match msgs with
            | [] => StatNone
            | first :: _ =>
                StatDateRange (ChatMessage.datetime_str first)
                  (ChatMessage.datetime_str (List.last msgs first))
            end
  /\ (exists counts : gmap string Z,
        stats !! "message_types"%string = Some (StatCounts counts)
        /\ forall label : string,
             counts !! label
             = match List.filter
                       (fun m =>
                          String.eqb
                            (MessageType.to_string
                               (ChatMessage.message_type m)) label) msgs
               with
               | [] => None
               | found => Some (Z.of_nat (length found))
               end)
  /\ (exists timeline : gmap string Z,
        stats !! "timeline"%string = Some (StatCounts timeline)
        /\ forall date : string,
             timeline !! date
             = match List.filter
                       (fun m =>
                          String.eqb
                            (str_take 10 (ChatMessage.datetime_str m)) date)
                       msgs
               with
               | [] => None
               | found => Some (Z.of_nat (length found))
               end)
  /\ stats !! "sender_stats"%string
     = match msgs with
       | [] => None
       | _ :: _ => Some (StatSenders (ChatSession.get_sender_stats s))
       end
  /\ (forall sender_id : string,
        ChatSession.get_sender_stats s !! sender_id
        = stat_of (ChatSession.get_messages_by_sender s sender_id))
  /\ dom (ChatSession.get_sender_stats s)
     = list_to_set (ChatMessage.sender <$> msgs)
  /\ total_count (ChatSession.get_sender_stats s) = Z.of_nat (length msgs).
Proof.
  cbv zeta.
  assert (Hcounts : forall (f : ChatMessage.t -> string) (label : string),
            fold_left (fun counts x => ChatSession.count_up (f x) counts)
              (ChatSession.messages s) ∅ !! label
            = match List.filter (fun m => String.eqb (f m) label)
                      (ChatSession.messages s)
              with
              | [] => None
              | found => Some (Z.of_nat (length found))
              end).
  { intros f label. rewrite count_up_fold, lookup_empty.
    destruct (List.filter _ _); [done|]. f_equal. }
  split; [|split; [|split; [|split; [|split; [|split; [|split; [|split]]]]]]].
  - unfold ChatSession.get_statistics.
    by destruct (ChatSession.messages s).
  - unfold ChatSession.get_statistics, ChatSession.unique_senders.
    by destruct (ChatSession.messages s).
  - unfold ChatSession.get_statistics.
    by destruct (ChatSession.messages s).
  - exists (ChatSession.type_counts (ChatSession.messages s)). split.
    + unfold ChatSession.get_statistics.
      by destruct (ChatSession.messages s).
    + intros label. apply Hcounts.
  - exists (ChatSession.get_timeline s). split.
    + unfold ChatSession.get_statistics, ChatSession.get_timeline.
      by destruct (ChatSession.messages s).
    + intros date. apply Hcounts.
  - unfold ChatSession.get_statistics.
    by destruct (ChatSession.messages s).
  - apply sender_stats_lookup.
  - apply sender_stats_dom.
  - apply sender_stats_total.
Qed.

(** Three messages from two distinct senders: two senders are counted, three
    messages, and the counts of the senders add up to three. *)
Lemma statistics_three_messages_two_senders (s : ChatSession.t)
    (m1 m2 m3 : ChatMessage.t) (a b : string) :
  ChatSession.messages s = [m1; m2; m3] ->
  a <> b ->
  (forall m, m ∈ [m1; m2; m3] ->
             ChatMessage.sender m = a \/ ChatMessage.sender m = b) ->
  (exists m, m ∈ [m1; m2; m3] /\ ChatMessage.sender m = a) ->
  (exists m, m ∈ [m1; m2; m3] /\ ChatMessage.sender m = b) ->
  ChatSession.get_statistics s !! "unique_senders"%string = Some (StatInt 2)
  /\ ChatSession.get_statistics s !! "total_messages"%string
     = Some (StatInt 3)
  /\ total_count (ChatSession.get_sender_stats s) = 3.
Proof.
  intros Hmsgs Hab Hall (ma & Hma & Ha) (mb & Hmb & Hb).
  destruct (session_statistics s)
    as (Htotal & Hunique & _ & _ & _ & _ & _ & _ & Hsum).
  cbv zeta in *. rewrite Hmsgs in *.
  split; [|split; [exact Htotal|exact Hsum]].
  rewrite Hunique. do 2 f_equal.
  assert (Hset : (list_to_set (ChatMessage.sender <$> [m1; m2; m3])
                  : gset string) = {[a]} ∪ {[b]}).
  { apply set_eq. intros x.
    rewrite elem_of_list_to_set, list_elem_of_fmap, elem_of_union,
      !elem_of_singleton.
    split.
    - intros (m & -> & Hm). by apply Hall.
    - intros [->| ->]; [by exists ma|by exists mb]. }
  rewrite Hset, size_union, !size_singleton; [done|].
  by apply disjoint_singleton_l, not_elem_of_singleton.
Qed.
End Statistics.

Section StatisticsSamples.
Import Reference Samples.
#[local] Existing Instance utc.

(** C8, at a session without messages: the statistics are the five entries
    of the early return, with their zero counts and no date range, and there
    is no entry "sender_stats", which a session with messages has. *)
Lemma statistics_of_no_message :
  ChatSession.messages session_no_message = []
  /\ ChatSession.get_statistics session_no_message
     = <["total_messages" := StatInt 0]>
         (<["unique_senders" := StatInt 0]>
           (<["date_range" := StatNone]>
             (<["message_types" := StatCounts ∅]>
               (<["timeline" := StatCounts ∅]> ∅))))
  /\ ChatSession.get_statistics session_no_message !! "sender_stats"%string
     = None
  /\ ChatSession.get_statistics session !! "sender_stats"%string
     = Some (StatSenders (ChatSession.get_sender_stats session)).
Proof. repeat split. Qed.

(** The session of three messages from two senders. *)
Lemma statistics_of_three_messages :
  ChatSession.get_statistics session_0_100_3000 !! "unique_senders"%string
  = Some (StatInt 2)
  /\ ChatSession.get_statistics session_0_100_3000
       !! "total_messages"%string
     = Some (StatInt 3)
  /\ total_count (ChatSession.get_sender_stats session_0_100_3000) = 3.
Proof.
  apply (statistics_three_messages_two_senders session_0_100_3000
           at_0 at_100 at_3000 "user1" "user2"); [done|done| | |].
  - intros m Hm. apply list_elem_of_In in Hm.
    destruct Hm as [<-|[<-|[<-|[]]]]; auto.
  - exists at_0. split; [by left|done].
  - exists at_100. split; [by right; left|done].
Qed.

(** The sample session: four messages, from two senders. *)
Lemma statistics_of_sample_session :
  ChatSession.get_statistics session !! "total_messages"%string
  = Some (StatInt 4)
  /\ ChatSession.get_statistics session !! "unique_senders"%string
     = Some (StatInt 2)
  /\ ChatSession.get_statistics session !! "date_range"%string
     = Some (StatDateRange "2026-02-13 12:25:00" "2026-02-13 12:28:00")
  /\ stat_count <$> ChatSession.get_sender_stats session !! "user1"%string
     = Some 2
  /\ stat_count <$> ChatSession.get_sender_stats session !! "user2"%string
     = Some 2.
Proof. repeat split; vm_compute; reflexivity. Qed.
End StatisticsSamples.

(** ** C6, C5: the rows of a CSV file *)

Section FallbackFacts.

Lemma first_success_None {A : Type} (attempts : list (option A)) :
  first_success attempts = None <-> Forall (fun a => a = None) attempts.
Proof.
  induction attempts as [|[x|] attempts IH]; simpl.
  - split; [constructor|done].
  - split; [done|]. by inversion 1.
  - rewrite IH. split.
    + by constructor.
    + by inversion 1.
Qed.

(** The first success is the first attempt with a result: all the attempts
    before it have none. *)
Lemma first_success_Some {A : Type} (attempts : list (option A)) (x : A) :
  first_success attempts = Some x
  <-> exists pre post,
        attempts = pre ++ Some x :: post /\ Forall (fun a => a = None) pre.
Proof.
  induction attempts as [|[y|] attempts IH]; simpl.
  - split; [done|]. intros ([|] & post & E & _); done.
  - split.
    + intros [= ->]. by exists [], attempts.
    + intros ([|a pre] & post & E & Hpre).
      * by injection E as ->.
      * injection E as <- _. by inversion Hpre.
  - rewrite IH. split.
    + intros (pre & post & -> & Hpre).
      exists (None :: pre), post. split; [done|]. by constructor.
    + intros ([|a pre] & post & E & Hpre); [done|].
      injection E as <- ->. exists pre, post. split; [done|].
      by inversion Hpre.
Qed.
End FallbackFacts.

Section CsvRows.
Context `{DateTimeLib} `{StrLib} `{NumLib}.

Lemma try_formats_first_success (cell : string) (fmts : list string) :
  CSVParser.try_formats cell fmts
  = first_success (strptime_timestamp cell <$> fmts).
Proof.
  induction fmts as [|fmt fmts IH]; [done|].
  cbn [CSVParser.try_formats fmap list_fmap first_success].
  by destruct (strptime_timestamp cell fmt).
Qed.

(** [_parse_timestamp] returns the first success of its attempts, and
    raises when there is none. *)
Lemma parse_timestamp_first_success (ts_str : string) :
  CSVParser._parse_timestamp ts_str
  = match first_success (time_attempts (strip ts_str)) with
    | Some ts => Ok ts
    | None =>
        Raise (ValueError ("无法解析时间格式: " +:+ strip ts_str))
    end.
Proof.
  unfold CSVParser._parse_timestamp, time_attempts.
  cbn [first_success].
  destruct (int_of_float_str (strip ts_str)); [done|].
  by rewrite try_formats_first_success.
Qed.

(** [_parse_row], with the timestamp and the type it has worked out. *)
Lemma parse_row_unfold (column_map : gmap string string) (row : csv_row)
    (idx : nat) :
  let sender :=
    default "unknown"%string
      (row_get row (default "sender"%string (column_map !! "sender"))) in
  let account_name :=
    default sender
      (row_get row
         (default (default "sender"%string (column_map !! "sender"))
            (column_map !! "name"))) in
  let content :=
    default ""%string
      (row_get row (default "content"%string (column_map !! "content"))) in
  let timestamp :=
    default (Z.of_nat idx)
      (first_success (time_attempts (time_cell column_map row))) in
  CSVParser._parse_row column_map row idx
  = match type_cell column_map row with
    | Some cell =>
        if String.eqb cell "" then
          ChatMessage.new sender account_name timestamp 0 content
            ("csv_" +:+ pretty idx) None
        else
          match int_of_str cell with
          | Some v =>
              ChatMessage.new sender account_name timestamp v content
                ("csv_" +:+ pretty idx) None
          | None =>
              Raise (ValueError "invalid literal for int() with base 10")
          end
    | None =>
        ChatMessage.new sender account_name timestamp 0 content
          ("csv_" +:+ pretty idx) None
    end.
Proof.
  cbv zeta. unfold CSVParser._parse_row, time_cell, type_cell.
  rewrite parse_timestamp_first_success.
  destruct (row_get row (default "type"%string (column_map !! "type")))
    as [cell|].
  - destruct (String.eqb cell ""); [|destruct (int_of_str cell)];
      by destruct (first_success (time_attempts _)).
  - by destruct (first_success (time_attempts _)).
Qed.

Lemma new_timestamp (sender account_name : string) (timestamp type : Z)
    (content id : string) (reply_to : option string) (msg : ChatMessage.t) :
  ChatMessage.new sender account_name timestamp type content id reply_to
  = Ok msg ->
  ChatMessage.timestamp msg = timestamp /\ ChatMessage.type msg = type.
Proof.
  unfold ChatMessage.new. destruct (fromtimestamp timestamp); [|done].
  by intros [= <-].
Qed.

(** C6.  The timestamp of the message of a row is the result of the first
    attempt, in the fixed order (integer or float epoch seconds, then the six
    formats in the order of the list), that reads the time cell; when no
    attempt reads it, it is the zero-based index of the row.  The message is
    built whenever the type cell is readable and the timestamp is one
    [datetime.fromtimestamp] accepts. *)
Theorem csv_row_timestamp (column_map : gmap string string) (row : csv_row)
    (idx : nat) :
  let attempts := time_attempts (time_cell column_map row) in
  let expected := default (Z.of_nat idx) (first_success attempts) in
  (forall msg : ChatMessage.t,
      CSVParser._parse_row column_map row idx = Ok msg ->
      ChatMessage.timestamp msg = expected)
  /\ (type_cell_readable column_map row ->
      is_Some (fromtimestamp expected) ->
      exists msg : ChatMessage.t,
        CSVParser._parse_row column_map row idx = Ok msg
        /\ ChatMessage.timestamp msg = expected)
  /\ (Forall (fun a => a = None) attempts -> expected = Z.of_nat idx)
  /\ (forall (pre post : list (option Z)) (ts : Z),
        attempts = pre ++ Some ts :: post ->
        Forall (fun a => a = None) pre ->
        expected = ts)
  /\ CSVParser.formats
     = [ "%Y-%m-%d %H:%M:%S"; "%Y/%m/%d %H:%M:%S"; "%d/%m/%Y %H:%M:%S";
         "%Y-%m-%d"; "%H:%M:%S"; "%Y年%m月%d日 %H:%M" ]%string.
Proof.
  cbv zeta.
  pose proof (parse_row_unfold column_map row idx) as Hrow. cbv zeta in Hrow.
  split; [|split; [|split; [|split]]].
  - intros msg Hmsg. rewrite Hrow in Hmsg.
    destruct (type_cell column_map row) as [cell|].
    + destruct (String.eqb cell "").
      * by apply new_timestamp in Hmsg as [? _].
      * destruct (int_of_str cell); [|done].
        by apply new_timestamp in Hmsg as [? _].
    + by apply new_timestamp in Hmsg as [? _].
  - intros Htype [dt Hdt]. rewrite Hrow. unfold type_cell_readable in Htype.
    unfold ChatMessage.new. rewrite Hdt.
    destruct (type_cell column_map row) as [cell|].
    + destruct (String.eqb_spec cell ""%string) as [Heq|Hne].
      * by eexists.
      * destruct Htype as [Heq|[v Hv]]; [done|]. rewrite Hv. by eexists.
    + by eexists.
  - intros Hnone. apply first_success_None in Hnone. by rewrite Hnone.
  - intros pre post ts Hsplit Hpre.
    assert (Hts : first_success (time_attempts (time_cell column_map row))
                  = Some ts).
    { apply first_success_Some. by exists pre, post. }
    by rewrite Hts.
  - reflexivity.
Qed.

(** X14.  The type of the message of a row: 0 when the type column is
    missing or the cell empty, the number in the cell when [int] reads it; a
    cell that [int] does not read ends [_parse_row] with its
    [ValueError]. *)
Lemma csv_row_type (column_map : gmap string string) (row : csv_row)
    (idx : nat) :
  (forall msg : ChatMessage.t,
      (type_cell column_map row = None
       \/ type_cell column_map row = Some ""%string) ->
      CSVParser._parse_row column_map row idx = Ok msg ->
      ChatMessage.type msg = 0)
  /\ (forall (cell : string) (v : Z) (msg : ChatMessage.t),
        type_cell column_map row = Some cell ->
        cell <> ""%string ->
        int_of_str cell = Some v ->
        CSVParser._parse_row column_map row idx = Ok msg ->
        ChatMessage.type msg = v)
  /\ (forall cell : string,
        type_cell column_map row = Some cell ->
        cell <> ""%string ->
        int_of_str cell = None ->
        CSVParser._parse_row column_map row idx
        = Raise (ValueError "invalid literal for int() with base 10")).
Proof.
  pose proof (parse_row_unfold column_map row idx) as Hrow. cbv zeta in Hrow.
  split; [|split].
  - intros msg [Hc|Hc] Hmsg; rewrite Hrow, Hc in Hmsg.
    + by apply new_timestamp in Hmsg as [_ ?].
    + cbn in Hmsg. by apply new_timestamp in Hmsg as [_ ?].
  - intros cell v msg Hc Hne Hv Hmsg. rewrite Hrow, Hc in Hmsg.
    destruct (String.eqb_spec cell ""%string); [done|].
    rewrite Hv in Hmsg. by apply new_timestamp in Hmsg as [_ ?].
  - intros cell Hc Hne Hv. rewrite Hrow, Hc.
    destruct (String.eqb_spec cell ""%string); [done|].
    by rewrite Hv.
Qed.

(** [_detect_columns] on the key view of a dict, as [parse] calls it: the
    column map is returned as it was, when no header is an alias, or the
    subscript [headers[idx]] raises [TypeError]; no column is ever
    recorded. *)
Lemma detect_variants_keys (hs headers_lower : list string)
    (standard_name : string) (variants : list string)
    (column_map : gmap string string) :
  CSVParser.detect_variants (AsKeys hs) headers_lower standard_name variants
    column_map = Ok column_map
  \/ CSVParser.detect_variants (AsKeys hs) headers_lower standard_name
       variants column_map = Raise TypeError.
Proof.
  induction variants as [|variant variants IH]; cbn [CSVParser.detect_variants].
  - by left.
  - destruct (list_in _ _); [by right|exact IH].
Qed.

Lemma detect_columns_keys (hs : list string)
    (column_map : gmap string string) :
  CSVParser._detect_columns (AsKeys hs) column_map = Ok column_map
  \/ CSVParser._detect_columns (AsKeys hs) column_map = Raise TypeError.
Proof.
  unfold CSVParser._detect_columns.
  induction CSVParser.COLUMN_MAPPINGS as [|[name variants] mappings IH];
    cbn [for_each].
  - by left.
  - destruct (detect_variants_keys hs
                ((fun h => strip (lower h)) <$> seq_items (AsKeys hs))
                name variants column_map) as [-> | ->].
    + exact IH.
    + by right.
Qed.
End CsvRows.

Section CsvSamples.
Import Reference Samples.
#[local] Existing Instances utc ascii_strings decimal_numbers.

(** The two cases on sample rows: a time no attempt reads gives the index
    of the row, and epoch seconds are the timestamp. *)
Lemma csv_row_timestamp_witness :
  (exists msg : ChatMessage.t,
      CSVParser._parse_row ∅ row_unreadable_time 3 = Ok msg
      /\ ChatMessage.timestamp msg = 3)
  /\ (exists msg : ChatMessage.t,
        CSVParser._parse_row ∅ row_epoch_time 3 = Ok msg
        /\ ChatMessage.timestamp msg = 1770985500).
Proof.
  destruct (csv_row_timestamp ∅ row_unreadable_time 3) as (_ & Hindex & _).
  destruct (csv_row_timestamp ∅ row_epoch_time 3) as (_ & Hepoch & _).
  split.
  - exact (Hindex I (ex_intro _ 3 eq_refl)).
  - exact (Hepoch I (ex_intro _ 1770985500 eq_refl)).
Defined.

(** Rows read with the reference instances: epoch seconds are the
    timestamp; a time no attempt reads gives the index of the row. *)
Lemma csv_row_timestamp_samples :
  (ChatMessage.timestamp
     <$> CSVParser._parse_row ∅ row_epoch_time 3) = Ok 1770985500
  /\ (ChatMessage.timestamp
        <$> CSVParser._parse_row ∅ row_unreadable_time 3) = Ok 3
  /\ (ChatMessage.platform_message_id
        <$> CSVParser._parse_row ∅ row_unreadable_time 3) = Ok "csv_3"%string.
Proof. repeat split. Qed.

(** C5, at a row whose type cell is not a number: [_parse_row] raises the
    [ValueError] of [int], with an empty column map and with the map
    [_detect_columns] works out from the header given as a list; [parse], on
    the rows of the same file, raises the [TypeError] of subscripting the key
    view in [_detect_columns] and reads no row at all. *)
Lemma csv_row_text_type_raises :
  CSVParser._parse_row ∅ row_text_type 0
  = Raise (ValueError "invalid literal for int() with base 10")
  /\ (column_map ← CSVParser._detect_columns (AsList row_text_type.*1) ∅;
      CSVParser._parse_row column_map row_text_type 0)
     = Raise (ValueError "invalid literal for int() with base 10")
  /\ CSVParser.parse ∅ [row_text_type] "wechat" "Test" "private" ""
       1770985548
     = Raise TypeError
  /\ CSVParser.parse ∅ [row_epoch_time] "wechat" "Test" "private" ""
       1770985548
     = Raise TypeError.
Proof. repeat split. Qed.

(** [parse] goes through when no column of the header is an alias, and then
    reads nothing from the cells: the timestamp is the index of the row, the
    sender is "unknown". *)
Lemma csv_parse_other_header :
  (fun s => (fun m => (ChatMessage.timestamp m, ChatMessage.sender m,
                       ChatMessage.type m))
              <$> ChatSession.messages s)
    <$> CSVParser.parse ∅ [row_other_header; row_other_header] "wechat"
          "Test" "private" "" 1770985548
  = Ok [ (0, "unknown"%string, 0); (1, "unknown"%string, 0) ].
Proof. reflexivity. Qed.
End CsvSamples.

(** ** C3: the fallback chain of the JSON parser *)

Section JsonChain.
Context `{DateTimeLib} `{StrLib} `{DecoderLib}.

Lemma first_not_None_None (values : list pyval) :
  first_not_None values = None <-> Forall (fun v => v = PNone) values.
Proof.
  induction values as [|v values IH]; simpl.
  - split; [constructor|done].
  - destruct v; simpl; try (split; [done|by inversion 1]).
    rewrite IH. split; [by constructor|by inversion 1].
Qed.

(** C3, as the code has it.  An attempt has a result when it returns a value
    other than [None].  Where strict parsing fails with [JSONDecodeError]
    only and the relaxed parse of the text with [ValueError] or
    [SyntaxError] only, the data are the result of the first attempt that
    has one, in the order: strict JSON, relaxed literal, relaxed literal
    after the trailing commas are stripped; the session is decoded from
    these data; and the [ValueError] that names the JSON and the Python dict
    formats is raised if and only if no attempt has a result. *)
Theorem parse_first_success (source : string) :
  let text := strip source in
  let attempts :=
    [ value_or_None (json_loads text);
      value_or_None (literal_eval text);
      value_or_None (literal_eval (re_sub_trailing_commas text)) ] in
  (forall e, json_loads text = Raise e -> e = JSONDecodeError) ->
  (forall e, literal_eval text = Raise e -> is_literal_error e = true) ->
  JSONParser.parse_data source
  = match first_not_None attempts with
    | Some data => Ok data
    | None => Raise JSONParser.format_error
    end
  /\ JSONParser.parse source
     = match first_not_None attempts with
       | Some data => ChatSession.from_dict data
       | None => Raise JSONParser.format_error
       end
  /\ (JSONParser.parse_data source = Raise JSONParser.format_error
      <-> Forall (fun v => v = PNone) attempts).
Proof.
  cbv zeta. intros Hjson Hliteral.
  assert (Hdata : JSONParser.parse_data source
            = match first_not_None
                      [ value_or_None (json_loads (strip source));
                        value_or_None (literal_eval (strip source));
                        value_or_None
                          (literal_eval
                             (re_sub_trailing_commas (strip source))) ]
              with
              | Some data => Ok data
              | None => Raise JSONParser.format_error
              end).
  { unfold JSONParser.parse_data, JSONParser._try_fix_and_parse.
    cbn [first_not_None].
    destruct (json_loads (strip source)) as [v1|e1] eqn:E1;
      [|rewrite (Hjson e1 eq_refl)];
      (destruct (literal_eval (strip source)) as [v2|e2] eqn:E2;
        [|specialize (Hliteral e2 eq_refl)]);
      destruct (literal_eval (re_sub_trailing_commas (strip source)))
        as [v3|e3];
      try destruct v1; try destruct v2; try destruct v3; try destruct e2;
      try discriminate Hliteral; reflexivity. }
  split; [exact Hdata|]. split.
  - unfold JSONParser.parse. rewrite Hdata.
    by destruct (first_not_None _).
  - rewrite Hdata, <- first_not_None_None.
    by destruct (first_not_None _).
Qed.
End JsonChain.

Section JsonChainSamples.
Import Reference Samples.
#[local] Existing Instances utc ascii_strings sample_decoders.

(** The single-quoted text with a Python boolean: the strict parse fails,
    the relaxed one gives the mapping the strict parse gives for
    [{"a": 1, "b": true}], and the parser goes on with it; a text with a
    doubled trailing comma is read at the third attempt. *)
Lemma parse_first_success_witness :
  JSONParser.parse_data "{'a': 1, 'b': True}" = Ok sample_dict
  /\ json_loads strict_sample = Ok sample_dict
  /\ JSONParser.parse_data "{'a': 1,,}"
     = Ok (PDict {[ "a"%string := PInt 1 ]})
  /\ JSONParser.parse_data "not json" = Raise JSONParser.format_error.
Proof.
  assert (Hjson : forall e,
            json_loads (strip "{'a': 1, 'b': True}") = Raise e ->
            e = JSONDecodeError).
  { intros e He. vm_compute in He. by injection He as <-. }
  assert (Hliteral : forall e,
            literal_eval (strip "{'a': 1, 'b': True}") = Raise e ->
            is_literal_error e = true).
  { intros e He. vm_compute in He. discriminate He. }
  destruct (parse_first_success "{'a': 1, 'b': True}" Hjson Hliteral)
    as (Hdata & _ & _).
  split; [rewrite Hdata; reflexivity|].
  repeat split.
Defined.

(** C3 as stated fails at the text [null]: the strict parse succeeds, with
    the value [None], and the parser raises its format error all the same.
    It fails, too, at [{[1]: 2}]: no attempt can read the text, and the
    error raised is the [TypeError] of the relaxed parse, the third attempt
    not being made. *)
Lemma parse_null_is_format_error :
  json_loads (strip "null") = Ok PNone
  /\ JSONParser.parse_data "null" = Raise JSONParser.format_error
  /\ JSONParser.parse "null" = Raise JSONParser.format_error
  /\ json_loads (strip "{[1]: 2}") = Raise JSONDecodeError
  /\ literal_eval (strip "{[1]: 2}") = Raise TypeError
  /\ literal_eval (re_sub_trailing_commas (strip "{[1]: 2}"))
     = Raise TypeError
  /\ JSONParser.parse_data "{[1]: 2}" = Raise TypeError.
Proof. repeat split. Qed.
End JsonChainSamples.

(** ** C4: JSON-Lines *)

Section JsonLinesFacts.
Context `{DateTimeLib} `{StrLib} `{DecoderLib}.

Lemma tagged_nonempty (tag : string) (d : gmap string pyval) :
  tagged tag d = true -> dom d <> ∅.
Proof.
  unfold tagged. intros Ht Hdom.
  apply dom_empty_inv_L in Hdom. subst d.
  by rewrite lookup_empty in Ht.
Qed.

(** One turn of the loop on a line that is blank, not JSON or an object:
    the line is passed over unless it is an object with one of the three
    tags. *)
Lemma jsonl_line_step (st : JSONParser.jsonl_state) (line : string) :
  line_blank_invalid_or_object line ->
  JSONParser.jsonl_line st line
  = Ok match line_object line with
       | None => st
       | Some d =>
           if tagged "header" d then
             {| JSONParser.header := Some d;
                JSONParser.members := JSONParser.members st;
                JSONParser.messages := JSONParser.messages st |}
           else if tagged "member" d then
             {| JSONParser.header := JSONParser.header st;
                JSONParser.members := JSONParser.members st ++ [PDict d];
                JSONParser.messages := JSONParser.messages st |}
           else if tagged "message" d then
             {| JSONParser.header := JSONParser.header st;
                JSONParser.members := JSONParser.members st;
                JSONParser.messages := JSONParser.messages st ++ [PDict d] |}
           else st
       end.
Proof.
  unfold line_blank_invalid_or_object, JSONParser.jsonl_line, line_object,
    tagged.
  intros Hline.
  destruct (String.eqb_spec (strip line) ""%string) as [Hblank|Hfull];
    [done|].
  destruct Hline as [Hb|[Hinvalid|[d Hd]]]; [done| |].
  - by rewrite Hinvalid.
  - rewrite Hd. cbn [as_dict mbind result_bind].
    by repeat destruct (eq_str _ _).
Qed.

Lemma jsonl_loop (lines : list string) (st : JSONParser.jsonl_state) :
  Forall line_blank_invalid_or_object lines ->
  for_each JSONParser.jsonl_line lines st
  = Ok {| JSONParser.header :=
            match last (objects_tagged "header" lines) with
            | Some h => Some h
            | None => JSONParser.header st
            end;
          JSONParser.members :=
            JSONParser.members st ++ (PDict <$> objects_tagged "member" lines);
          JSONParser.messages :=
            JSONParser.messages st
              ++ (PDict <$> objects_tagged "message" lines) |}.
Proof.
  intros Hlines. revert st.
  induction Hlines as [|line lines Hline Hlines IH]; intros st.
  - cbn. rewrite !app_nil_r. by destruct st.
  - cbn [for_each]. rewrite (jsonl_line_step st line Hline).
    cbn [mbind result_bind]. rewrite IH.
    unfold objects_tagged. cbn [omap list_omap].
    destruct (line_object line) as [d|]; [|done].
    cbn [List.filter].
    assert (Hexcl : forall t1 t2, t1 <> t2 -> tagged t1 d = true ->
                                  tagged t2 d = false).
    { unfold tagged. intros t1 t2 Hne.
      destruct (default PNone (d !! "_type")); try done. cbn.
      intros ->%String.eqb_eq. by apply String.eqb_neq. }
    destruct (tagged "header" d) eqn:Hh.
    { rewrite (Hexcl "header" "member")%string by done.
      rewrite (Hexcl "header" "message")%string by done.
      cbn [JSONParser.header JSONParser.members JSONParser.messages].
      f_equal. f_equal.
      destruct (List.filter _ _) as [|h hs] eqn:Hf; [done|].
      change (last (d :: h :: hs)) with (last (h :: hs)).
      by destruct (last (h :: hs)) eqn:Hl;
        [|apply last_None in Hl]. }
    destruct (tagged "member" d) eqn:Hm.
    { rewrite (Hexcl "member" "message")%string by done.
      cbn [JSONParser.header JSONParser.members JSONParser.messages].
      by rewrite fmap_cons, <- app_assoc. }
    destruct (tagged "message" d) eqn:Hg; [|done].
    cbn [JSONParser.header JSONParser.members JSONParser.messages].
    by rewrite fmap_cons, <- app_assoc.
Qed.

(** X10.  On a text each line of which is blank, not JSON, or a JSON
    object, the lines that are not objects and the objects without one of
    the three tags are passed over, and the session is decoded from the last
    header and from the member and message objects in the order of their
    lines; without a header line the parse fails with its [ValueError]. *)
Theorem jsonl_lines_collected (source : string) :
  let lines := splitlines (strip source) in
  Forall line_blank_invalid_or_object lines ->
  JSONParser.parse_jsonl source
  = match last (objects_tagged "header" lines) with
    | None => Raise JSONParser.missing_header
    | Some h =>
        ChatSession.from_dict
          (PDict
             (<["chatlab" := get_or_empty_dict h "chatlab"]>
               (<["meta" := get_or_empty_dict h "meta"]>
                 (<["members" :=
                      PList (PDict <$> objects_tagged "member" lines)]>
                   (<["messages" :=
                        PList (PDict <$> objects_tagged "message" lines)]>
                     ∅)))))
    end.
Proof.
  cbv zeta. intros Hlines. unfold JSONParser.parse_jsonl.
  rewrite (jsonl_loop _ _ Hlines). cbn [mbind result_bind].
  cbn [JSONParser.header JSONParser.members JSONParser.messages app].
  destruct (last (objects_tagged "header" _)) as [h|] eqn:Hlast; [|done].
  assert (Hh : tagged "header" h = true).
  { apply last_Some_elem_of, list_elem_of_In in Hlast.
    by apply filter_In in Hlast as [_ ?]. }
  apply tagged_nonempty in Hh.
  by rewrite bool_decide_eq_false_2.
Qed.

(** A line that is valid JSON but not an object ends the loop with the
    [AttributeError] of [obj.get]: only [JSONDecodeError] is caught. *)
Lemma jsonl_line_not_object (st : JSONParser.jsonl_state) (line : string)
    (v : pyval) :
  strip line <> ""%string ->
  json_loads (strip line) = Ok v ->
  (forall d, v <> PDict d) ->
  JSONParser.jsonl_line st line = Raise AttributeError.
Proof.
  intros Hfull Hv Hnot. unfold JSONParser.jsonl_line.
  destruct (String.eqb_spec (strip line) ""%string); [done|].
  rewrite Hv. destruct v; try done. by destruct (Hnot d).
Qed.

Lemma jsonl_loop_not_object (pre post : list string) (line : string)
    (v : pyval) (st : JSONParser.jsonl_state) :
  Forall line_blank_invalid_or_object pre ->
  strip line <> ""%string ->
  json_loads (strip line) = Ok v ->
  (forall d, v <> PDict d) ->
  for_each JSONParser.jsonl_line (pre ++ line :: post) st
  = Raise AttributeError.
Proof.
  intros Hpre Hfull Hv Hnot. revert st.
  induction Hpre as [|l pre Hl Hpre IH]; intros st; cbn [app for_each].
  - by rewrite (jsonl_line_not_object st line v Hfull Hv Hnot).
  - rewrite (jsonl_line_step st l Hl). cbn [mbind result_bind]. apply IH.
Qed.

(** The parse is then aborted, whatever the lines after it. *)
Lemma jsonl_not_object_aborts (source : string) (pre post : list string)
    (line : string) (v : pyval) :
  splitlines (strip source) = pre ++ line :: post ->
  Forall line_blank_invalid_or_object pre ->
  strip line <> ""%string ->
  json_loads (strip line) = Ok v ->
  (forall d, v <> PDict d) ->
  JSONParser.parse_jsonl source = Raise AttributeError.
Proof.
  intros Hlines Hpre Hfull Hv Hnot. unfold JSONParser.parse_jsonl.
  by rewrite Hlines, (jsonl_loop_not_object pre post line v _ Hpre Hfull Hv Hnot).
Qed.
End JsonLinesFacts.

Section JsonLinesSamples.
Import Reference Samples.
#[local] Existing Instances utc ascii_strings sample_decoders.

(** C4, at a text whose second line is the JSON number 42: the line is
    valid JSON without a tag, and the parse ends with the [AttributeError]
    of [obj.get], whatever follows.  A line that is not JSON is passed
    over, and a text without a header line fails with the [ValueError] of
    the missing header. *)
Lemma jsonl_number_line_raises :
  json_loads "42" = Ok (PInt 42)
  /\ JSONParser.parse_jsonl
       (header_line +:+ line_feed +:+ "42" +:+ line_feed +:+ member_line)
     = Raise AttributeError
  /\ (ChatSession.members
        <$> JSONParser.parse_jsonl
              (header_line +:+ line_feed +:+ "not json" +:+ line_feed
               +:+ member_line))
     = Ok [ {| ChatMember.platform_id := "u1"; ChatMember.account_name := "";
               ChatMember.role := None; ChatMember.avatar := None;
               ChatMember.remark := None |} ]
  /\ JSONParser.parse_jsonl (member_line +:+ line_feed +:+ "not json")
     = Raise JSONParser.missing_header.
Proof. repeat split. Qed.
End JsonLinesSamples.

(** * Further properties: the rest of the package *)

(** ** models.py: the types of messages *)

Section MessageTypes.

Lemma of_value_None (v : Z) :
  MessageType.of_value v = None <-> (v < 0 \/ 9 < v).
Proof.
  unfold MessageType.of_value.
  destruct v as [|p|p]; [split; [done|lia]| |split; [lia|done]].
  do 4 (try (destruct p as [p|p|]; try (split; intros; (done || lia)))).
Qed.

Lemma from_int_other (v : Z) :
  (v < 0 \/ 9 < v) -> MessageType.from_int v = MessageType.TEXT.
Proof.
  intros Hv. unfold MessageType.from_int.
  apply of_value_None in Hv. by rewrite Hv.
Qed.

(** X1.  [from_int] gives back the member of each code 0 to 9 and [TEXT]
    for any other integer; a member is built from exactly the codes 0 to 9;
    the ten labels of [to_string] are distinct and none is "unknown", the
    default of [names.get] never being returned. *)
Theorem message_type_codes :
  (forall mt : MessageType.t,
      MessageType.from_int (MessageType.value mt) = mt)
  /\ (forall v : Z, MessageType.of_value v = None <-> (v < 0 \/ 9 < v))
  /\ (forall v : Z,
        (v < 0 \/ 9 < v) -> MessageType.from_int v = MessageType.TEXT)
  /\ (forall (v : Z) (mt : MessageType.t),
        MessageType.of_value v = Some mt -> MessageType.value mt = v)
  /\ (forall mt : MessageType.t,
        MessageType.to_string mt <> "unknown"%string)
  /\ (forall mt1 mt2 : MessageType.t,
        MessageType.to_string mt1 = MessageType.to_string mt2 -> mt1 = mt2).
Proof.
  split; [by intros []|]. split; [exact of_value_None|]. split.
  - exact from_int_other.
  - split; [|split].
    + intros v mt. unfold MessageType.of_value.
      destruct v as [|p|p]; [by intros [= <-]| |done].
      do 4 (try (destruct p as [p|p|]; try done; try by intros [= <-])).
    + by intros [].
    + by intros [] [].
Qed.
End MessageTypes.

(** ** models.py: the queries of a session *)

Section QueryFacts.
Context `{DateTimeLib}.

Lemma filter_sorted_by_key {A : Type} (key : A -> Z) (f : A -> bool)
    (l : list A) :
  sorted_by_key key l -> sorted_by_key key (List.filter f l).
Proof.
  unfold sorted_by_key.
  induction 1 as [|x l Hl IH Hx]; cbn [List.filter]; [constructor|].
  destruct (f x); [|exact IH].
  constructor; [exact IH|].
  apply Forall_forall. intros y Hy. apply elem_of_filter in Hy as [Hy _].
  rewrite Forall_forall in Hx. by apply Hx.
Qed.

Lemma first_with_id_Some (msg_id : string) (msgs : list ChatMessage.t)
    (m : ChatMessage.t) :
  ChatSession.first_with_id msg_id msgs = Some m
  <-> exists pre post : list ChatMessage.t,
        msgs = pre ++ m :: post
        /\ ChatMessage.platform_message_id m = msg_id
        /\ Forall (fun m' => ChatMessage.platform_message_id m' <> msg_id)
             pre.
Proof.
  induction msgs as [|m0 msgs IH]; cbn [ChatSession.first_with_id].
  - split; [done|]. intros ([|] & post & E & _); done.
  - destruct (String.eqb_spec (ChatMessage.platform_message_id m0) msg_id)
      as [Heq|Hne].
    + split.
      * intros [= <-]. exists [], msgs. by repeat split.
      * intros ([|m1 pre] & post & E & Hid & Hpre).
        -- by injection E as ->.
        -- injection E as <- _. by inversion Hpre.
    + rewrite IH. split.
      * intros (pre & post & -> & Hid & Hpre).
        exists (m0 :: pre), post. repeat split; [done|by constructor].
      * intros ([|m1 pre] & post & E & Hid & Hpre).
        -- injection E as <- _. done.
        -- injection E as <- ->. exists pre, post.
           repeat split; [done|by inversion Hpre].
Qed.

Lemma first_with_id_None (msg_id : string) (msgs : list ChatMessage.t) :
  ChatSession.first_with_id msg_id msgs = None
  <-> Forall (fun m => ChatMessage.platform_message_id m <> msg_id) msgs.
Proof.
  induction msgs as [|m0 msgs IH]; cbn [ChatSession.first_with_id].
  - split; [constructor|done].
  - destruct (String.eqb_spec (ChatMessage.platform_message_id m0) msg_id)
      as [Heq|Hne].
    + split; [done|]. by inversion 1.
    + rewrite IH. split; [by constructor|by inversion 1].
Qed.

(** X2.  [get_message_by_id] returns the first message, in the order of the
    session, that carries the id: every message before it carries another;
    it returns [None] exactly when no message carries the id.  In a session
    as its constructor leaves it, no message that carries the id is older
    than the one returned. *)
Theorem message_by_id_first_match (msg_id : string) :
  (forall (s : ChatSession.t) (m : ChatMessage.t),
      ChatSession.get_message_by_id s msg_id = Some m
      <-> exists pre post : list ChatMessage.t,
            ChatSession.messages s = pre ++ m :: post
            /\ ChatMessage.platform_message_id m = msg_id
            /\ Forall (fun m' => ChatMessage.platform_message_id m' <> msg_id)
                 pre)
  /\ (forall s : ChatSession.t,
        ChatSession.get_message_by_id s msg_id = None
        <-> Forall (fun m => ChatMessage.platform_message_id m <> msg_id)
              (ChatSession.messages s))
  /\ (forall chatlab meta members (msgs : list ChatMessage.t)
             (m m' : ChatMessage.t),
        ChatSession.get_message_by_id
          (ChatSession.new chatlab meta members msgs) msg_id = Some m ->
        m' ∈ msgs ->
        ChatMessage.platform_message_id m' = msg_id ->
        ChatMessage.timestamp m <= ChatMessage.timestamp m').
Proof.
  split; [|split].
  - intros s m. apply first_with_id_Some.
  - intros s. apply first_with_id_None.
  - intros chatlab meta members msgs m m' Hfound Hin Hid.
    apply first_with_id_Some in Hfound as (pre & post & Hsplit & _ & Hpre).
    cbn [ChatSession.new ChatSession.__post_init__ ChatSession.messages]
      in Hsplit.
    pose proof (sort_by_key_sorted ChatMessage.timestamp msgs) as Hsorted.
    assert (Hin' : m' ∈ pre ++ m :: post).
    { rewrite <- Hsplit.
      by rewrite (sort_by_key_perm ChatMessage.timestamp msgs). }
    rewrite Hsplit in Hsorted. unfold sorted_by_key in Hsorted.
    apply elem_of_app in Hin' as [Hin'|Hin'].
    + rewrite Forall_forall in Hpre. by destruct (Hpre m' Hin').
    + assert (Htail : StronglySorted
                        (fun a b => ChatMessage.timestamp a
                                    <= ChatMessage.timestamp b) (m :: post)).
      { clear -Hsorted. induction pre as [|x pre IH]; [done|].
        apply IH. by apply StronglySorted_inv in Hsorted as [? _]. }
      apply StronglySorted_inv in Htail as [_ Hle].
      apply elem_of_cons in Hin' as [->|Hin']; [lia|].
      rewrite Forall_forall in Hle. by apply Hle.
Qed.

Lemma count_up_fold_empty {A : Type} (f : A -> string) (l : list A)
    (k : string) :
  fold_left (fun counts x => ChatSession.count_up (f x) counts) l ∅ !! k
  = match List.filter (fun x => String.eqb (f x) k) l with
    | [] => None
    | found => Some (Z.of_nat (length found))
    end.
Proof.
  rewrite count_up_fold, lookup_empty.
  destruct (List.filter _ _); [done|]. f_equal.
Qed.

Lemma label_of_code (z : Z) (mt : MessageType.t) :
  mt <> MessageType.TEXT ->
  String.eqb (MessageType.to_string (MessageType.from_int z))
    (MessageType.to_string mt)
  = (z =? MessageType.value mt).
Proof.
  intros Hmt. unfold MessageType.from_int, MessageType.of_value.
  destruct z as [|p|p]; [by destruct mt| |by destruct mt].
  do 4 (destruct p as [p|p|]; try by destruct mt).
Qed.

(** X3.  [get_messages_by_type] finds the messages whose stored code is the
    code asked for, given as an integer or as a member of [MessageType] with
    the same result.  For each type but [TEXT] these are the messages
    [get_statistics] counts under the label of the type.  A message whose
    code is outside 0 to 9 has the type [TEXT] by [message_type], and is
    counted under "text", but is not found when [TEXT] is asked for. *)
Theorem messages_by_type_counts (s : ChatSession.t) :
  (forall mt : MessageType.t,
      ChatSession.get_messages_by_type s (inr mt)
      = ChatSession.get_messages_by_type s (inl (MessageType.value mt)))
  /\ (forall (v : Z) (m : ChatMessage.t),
        m ∈ ChatSession.get_messages_by_type s (inl v)
        <-> m ∈ ChatSession.messages s /\ ChatMessage.type m = v)
  /\ (forall mt : MessageType.t,
        mt <> MessageType.TEXT ->
        ChatSession.type_counts (ChatSession.messages s)
          !! MessageType.to_string mt
        = match ChatSession.get_messages_by_type s (inr mt) with
          | [] => None
          | found => Some (Z.of_nat (length found))
          end)
  /\ (forall m : ChatMessage.t,
        m ∈ ChatSession.messages s ->
        (ChatMessage.type m < 0 \/ 9 < ChatMessage.type m) ->
        ChatMessage.message_type m = MessageType.TEXT
        /\ (m ∉ ChatSession.get_messages_by_type s (inr MessageType.TEXT))
        /\ exists n : Z,
             ChatSession.type_counts (ChatSession.messages s)
               !! "text"%string = Some n
             /\ Z.of_nat
                  (length (ChatSession.get_messages_by_type s
                             (inr MessageType.TEXT))) < n).
Proof.
  split; [done|]. split; [|split].
  - intros v m. unfold ChatSession.get_messages_by_type.
    rewrite elem_of_filter, Z.eqb_eq. reflexivity.
  - intros mt Hmt. unfold ChatSession.type_counts.
    rewrite (count_up_fold_empty
               (fun m => MessageType.to_string (ChatMessage.message_type m))).
    unfold ChatSession.get_messages_by_type.
    rewrite (List.filter_ext _ (fun m => ChatMessage.type m
                                          =? MessageType.value mt)); [done|].
    intros m. by apply label_of_code.
  - intros m Hm Hcode.
    assert (Htext : ChatMessage.message_type m = MessageType.TEXT).
    { unfold ChatMessage.message_type.
      by apply from_int_other. }
    split; [exact Htext|]. split.
    + unfold ChatSession.get_messages_by_type. rewrite elem_of_filter.
      intros [_ Heq]. apply Z.eqb_eq in Heq. cbn in Heq. lia.
    + unfold ChatSession.type_counts.
      rewrite (count_up_fold_empty
                 (fun m => MessageType.to_string
                             (ChatMessage.message_type m))).
      unfold ChatSession.get_messages_by_type.
      cbn [MessageType.value].
      set (labelled := fun m0 : ChatMessage.t =>
             String.eqb (MessageType.to_string (ChatMessage.message_type m0))
               "text").
      set (coded := fun m0 : ChatMessage.t => ChatMessage.type m0 =? 0).
      assert (Hlen : forall l : list ChatMessage.t,
                (length (List.filter coded l)
                 <= length (List.filter labelled l))%nat
                /\ (m ∈ l ->
                    (length (List.filter coded l)
                     < length (List.filter labelled l))%nat)).
      { induction l as [|m0 l [IHle IHlt]]; cbn [List.filter length].
        - split; [lia|]. by intros ?%elem_of_nil.
        - assert (Himp : coded m0 = true -> labelled m0 = true).
          { unfold coded, labelled, ChatMessage.message_type.
            intros ->%Z.eqb_eq. reflexivity. }
          split.
          + destruct (coded m0); [rewrite Himp by done|destruct (labelled m0)];
              cbn [length]; lia.
          + intros [<-|Hin]%elem_of_cons.
            * replace (coded m) with false
                by (symmetry; apply Z.eqb_neq; lia).
              replace (labelled m) with true
                by (unfold labelled; by rewrite Htext).
              cbn [length]. lia.
            * specialize (IHlt Hin).
              destruct (coded m0); [rewrite Himp by done|destruct (labelled m0)];
                cbn [length]; lia. }
      destruct (Hlen (ChatSession.messages s)) as [_ Hlt].
      specialize (Hlt Hm).
      destruct (List.filter labelled (ChatSession.messages s))
        as [|m1 found] eqn:Hf; [cbn [length] in Hlt; lia|].
      eexists. split; [reflexivity|]. lia.
Qed.

Lemma take_eqb_prefix (d x : string) :
  String.eqb (str_take (String.length d) x) d = String.prefix d x.
Proof.
  unfold str_take. revert x.
  induction d as [|a d IH]; intros x; [by destruct x|].
  destruct x as [|b x]; [done|].
  cbn [String.length String.substring String.eqb String.prefix].
  destruct (Ascii.ascii_dec a b) as [->|Hne].
  - by rewrite Ascii.eqb_refl, IH.
  - replace (Ascii.eqb b a) with false; [done|].
    symmetry. apply Ascii.eqb_neq. congruence.
Qed.

(** X4.  The count of [get_timeline] under a date of ten characters is the
    number of messages [get_messages_by_date] finds for that date, and the
    timeline has no entry for a date on which it finds none. *)
Theorem timeline_counts_by_date (s : ChatSession.t) (date_str : string) :
  String.length date_str = 10%nat ->
  ChatSession.get_timeline s !! date_str
  = match ChatSession.get_messages_by_date s date_str with
    | [] => None
    | found => Some (Z.of_nat (length found))
    end.
Proof.
  intros Hlen. unfold ChatSession.get_timeline.
  etransitivity;
    [apply (count_up_fold_empty
              (fun m => str_take 10 (ChatMessage.datetime_str m)))|].
  unfold ChatSession.get_messages_by_date.
  rewrite (List.filter_ext _
             (fun m => String.prefix date_str (ChatMessage.datetime_str m)));
    [done|].
  intros m. rewrite <- Hlen. apply take_eqb_prefix.
Qed.

(** X6.  [get_sender_stats] has one entry for each sender of a message and
    no other.  The entry of a sender holds the display name and the time of
    the first of its messages, in the order of the session, the time of the
    last, and their number, which is at least one; the numbers of all the
    entries add up to the number of messages. *)
Theorem sender_stats_entries (s : ChatSession.t) :
  (forall sender_id : string,
      ChatSession.get_sender_stats s !! sender_id
      = stat_of (ChatSession.get_messages_by_sender s sender_id))
  /\ dom (ChatSession.get_sender_stats s)
     = list_to_set (ChatMessage.sender <$> ChatSession.messages s)
  /\ total_count (ChatSession.get_sender_stats s)
     = Z.of_nat (length (ChatSession.messages s))
  /\ (forall (sender_id : string) (e : sender_stat),
        ChatSession.get_sender_stats s !! sender_id = Some e ->
        1 <= stat_count e
        /\ exists first : ChatMessage.t,
             head (ChatSession.get_messages_by_sender s sender_id)
             = Some first
             /\ first ∈ ChatSession.messages s
             /\ ChatMessage.sender first = sender_id
             /\ stat_account_name e = ChatMessage.account_name first
             /\ stat_first_message e = ChatMessage.datetime_str first).
Proof.
  split; [apply sender_stats_lookup|]. split; [apply sender_stats_dom|].
  split; [apply sender_stats_total|].
  intros sender_id e. rewrite sender_stats_lookup.
  destruct (ChatSession.get_messages_by_sender s sender_id)
    as [|first found] eqn:Hfound; [done|].
  cbn [stat_of]. intros [= <-]. cbn [stat_count length]. split; [lia|].
  exists first.
  assert (Hin : first ∈ ChatSession.get_messages_by_sender s sender_id).
  { rewrite Hfound. by left. }
  unfold ChatSession.get_messages_by_sender in Hin.
  apply elem_of_filter in Hin as [Hin Hsender].
  apply String.eqb_eq in Hsender. done.
Qed.

Context `{StrLib}.

(** X5.  In a session as its constructor leaves it, what each query by
    sender, name, date, type or keyword returns is a part of the messages of
    the session, in their order, and so in ascending order of timestamp. *)
Theorem queries_keep_order (chatlab : ChatLabVersion.t) (meta : ChatMeta.t)
    (members : list ChatMember.t) (msgs : list ChatMessage.t) :
  let s := ChatSession.new chatlab meta members msgs in
  let in_order (found : list ChatMessage.t) :=
    sublist found (ChatSession.messages s)
    /\ sorted_by_key ChatMessage.timestamp found in
  (forall sender_id : string,
      in_order (ChatSession.get_messages_by_sender s sender_id))
  /\ (forall name : string,
        in_order (ChatSession.get_messages_by_name s name))
  /\ (forall date_str : string,
        in_order (ChatSession.get_messages_by_date s date_str))
  /\ (forall msg_type : Z + MessageType.t,
        in_order (ChatSession.get_messages_by_type s msg_type))
  /\ (forall (keyword : string) (case_sensitive : bool),
        in_order
          (ChatSession.get_messages_by_keyword s keyword case_sensitive)).
Proof.
  cbv zeta.
  assert (Hfilter : forall f : ChatMessage.t -> bool,
            sublist (List.filter f (sort_by_key ChatMessage.timestamp msgs))
              (sort_by_key ChatMessage.timestamp msgs)
            /\ sorted_by_key ChatMessage.timestamp
                 (List.filter f (sort_by_key ChatMessage.timestamp msgs))).
  { intros f. split; [apply filter_sublist|].
    apply filter_sorted_by_key, sort_by_key_sorted. }
  split; [|split; [|split; [|split]]].
  - intros sender_id. apply Hfilter.
  - intros name. apply Hfilter.
  - intros date_str. apply Hfilter.
  - intros msg_type. apply Hfilter.
  - intros keyword [|]; apply Hfilter.
Qed.
End QueryFacts.

Section QuerySamples.
Import Reference Samples.
#[local] Existing Instances utc ascii_strings.

(** The four messages of the sample session are of 13 February 2026. *)
Lemma timeline_counts_by_date_witness :
  String.length "2026-02-13" = 10%nat
  /\ ChatSession.get_timeline session !! "2026-02-13"%string
     = match ChatSession.get_messages_by_date session "2026-02-13" with
       | [] => None
       | found => Some (Z.of_nat (length found))
       end
  /\ length (ChatSession.get_messages_by_date session "2026-02-13") = 4%nat.
Proof.
  split; [reflexivity|]. split; [|reflexivity].
  exact (timeline_counts_by_date session "2026-02-13" eq_refl).
Defined.
End QuerySamples.

(** ** models.py: decoding and encoding again *)

Section Decoding.
Context `{DateTimeLib}.

Lemma bind_Ok {A B : Type} (m : result A) (k : A -> result B) (b : B) :
  (x ← m; k x) = Ok b <-> exists a : A, m = Ok a /\ k a = Ok b.
Proof.
  destruct m as [a|e]; cbn [mbind result_bind].
  - split; [by exists a|]. by intros (a' & [= <-] & Hk).
  - split; [done|]. by intros (a' & Ha & _).
Qed.

Lemma comprehension_Forall {A B : Type} (f : A -> result B) (P : B -> Prop)
    (l : list A) (ys : list B) :
  (forall x y, f x = Ok y -> P y) ->
  comprehension f l = Ok ys -> Forall P ys.
Proof.
  intros Hf. revert ys.
  induction l as [|x l IH]; intros ys; cbn [comprehension].
  - intros [= <-]. constructor.
  - intros (y & Hy & (ys' & Hys & [= <-])%bind_Ok)%bind_Ok.
    constructor; [by eapply Hf|by apply IH].
Qed.

Lemma new_constructed (sender account_name : string) (timestamp type : Z)
    (content id : string) (reply_to : option string) (msg : ChatMessage.t) :
  ChatMessage.new sender account_name timestamp type content id reply_to
  = Ok msg ->
  ChatMessage.constructed msg.
Proof.
  unfold ChatMessage.new, ChatMessage.constructed.
  destruct (fromtimestamp timestamp) as [dt|] eqn:Hdt; [|done].
  by intros [= <-].
Qed.

Lemma message_from_dict_constructed (data : pyval) (msg : ChatMessage.t) :
  ChatMessage.from_dict data = Ok msg -> ChatMessage.constructed msg.
Proof.
  unfold ChatMessage.from_dict.
  intros (d & _ & (s & _ & (a & _ & (ts & _ & (ty & _ & (c & _ & (p & _
    & (r & _ & Hnew)%bind_Ok)%bind_Ok)%bind_Ok)%bind_Ok)%bind_Ok)%bind_Ok)
    %bind_Ok)%bind_Ok.
  by eapply new_constructed.
Qed.

Lemma new_canonical (chatlab : ChatLabVersion.t) (meta : ChatMeta.t)
    (members : list ChatMember.t) (msgs : list ChatMessage.t) :
  Forall ChatMessage.constructed msgs ->
  canonical (ChatSession.new chatlab meta members msgs).
Proof.
  intros Hmsgs. split;
    cbn [ChatSession.new ChatSession.__post_init__ ChatSession.messages].
  - apply (sorted_by_key_ascending ChatMessage.timestamp), sort_by_key_sorted.
  - rewrite Forall_forall in Hmsgs. apply Forall_forall. intros m Hm.
    apply Hmsgs.
    by rewrite (sort_by_key_perm ChatMessage.timestamp msgs) in Hm.
Qed.

(** X7.  A session that [ChatSession.from_dict] returns is as the
    constructors leave it, whatever the dict: its messages are in ascending
    order of timestamp, those of the dict in another order included, and
    each carries the date and time of its timestamp. *)
Theorem decoded_session_canonical (data : pyval) (s : ChatSession.t) :
  ChatSession.from_dict data = Ok s -> canonical s.
Proof.
  unfold ChatSession.from_dict.
  intros (d & _ & (c & _ & (m & _ & (mem_data & _ & (mem & _
    & (msg_data & _ & (msg & Hmsg & [= <-])%bind_Ok)%bind_Ok)%bind_Ok)
    %bind_Ok)%bind_Ok)%bind_Ok)%bind_Ok.
  apply new_canonical.
  eapply comprehension_Forall; [|exact Hmsg].
  apply message_from_dict_constructed.
Qed.

Lemma drop_empty_filled (o : option string) :
  absent_or_filled (drop_empty o).
Proof. by destruct o as [[|c o]|]. Qed.

Lemma drop_empty_id (o : option string) :
  absent_or_filled o -> drop_empty o = o.
Proof. by destruct o as [[|c o]|]. Qed.

Lemma meta_encoded (m : ChatMeta.t) :
  ChatMeta.from_dict (PDict (ChatMeta.to_dict m)) = Ok (meta_as_encoded m)
  /\ ChatMeta.to_dict (meta_as_encoded m) = ChatMeta.to_dict m.
Proof. by destruct m as [n p t o [[|a av]|] [[|b ds]|]]. Qed.

Lemma member_encoded (m : ChatMember.t) :
  ChatMember.from_dict (PDict (ChatMember.to_dict m))
  = Ok (member_as_encoded m)
  /\ ChatMember.to_dict (member_as_encoded m) = ChatMember.to_dict m.
Proof. by destruct m as [p n [[|a r]|] [[|b av]|] [[|c rm]|]]. Qed.

Lemma message_encoded (m : ChatMessage.t) :
  ChatMessage.constructed m ->
  ChatMessage.from_dict (PDict (ChatMessage.to_dict m))
  = Ok (message_as_encoded m)
  /\ ChatMessage.to_dict (message_as_encoded m) = ChatMessage.to_dict m.
Proof.
  unfold ChatMessage.constructed.
  destruct m as [s n ts ty c p [[|a r]|] dt];
    cbn [ChatMessage.timestamp ChatMessage._datetime]; intros Hc;
    (split; [|reflexivity]).
  - transitivity (ChatMessage.new s n ts ty c p None); [reflexivity|].
    unfold ChatMessage.new. by rewrite Hc.
  - transitivity (ChatMessage.new s n ts ty c p (Some (String a r)));
      [reflexivity|].
    unfold ChatMessage.new. by rewrite Hc.
  - transitivity (ChatMessage.new s n ts ty c p None); [reflexivity|].
    unfold ChatMessage.new. by rewrite Hc.
Qed.

Lemma comprehension_fmap {A : Type} (decode : pyval -> result A)
    (encode : A -> pyval) (as_encoded : A -> A) (l : list A) :
  Forall (fun x => decode (encode x) = Ok (as_encoded x)) l ->
  comprehension decode (encode <$> l) = Ok (as_encoded <$> l).
Proof.
  induction 1 as [|x l Hx Hl IH]; [done|].
  rewrite !fmap_cons. cbn [comprehension]. rewrite Hx, IH. reflexivity.
Qed.

Lemma sorted_by_key_fmap {A : Type} (key : A -> Z) (f : A -> A)
    (l : list A) :
  (forall x, key (f x) = key x) ->
  sorted_by_key key l -> sorted_by_key key (f <$> l).
Proof.
  intros Hkey. unfold sorted_by_key.
  induction 1 as [|x l Hl IH Hx]; [constructor|].
  rewrite fmap_cons. constructor; [exact IH|].
  apply Forall_fmap. eapply Forall_impl; [exact Hx|].
  intros y Hy. cbn. by rewrite !Hkey.
Qed.

Lemma fmap_id_Forall {A : Type} (f : A -> A) (l : list A) :
  Forall (fun x => f x = x) l -> f <$> l = l.
Proof.
  induction 1 as [|x l Hx Hl IH]; [done|].
  by rewrite fmap_cons, Hx, IH.
Qed.

(** X8.  What encoding and decoding does to a session as the constructors
    leave it: the session comes back with each optional field that held the
    empty string set to [None], and with nothing else changed.  That
    session has the same encoded form, is again as the constructors leave it
    and has no empty optional field, so that a second round changes nothing
    more; and it is the session itself when no optional field held the empty
    string. *)
Theorem session_round_trip_as_encoded (s : ChatSession.t) :
  canonical s ->
  ChatSession.from_dict (PDict (ChatSession.to_dict s))
  = Ok (session_as_encoded s)
  /\ ChatSession.to_dict (session_as_encoded s) = ChatSession.to_dict s
  /\ canonical (session_as_encoded s)
  /\ optionals_filled (session_as_encoded s)
  /\ ChatSession.from_dict
       (PDict (ChatSession.to_dict (session_as_encoded s)))
     = Ok (session_as_encoded s)
  /\ (optionals_filled s -> session_as_encoded s = s).
Proof.
  intros [Hasc Hcons].
  destruct s as [v m mem msgs]. cbn [ChatSession.messages] in Hasc, Hcons.
  assert (Hsorted : sorted_by_key ChatMessage.timestamp
                      (message_as_encoded <$> msgs)).
  { apply sorted_by_key_fmap; [done|]. by apply ascending_sorted_by_key. }
  assert (Hdict : ChatSession.to_dict
                    (session_as_encoded
                       {| ChatSession.chatlab := v; ChatSession.meta := m;
                          ChatSession.members := mem;
                          ChatSession.messages := msgs |})
                  = ChatSession.to_dict
                      {| ChatSession.chatlab := v; ChatSession.meta := m;
                         ChatSession.members := mem;
                         ChatSession.messages := msgs |}).
  { unfold ChatSession.to_dict, session_as_encoded.
    cbn [ChatSession.chatlab ChatSession.meta ChatSession.members
         ChatSession.messages].
    rewrite (proj2 (meta_encoded m)), <- !list_fmap_compose.
    f_equal. f_equal. f_equal.
    - f_equal. apply list_fmap_ext. intros i x _. cbn.
      by rewrite (proj2 (member_encoded x)).
    - f_equal. f_equal. apply Forall_fmap_ext_1.
      eapply Forall_impl; [exact Hcons|]. intros x Hx. cbn.
      by rewrite (proj2 (message_encoded x Hx)). }
  assert (Hround : ChatSession.from_dict
                     (PDict
                        (ChatSession.to_dict
                           {| ChatSession.chatlab := v; ChatSession.meta := m;
                              ChatSession.members := mem;
                              ChatSession.messages := msgs |}))
                   = Ok (session_as_encoded
                           {| ChatSession.chatlab := v;
                              ChatSession.meta := m;
                              ChatSession.members := mem;
                              ChatSession.messages := msgs |})).
  { transitivity
      (Ok (ChatSession.new v (meta_as_encoded m) (member_as_encoded <$> mem)
             (message_as_encoded <$> msgs))).
    - eapply ChatSession_from_dict_fields; try reflexivity.
      + apply ChatLabVersion_round_trip.
      + apply meta_encoded.
      + apply (comprehension_fmap ChatMember.from_dict
                 (PDict ∘ ChatMember.to_dict)).
        apply Forall_forall. intros x _. apply member_encoded.
      + apply (comprehension_fmap ChatMessage.from_dict
                 (PDict ∘ ChatMessage.to_dict)).
        eapply Forall_impl; [exact Hcons|]. intros x Hx.
        by apply message_encoded.
    - unfold ChatSession.new, ChatSession.__post_init__, session_as_encoded.
      cbn [ChatSession.chatlab ChatSession.meta ChatSession.members
           ChatSession.messages].
      by rewrite (sort_by_key_sorted_id ChatMessage.timestamp). }
  split; [exact Hround|]. split; [exact Hdict|]. split; [|split; [|split]].
  - split; cbn [session_as_encoded ChatSession.messages].
    + by apply (sorted_by_key_ascending ChatMessage.timestamp).
    + apply Forall_fmap. eapply Forall_impl; [exact Hcons|]. by intros x.
  - unfold optionals_filled.
    cbn [session_as_encoded ChatSession.meta ChatSession.members
         ChatSession.messages meta_as_encoded ChatMeta.avatar
         ChatMeta.description].
    split; [apply drop_empty_filled|]. split; [apply drop_empty_filled|].
    split; apply Forall_fmap, Forall_forall; intros x _; cbn;
      repeat split; apply drop_empty_filled.
  - by rewrite Hdict.
  - intros (Hav & Hds & Hmem & Hmsg).
    cbn [ChatSession.meta ChatSession.members ChatSession.messages] in *.
    unfold session_as_encoded.
    cbn [ChatSession.chatlab ChatSession.meta ChatSession.members
         ChatSession.messages].
    f_equal.
    + destruct m as [n p t o av ds]. unfold meta_as_encoded.
      cbn [ChatMeta.avatar ChatMeta.description ChatMeta.name
           ChatMeta.platform ChatMeta.type ChatMeta.owner_id] in *.
      by rewrite !drop_empty_id.
    + apply fmap_id_Forall. eapply Forall_impl; [exact Hmem|].
      intros [p n r av rm] (Hr & Ha & Hm). unfold member_as_encoded.
      cbn [ChatMember.role ChatMember.avatar ChatMember.remark
           ChatMember.platform_id ChatMember.account_name] in *.
      by rewrite !drop_empty_id.
    + apply fmap_id_Forall. eapply Forall_impl; [exact Hmsg|].
      intros [sd n ts ty c p r dt] Hr. unfold message_as_encoded.
      cbn [ChatMessage.reply_to ChatMessage.sender ChatMessage.account_name
           ChatMessage.timestamp ChatMessage.type ChatMessage.content
           ChatMessage.platform_message_id ChatMessage._datetime] in *.
      by rewrite drop_empty_id.
Qed.

Lemma version_from_dict_agree (d1 d2 : gmap string pyval) :
  (forall k : string,
      k ∈ ["version"; "exportedAt"; "generator"]%string ->
      d1 !! k = d2 !! k) ->
  ChatLabVersion.from_dict (PDict d1) = ChatLabVersion.from_dict (PDict d2).
Proof.
  intros Hk.
  unfold ChatLabVersion.from_dict, get_str, get_int. cbn [as_dict mbind result_bind].
  rewrite (Hk "version"%string), (Hk "exportedAt"%string),
    (Hk "generator"%string) by own_key.
  reflexivity.
Qed.

Lemma meta_from_dict_agree (d1 d2 : gmap string pyval) :
  (forall k : string,
      k ∈ ["name"; "platform"; "type"; "ownerId"; "avatar";
           "description"]%string ->
      d1 !! k = d2 !! k) ->
  ChatMeta.from_dict (PDict d1) = ChatMeta.from_dict (PDict d2).
Proof.
  intros Hk.
  unfold ChatMeta.from_dict, get_str, get_opt_str. cbn [as_dict mbind result_bind].
  rewrite (Hk "name"%string), (Hk "platform"%string), (Hk "type"%string),
    (Hk "ownerId"%string), (Hk "avatar"%string), (Hk "description"%string)
    by own_key.
  reflexivity.
Qed.

Lemma member_from_dict_agree (d1 d2 : gmap string pyval) :
  (forall k : string,
      k ∈ ["platformId"; "accountName"; "role"; "avatar"; "remark"]%string ->
      d1 !! k = d2 !! k) ->
  ChatMember.from_dict (PDict d1) = ChatMember.from_dict (PDict d2).
Proof.
  intros Hk.
  unfold ChatMember.from_dict, get_str, get_opt_str. cbn [as_dict mbind result_bind].
  rewrite (Hk "platformId"%string), (Hk "accountName"%string),
    (Hk "role"%string), (Hk "avatar"%string), (Hk "remark"%string)
    by own_key.
  reflexivity.
Qed.

Lemma message_from_dict_agree (d1 d2 : gmap string pyval) :
  (forall k : string,
      k ∈ ["sender"; "accountName"; "timestamp"; "type"; "content";
           "platformMessageId"; "replyTo"]%string ->
      d1 !! k = d2 !! k) ->
  ChatMessage.from_dict (PDict d1) = ChatMessage.from_dict (PDict d2).
Proof.
  intros Hk.
  unfold ChatMessage.from_dict, get_str, get_int, get_opt_str.
  cbn [as_dict mbind result_bind].
  rewrite (Hk "sender"%string), (Hk "accountName"%string),
    (Hk "timestamp"%string), (Hk "type"%string), (Hk "content"%string),
    (Hk "platformMessageId"%string), (Hk "replyTo"%string) by own_key.
  reflexivity.
Qed.

Lemma session_from_dict_agree (d1 d2 : gmap string pyval) :
  (forall k : string,
      k ∈ ["chatlab"; "meta"; "members"; "messages"]%string ->
      d1 !! k = d2 !! k) ->
  ChatSession.from_dict (PDict d1) = ChatSession.from_dict (PDict d2).
Proof.
  intros Hk.
  unfold ChatSession.from_dict, get_or_empty_dict, get_iter. cbn [as_dict mbind result_bind].
  rewrite (Hk "chatlab"%string), (Hk "meta"%string), (Hk "members"%string),
    (Hk "messages"%string) by own_key.
  reflexivity.
Qed.

(** X9.  Each [from_dict] reads the keys of its own class and no other: two
    dicts that agree on these keys are decoded alike, whatever else they
    hold.  A dict with none of the four keys of a session is decoded as the
    session of the default values, without members or messages. *)
Theorem from_dict_reads_own_keys :
  (forall d1 d2 : gmap string pyval,
      (forall k : string,
          k ∈ ["chatlab"; "meta"; "members"; "messages"]%string ->
          d1 !! k = d2 !! k) ->
      ChatSession.from_dict (PDict d1) = ChatSession.from_dict (PDict d2))
  /\ (forall d1 d2 : gmap string pyval,
        (forall k : string,
            k ∈ ["version"; "exportedAt"; "generator"]%string ->
            d1 !! k = d2 !! k) ->
        ChatLabVersion.from_dict (PDict d1)
        = ChatLabVersion.from_dict (PDict d2))
  /\ (forall d1 d2 : gmap string pyval,
        (forall k : string,
            k ∈ ["name"; "platform"; "type"; "ownerId"; "avatar";
                 "description"]%string ->
            d1 !! k = d2 !! k) ->
        ChatMeta.from_dict (PDict d1) = ChatMeta.from_dict (PDict d2))
  /\ (forall d1 d2 : gmap string pyval,
        (forall k : string,
            k ∈ ["platformId"; "accountName"; "role"; "avatar";
                 "remark"]%string ->
            d1 !! k = d2 !! k) ->
        ChatMember.from_dict (PDict d1) = ChatMember.from_dict (PDict d2))
  /\ (forall d1 d2 : gmap string pyval,
        (forall k : string,
            k ∈ ["sender"; "accountName"; "timestamp"; "type"; "content";
                 "platformMessageId"; "replyTo"]%string ->
            d1 !! k = d2 !! k) ->
        ChatMessage.from_dict (PDict d1) = ChatMessage.from_dict (PDict d2))
  /\ (forall d : gmap string pyval,
        (forall k : string,
            k ∈ ["chatlab"; "meta"; "members"; "messages"]%string ->
            d !! k = None) ->
        ChatSession.from_dict (PDict d)
        = Ok (ChatSession.new default_version default_meta [] [])).
Proof.
  split; [exact session_from_dict_agree|].
  split; [exact version_from_dict_agree|].
  split; [exact meta_from_dict_agree|].
  split; [exact member_from_dict_agree|].
  split; [exact message_from_dict_agree|].
  intros d Hd. rewrite (session_from_dict_agree d ∅); [reflexivity|].
  intros k Hk. by rewrite (Hd k Hk), lookup_empty.
Qed.
End Decoding.

Section DecodingSamples.
Import Reference Samples.
#[local] Existing Instance utc.

(** A dict whose two messages come the later one first is decoded as a
    session whose messages come the earlier one first. *)
Lemma decoded_session_canonical_witness :
  ChatSession.from_dict later_first_data
  = Ok (ChatSession.new default_version default_meta []
          [ message "" "" 100 "" ""; message "" "" 0 "" "" ])
  /\ ChatMessage.timestamp
       <$> ChatSession.messages
             (ChatSession.new default_version default_meta []
                [ message "" "" 100 "" ""; message "" "" 0 "" "" ])
     = [0; 100]
  /\ canonical
       (ChatSession.new default_version default_meta []
          [ message "" "" 100 "" ""; message "" "" 0 "" "" ]).
Proof.
  split; [reflexivity|]. split; [reflexivity|].
  exact (decoded_session_canonical later_first_data
           (ChatSession.new default_version default_meta []
              [ message "" "" 100 "" ""; message "" "" 0 "" "" ])
           eq_refl).
Defined.

Lemma session_empty_avatar_canonical : canonical session_empty_avatar.
Proof.
  split.
  - apply (sorted_by_key_ascending ChatMessage.timestamp), sort_by_key_sorted.
  - repeat constructor.
Qed.

(** The session whose avatar is the empty string comes back without an
    avatar, and as it is from then on. *)
Lemma session_round_trip_as_encoded_witness :
  canonical session_empty_avatar
  /\ ChatSession.from_dict (PDict (ChatSession.to_dict session_empty_avatar))
     = Ok (session_as_encoded session_empty_avatar)
  /\ ChatMeta.avatar (ChatSession.meta session_empty_avatar)
     = Some ""%string
  /\ ChatMeta.avatar
       (ChatSession.meta (session_as_encoded session_empty_avatar))
     = None.
Proof.
  split; [exact session_empty_avatar_canonical|].
  split; [|split; reflexivity].
  exact (proj1 (session_round_trip_as_encoded session_empty_avatar
                  session_empty_avatar_canonical)).
Defined.
End DecodingSamples.

(** ** json_parser.py and json_exporter.py: JSON Lines *)

Section JsonLinesCollectedSample.
Import Reference Samples.
#[local] Existing Instances utc ascii_strings sample_decoders.

(** A header line, a line that is not JSON and a member line: the second
    line is passed over, and the session has the member of the third. *)
Lemma jsonl_lines_collected_witness :
  Forall line_blank_invalid_or_object
    (splitlines
       (strip (header_line +:+ line_feed +:+ "not json" +:+ line_feed
               +:+ member_line)))
  /\ JSONParser.parse_jsonl
       (header_line +:+ line_feed +:+ "not json" +:+ line_feed
        +:+ member_line)
     = Ok (ChatSession.new default_version default_meta
             [ {| ChatMember.platform_id := "u1";
                  ChatMember.account_name := "";
                  ChatMember.role := None; ChatMember.avatar := None;
                  ChatMember.remark := None |} ] []).
Proof.
  assert (Hlines : Forall line_blank_invalid_or_object
            (splitlines
               (strip (header_line +:+ line_feed +:+ "not json" +:+ line_feed
                       +:+ member_line)))).
  { change (Forall line_blank_invalid_or_object
              [header_line; "not json"%string; member_line]).
    constructor; [|constructor; [|constructor; [|constructor]]].
    - right. right. eexists. reflexivity.
    - right. left. reflexivity.
    - right. right. eexists. reflexivity. }
  split; [exact Hlines|].
  rewrite (jsonl_lines_collected _ Hlines). reflexivity.
Defined.
End JsonLinesCollectedSample.

Section JsonLinesExport.
Context `{DateTimeLib} `{StrLib} `{DecoderLib}.

Lemma with_type_tag_lookup (tag : string) (d : gmap string pyval)
    (k : string) :
  k <> "_type"%string -> with_type_tag tag d !! k = d !! k.
Proof.
  intros Hk. unfold with_type_tag. apply lookup_union_l.
  apply lookup_singleton_ne. congruence.
Qed.

Lemma with_type_tag_tagged (tag t : string) (d : gmap string pyval) :
  d !! "_type"%string = None ->
  tagged t (with_type_tag tag d) = String.eqb tag t.
Proof.
  intros Hd. unfold tagged, with_type_tag.
  by rewrite lookup_union_r, lookup_singleton_eq by done.
Qed.

Lemma member_to_dict_untagged (m : ChatMember.t) :
  ChatMember.to_dict m !! "_type"%string = None.
Proof. by destruct m as [p n [[|a r]|] [[|b av]|] [[|c rm]|]]. Qed.

Lemma message_to_dict_untagged (m : ChatMessage.t) :
  ChatMessage.to_dict m !! "_type"%string = None.
Proof. by destruct m as [s n ts ty c p [[|a r]|] dt]. Qed.

Lemma filter_fmap_const {A B : Type} (p : B -> bool) (f : A -> B) (b : bool)
    (l : list A) :
  (forall x, p (f x) = b) ->
  List.filter p (f <$> l) = if b then f <$> l else [].
Proof.
  intros Hp. induction l as [|x l IH]; [by destruct b|].
  rewrite fmap_cons. cbn [List.filter]. rewrite Hp, IH. by destruct b.
Qed.

(** The lines of [export_stream], by tag. *)
Lemma export_stream_tagged (s : ChatSession.t) :
  List.filter (tagged "header") (JSONLExporter.export_stream s)
  = [JSONLExporter.header s]
  /\ List.filter (tagged "member") (JSONLExporter.export_stream s)
     = JSONLExporter.member_line <$> ChatSession.members s
  /\ List.filter (tagged "message") (JSONLExporter.export_stream s)
     = JSONLExporter.msg_line <$> ChatSession.messages s.
Proof.
  unfold JSONLExporter.export_stream.
  assert (Hmem : forall t (m : ChatMember.t),
            tagged t (JSONLExporter.member_line m) = String.eqb "member" t).
  { intros t m. apply with_type_tag_tagged, member_to_dict_untagged. }
  assert (Hmsg : forall t (m : ChatMessage.t),
            tagged t (JSONLExporter.msg_line m) = String.eqb "message" t).
  { intros t m. apply with_type_tag_tagged, message_to_dict_untagged. }
  split; [|split]; cbn [List.filter]; rewrite List.filter_app.
  - rewrite (filter_fmap_const _ _ false) by (intros; apply Hmem).
    rewrite (filter_fmap_const _ _ false) by (intros; apply Hmsg).
    reflexivity.
  - rewrite (filter_fmap_const _ _ true) by (intros; apply Hmem).
    rewrite (filter_fmap_const _ _ false) by (intros; apply Hmsg).
    change (tagged "member" (JSONLExporter.header s)) with false.
    by rewrite app_nil_r.
  - rewrite (filter_fmap_const _ _ false) by (intros; apply Hmem).
    rewrite (filter_fmap_const _ _ true) by (intros; apply Hmsg).
    reflexivity.
Qed.

Lemma ChatSession_from_dict_lookup (d : gmap string pyval) (dc dm : pyval)
    (lmem lmsg : list pyval) :
  d !! "chatlab"%string = Some dc ->
  d !! "meta"%string = Some dm ->
  d !! "members"%string = Some (PList lmem) ->
  d !! "messages"%string = Some (PList lmsg) ->
  ChatSession.from_dict (PDict d)
  = (c ← ChatLabVersion.from_dict dc;
     m ← ChatMeta.from_dict dm;
     mem ← comprehension ChatMember.from_dict lmem;
     msg ← comprehension ChatMessage.from_dict lmsg;
     Ok (ChatSession.new c m mem msg)).
Proof.
  intros Hc Hm Hmem Hmsg.
  unfold ChatSession.from_dict, get_or_empty_dict, get_iter.
  cbn [as_dict]. unfold mbind at 1. unfold result_bind at 1.
  rewrite Hc, Hm, Hmem, Hmsg. reflexivity.
Qed.

Lemma comprehension_fmap_ext {A B : Type} (f : pyval -> result B)
    (g1 g2 : A -> pyval) (l : list A) :
  (forall x, f (g1 x) = f (g2 x)) ->
  comprehension f (g1 <$> l) = comprehension f (g2 <$> l).
Proof.
  intros Hf. induction l as [|x l IH]; [done|].
  rewrite !fmap_cons. cbn [comprehension]. by rewrite Hf, IH.
Qed.

(** X11.  A text whose lines [json.loads] reads as the objects
    [JSONLExporter] writes for a session, blank lines and lines that are not
    JSON apart, is parsed by [parse_jsonl] as the JSON form of the session
    is decoded: writing a session as JSON Lines and reading it gives what
    writing it as one JSON document and reading it gives.  The tag ["_type"]
    the exporter adds to each member and message is not read by their
    decoders. *)
Theorem jsonl_export_import (s : ChatSession.t) (source : string) :
  let lines := splitlines (strip source) in
  Forall line_blank_invalid_or_object lines ->
  omap line_object lines = JSONLExporter.export_stream s ->
  JSONParser.parse_jsonl source
  = ChatSession.from_dict (PDict (ChatSession.to_dict s)).
Proof.
  cbv zeta. intros Hlines Hobjects. unfold JSONParser.parse_jsonl.
  rewrite (jsonl_loop _ _ Hlines). cbn [mbind result_bind].
  cbn [JSONParser.header JSONParser.members JSONParser.messages app].
  unfold objects_tagged. rewrite Hobjects.
  destruct (export_stream_tagged s) as (-> & -> & ->).
  cbn [last].
  rewrite bool_decide_eq_false_2
    by (apply (tagged_nonempty "header"); reflexivity).
  rewrite (ChatSession_from_dict_lookup _
             (PDict (ChatLabVersion.to_dict (ChatSession.chatlab s)))
             (PDict (ChatMeta.to_dict (ChatSession.meta s)))
             (PDict <$> (JSONLExporter.member_line <$> ChatSession.members s))
             (PDict <$> (JSONLExporter.msg_line <$> ChatSession.messages s)))
    by reflexivity.
  rewrite (ChatSession_from_dict_lookup (ChatSession.to_dict s)
             (PDict (ChatLabVersion.to_dict (ChatSession.chatlab s)))
             (PDict (ChatMeta.to_dict (ChatSession.meta s)))
             (PDict ∘ ChatMember.to_dict <$> ChatSession.members s)
             (PDict ∘ ChatMessage.to_dict <$> ChatSession.messages s))
    by reflexivity.
  rewrite <- !list_fmap_compose.
  rewrite (comprehension_fmap_ext ChatMember.from_dict
             (PDict ∘ JSONLExporter.member_line) (PDict ∘ ChatMember.to_dict)).
  - rewrite (comprehension_fmap_ext ChatMessage.from_dict
               (PDict ∘ JSONLExporter.msg_line) (PDict ∘ ChatMessage.to_dict));
      [reflexivity|].
    intros m. cbn. apply message_from_dict_agree.
    intros k Hk. apply with_type_tag_lookup.
    intros ->. by repeat (apply elem_of_cons in Hk as [Hk|Hk]; [done|]);
      apply elem_of_nil in Hk.
  - intros m. cbn. apply member_from_dict_agree.
    intros k Hk. apply with_type_tag_lookup.
    intros ->. by repeat (apply elem_of_cons in Hk as [Hk|Hk]; [done|]);
      apply elem_of_nil in Hk.
Qed.

(** X12.  [AutoParser.parse] on a text: the session is the one
    [parse_jsonl] gives, or the one [JSONParser.parse] gives; an exception
    is one of [JSONParser.parse], never one of [parse_jsonl], whose missing
    header and whose [AttributeError] on a line that is no object are both
    swallowed; and a text without a line feed or without ["_type"] in
    double quotes goes to [JSONParser.parse] alone. *)
Theorem auto_parse_outcomes (source : string) :
  let text := strip source in
  (forall s : ChatSession.t,
      AutoParser.parse source = Ok s ->
      JSONParser.parse_jsonl text = Ok s \/ JSONParser.parse text = Ok s)
  /\ (forall e : exn,
        AutoParser.parse source = Raise e ->
        e <> IllTyped ->
        JSONParser.parse text = Raise e)
  /\ (forall s : ChatSession.t,
        AutoParser.looks_like_jsonl text = true ->
        JSONParser.parse_jsonl text = Ok s ->
        AutoParser.parse source = Ok s)
  /\ (forall e : exn,
        JSONParser.parse_jsonl text = Raise e ->
        e <> IllTyped ->
        AutoParser.parse source = JSONParser.parse text)
  /\ (AutoParser.looks_like_jsonl text = false ->
      AutoParser.parse source = JSONParser.parse text).
Proof.
  cbv zeta. unfold AutoParser.parse.
  split; [|split; [|split; [|split]]].
  - intros s.
    destruct (AutoParser.looks_like_jsonl (strip source)); [|by right].
    destruct (JSONParser.parse_jsonl (strip source)) as [s'|e];
      [by left|].
    destruct e; try done; by right.
  - intros e.
    destruct (AutoParser.looks_like_jsonl (strip source)); [|done].
    destruct (JSONParser.parse_jsonl (strip source)) as [s'|e'];
      [done|].
    destruct e'; try done. by intros [= <-].
  - by intros s -> ->.
  - intros e -> He.
    destruct (AutoParser.looks_like_jsonl (strip source)); [|done].
    by destruct e.
  - by intros ->.
Qed.
End JsonLinesExport.

Section JsonLinesExportSamples.
Import Reference Samples ExportSamples.
#[local] Existing Instances utc ascii_strings exported_decoders.

(** The three lines written for the session of Bob's "hello" are read as
    that session. *)
Lemma jsonl_export_import_witness :
  Forall line_blank_invalid_or_object (splitlines (strip exported_text))
  /\ omap line_object (splitlines (strip exported_text))
     = JSONLExporter.export_stream bob_says_hello
  /\ JSONParser.parse_jsonl exported_text = Ok bob_says_hello.
Proof.
  assert (Hlines : Forall line_blank_invalid_or_object
                     (splitlines (strip exported_text))).
  { change (Forall line_blank_invalid_or_object
              [header_text; member_text; message_text]).
    constructor; [|constructor; [|constructor; [|constructor]]];
      right; right; eexists; reflexivity. }
  assert (Hobjects : omap line_object (splitlines (strip exported_text))
                     = JSONLExporter.export_stream bob_says_hello)
    by reflexivity.
  split; [exact Hlines|]. split; [exact Hobjects|].
  rewrite (jsonl_export_import bob_says_hello exported_text Hlines Hobjects).
  reflexivity.
Defined.
End JsonLinesExportSamples.

Section AutoParserSamples.
Import Reference Samples.
#[local] Existing Instances utc ascii_strings sample_decoders.

(** The text whose second line is the number 42: [parse_jsonl] raises its
    [AttributeError]; [AutoParser.parse] swallows it, hands the text to
    [JSONParser.parse], and raises the format error of that. *)
Lemma auto_parse_number_line :
  JSONParser.parse_jsonl
    (header_line +:+ line_feed +:+ "42" +:+ line_feed +:+ member_line)
  = Raise AttributeError
  /\ AutoParser.parse
       (header_line +:+ line_feed +:+ "42" +:+ line_feed +:+ member_line)
     = Raise JSONParser.format_error.
Proof. split; reflexivity. Qed.
End AutoParserSamples.

(** ** csv_parser.py and the CSV exporter *)

Section CsvColumns.
Context `{DateTimeLib} `{StrLib} `{NumLib}.

Lemma list_index_find (g : string -> string) (x : string)
    (hs : list string) :
  if list_in x (g <$> hs)
  then hs !! list_index x (g <$> hs)
       = List.find (fun h => String.eqb (g h) x) hs
       /\ is_Some (List.find (fun h => String.eqb (g h) x) hs)
  else List.find (fun h => String.eqb (g h) x) hs = None.
Proof.
  unfold list_in.
  induction hs as [|h hs IH]; [done|].
  rewrite fmap_cons. cbn [existsb list_index List.find].
  rewrite (String.eqb_sym x (g h)).
  destruct (String.eqb (g h) x); [by split|]. exact IH.
Qed.

Lemma detect_variants_list (hs : list string) (standard_name : string)
    (variants : list string) (column_map : gmap string string) :
  CSVParser.detect_variants (AsList hs)
    ((fun h => strip (lower h)) <$> hs) standard_name variants column_map
  = Ok (with_detected hs (standard_name, variants) column_map).
Proof.
  unfold with_detected, detected_header. cbn [fst snd].
  induction variants as [|variant variants IH];
    cbn [CSVParser.detect_variants]; [done|].
  rewrite fmap_cons. cbn [first_success]. unfold matching_header at 1.
  pose proof (list_index_find (fun h => strip (lower h)) (lower variant) hs)
    as Hfind.
  destruct (list_in (lower variant) _).
  - destruct Hfind as [Hidx [h Hh]]. cbn [seq_subscript].
    rewrite Hidx, Hh. reflexivity.
  - rewrite Hfind. exact IH.
Qed.

(** X13.  [_detect_columns] on a list of headers, as it is annotated: it
    does not raise; for each of the five columns it records, under the name
    of the column, the header of the first alias of the column, in the order
    of the aliases, that some header is, up to case and surrounding white
    space (the first such header, when there are more), and leaves the
    entry of a column without such a header as it was; it touches no other
    entry. *)
Theorem detect_columns_list (hs : list string)
    (column_map : gmap string string) :
  exists column_map' : gmap string string,
    CSVParser._detect_columns (AsList hs) column_map = Ok column_map'
    /\ (forall (name : string) (variants : list string),
          (name, variants) ∈ CSVParser.COLUMN_MAPPINGS ->
          column_map' !! name
          = match detected_header hs variants with
            | Some h => Some h
            | None => column_map !! name
            end)
    /\ (forall k : string,
          k ∉ (CSVParser.COLUMN_MAPPINGS).*1 ->
          column_map' !! k = column_map !! k).
Proof.
  unfold CSVParser._detect_columns, CSVParser.COLUMN_MAPPINGS.
  cbn [for_each seq_items].
  repeat (rewrite detect_variants_list; cbn [mbind result_bind]; cbv beta).
  eexists. split; [reflexivity|]. unfold with_detected. cbn [fst snd].
  split.
  - intros name variants Hin.
    repeat (apply elem_of_cons in Hin as [[= -> ->]|Hin];
            [repeat (destruct (detected_header hs _));
             by repeat (rewrite lookup_insert_eq
                        || rewrite lookup_insert_ne by done)|]).
    by apply elem_of_nil in Hin.
  - intros k Hk. cbn [fmap list_fmap fst] in Hk.
    repeat (destruct (detected_header hs _));
      rewrite ?lookup_insert_ne; try done;
      intros <-; apply Hk; repeat constructor.
Qed.

Lemma detect_variants_keys_Ok (hs headers_lower : list string)
    (standard_name : string) (variants : list string)
    (column_map column_map' : gmap string string) :
  CSVParser.detect_variants (AsKeys hs) headers_lower standard_name variants
    column_map = Ok column_map' ->
  column_map' = column_map
  /\ Forall (fun v => list_in (lower v) headers_lower = false) variants.
Proof.
  induction variants as [|variant variants IH];
    cbn [CSVParser.detect_variants].
  - intros [= <-]. by split.
  - destruct (list_in (lower variant) headers_lower) eqn:Hin; [done|].
    intros [-> Hrest]%IH. split; [done|]. by constructor.
Qed.

Lemma detect_columns_keys_Ok (hs : list string)
    (column_map column_map' : gmap string string) :
  CSVParser._detect_columns (AsKeys hs) column_map = Ok column_map' ->
  column_map' = column_map
  /\ Forall (fun mapping : string * list string =>
               Forall (fun v =>
                         list_in (lower v)
                           ((fun h => strip (lower h)) <$> hs) = false)
                 mapping.2)
       CSVParser.COLUMN_MAPPINGS.
Proof.
  unfold CSVParser._detect_columns. cbn [seq_items].
  revert column_map.
  induction CSVParser.COLUMN_MAPPINGS as [|[name variants] mappings IH];
    intros column_map; cbn [for_each].
  - intros [= <-]. by split.
  - intros (cm & Hcm & Hrest)%bind_Ok.
    apply detect_variants_keys_Ok in Hcm as [-> Hvariants].
    apply IH in Hrest as [-> Hrest]. split; [done|]. by constructor.
Qed.

Lemma row_get_None (row : csv_row) (key : string) :
  key ∉ row.*1 -> row_get row key = None.
Proof.
  induction row as [|[k v] row IH]; [done|].
  rewrite fmap_cons, not_elem_of_cons. cbn [fst row_get]. intros [Hne Hrow].
  destruct (String.eqb_spec k key) as [Heq|_]; [congruence|]. by apply IH.
Qed.

(** A header that is an alias is found by the search of
    [_detect_columns]. *)
Lemma alias_header_found (hs : list string) (v : string) :
  strip (lower v) = lower v ->
  v ∈ hs ->
  list_in (lower v) ((fun h => strip (lower h)) <$> hs) = true.
Proof.
  intros Hv Hin. unfold list_in. apply existsb_exists.
  exists (lower v). split; [|apply String.eqb_refl].
  apply list_elem_of_In, list_elem_of_fmap. by exists v.
Qed.

Lemma parse_row_no_cell (row : csv_row) (idx : nat) (msg : ChatMessage.t) :
  Forall (fun k => k ∉ row.*1) ["time"; "sender"; "content"; "type"]%string ->
  CSVParser._parse_row ∅ row idx = Ok msg ->
  no_cell_read msg.
Proof.
  intros Hkeys.
  assert (Hget : forall k,
            k ∈ ["time"; "sender"; "content"; "type"]%string ->
            row_get row k = None).
  { intros k Hk. apply row_get_None.
    rewrite Forall_forall in Hkeys. by apply Hkeys. }
  pose proof (parse_row_unfold ∅ row idx) as Hrow. cbv zeta in Hrow.
  rewrite Hrow. unfold type_cell. rewrite !lookup_empty. cbn [default id].
  rewrite (Hget "type"%string), (Hget "sender"%string),
    (Hget "content"%string) by own_key.
  cbn [default id from_option]. unfold ChatMessage.new.
  destruct (fromtimestamp _); [|done]. by intros [= <-].
Qed.

Lemma csv_loop_no_cell (rows : list csv_row) (st st' : CSVParser.csv_state) :
  Forall (fun row =>
            Forall (fun k => k ∉ row.*1)
              ["time"; "sender"; "content"; "type"]%string) rows ->
  for_each (CSVParser.csv_row_step ∅) rows st = Ok st' ->
  Forall no_cell_read (CSVParser.messages st) ->
  (CSVParser.members_map st = []
   \/ CSVParser.members_map st = [unknown_entry]) ->
  Forall no_cell_read (CSVParser.messages st')
  /\ length (CSVParser.messages st')
     = (length (CSVParser.messages st) + length rows)%nat
  /\ (rows = [] /\ CSVParser.members_map st' = CSVParser.members_map st
      \/ CSVParser.members_map st' = [unknown_entry]).
Proof.
  intros Hrows. revert st.
  induction Hrows as [|row rows Hrow Hrows IH]; intros st; cbn [for_each].
  - intros [= <-] Hmsgs Hmap. split; [done|]. split; [cbn; lia|by left].
  - intros (st1 & Hstep & Hloop)%bind_Ok Hmsgs Hmap.
    unfold CSVParser.csv_row_step in Hstep.
    apply bind_Ok in Hstep as (msg & Hmsg & [= <-]).
    pose proof (parse_row_no_cell row _ msg Hrow Hmsg)
      as Hread.
    destruct Hread as (Hsender & Hname & Hread).
    apply IH in Hloop as (Hall & Hlen & Hmap').
    + cbn [CSVParser.messages CSVParser.members_map] in *.
      split; [done|]. split.
      * rewrite Hlen, length_app. cbn [length]. lia.
      * right. destruct Hmap' as [[_ ->]| ->]; [|done].
        rewrite Hsender, Hname.
        by destruct Hmap as [-> | ->].
    + cbn [CSVParser.messages]. apply Forall_app. split; [done|].
      constructor; [|constructor]. by split.
    + cbn [CSVParser.members_map]. rewrite Hsender, Hname.
      destruct Hmap as [-> | ->]; by right.
Qed.

(** X15.  [CSVParser.parse], on the rows of a file and with the column map
    of a new parser, reads no cell of the file.  Where it returns a session,
    no header of the file is an alias of a column, so that every message
    has the sender and the name "unknown", no content and the type 0, and
    the one member of the session is "unknown"; there is a message for every
    row.  (A header that is an alias ends [_detect_columns] with the
    [TypeError] of subscripting the key view.) *)
Theorem csv_parse_reads_no_cell (fieldnames : list string)
    (rows : list csv_row) (platform chat_name chat_type owner_id : string)
    (now : Z) (s : ChatSession.t) :
  Forall (fun v => strip (lower v) = lower v)
    ["time"; "sender"; "content"; "type"]%string ->
  Forall (fun row : csv_row => row.*1 = fieldnames) rows ->
  CSVParser.parse ∅ rows platform chat_name chat_type owner_id now = Ok s ->
  Forall (fun k => k ∉ fieldnames) ["time"; "sender"; "content"; "type"]%string
  /\ Forall no_cell_read (ChatSession.messages s)
  /\ length (ChatSession.messages s) = length rows
  /\ ChatSession.members s
     = [ {| ChatMember.platform_id := "unknown";
            ChatMember.account_name := "unknown";
            ChatMember.role := None; ChatMember.avatar := None;
            ChatMember.remark := None |} ].
Proof.
  intros Hstr Hrows. unfold CSVParser.parse.
  destruct rows as [|first rows]; [done|].
  intros (cm & Hcm & (st & Hloop & [= <-])%bind_Ok)%bind_Ok.
  apply detect_columns_keys_Ok in Hcm as [-> Hmiss].
  pose proof (Forall_inv Hrows) as Hfirst. cbn beta in Hfirst.
  rewrite Hfirst in Hmiss.
  assert (Hkeys : Forall (fun k => k ∉ fieldnames)
                    ["time"; "sender"; "content"; "type"]%string).
  { rewrite Forall_forall in Hstr.
    assert (Hone : forall k variants,
              (k, k :: variants) ∈ CSVParser.COLUMN_MAPPINGS ->
              k ∈ ["time"; "sender"; "content"; "type"]%string ->
              k ∉ fieldnames).
    { intros k variants Hmapping Hk Hin.
      rewrite Forall_forall in Hmiss.
      specialize (Hmiss _ Hmapping). cbn [snd] in Hmiss.
      apply Forall_inv in Hmiss.
      rewrite (alias_header_found fieldnames k) in Hmiss; [done| |done].
      by apply Hstr. }
    unfold CSVParser.COLUMN_MAPPINGS in Hone.
    constructor; [eapply Hone; own_key|].
    constructor; [eapply Hone; own_key|].
    constructor; [eapply Hone; own_key|].
    constructor; [eapply Hone; own_key|]. constructor. }
  split; [exact Hkeys|].
  apply csv_loop_no_cell in Hloop as (Hall & Hlen & Hmap).
  - cbn [ChatSession.new ChatSession.__post_init__ ChatSession.messages
         ChatSession.members CSVParser.messages] in *.
    split; [|split].
    + rewrite Forall_forall in Hall. apply Forall_forall. intros m Hm.
      apply Hall.
      by rewrite (sort_by_key_perm ChatMessage.timestamp) in Hm.
    + by rewrite (sort_by_key_perm ChatMessage.timestamp), Hlen.
    + by destruct Hmap as [[? _]| ->].
  - eapply Forall_impl; [exact Hrows|]. intros row ->. exact Hkeys.
  - constructor.
  - by left.
Qed.

(** X16.  What [CSVExporter] writes, [CSVParser] does not read.  The file
    written for a session with a message has the header "timestamp", an
    alias of the time column, and [CSVParser.parse] ends on it with the
    [TypeError] of [_detect_columns], whatever its column map; the file
    written for a session without messages has no row, and the parser
    raises its [ValueError] of an empty file. *)
Theorem csv_export_not_reimportable (s : ChatSession.t)
    (column_map : gmap string string)
    (platform chat_name chat_type owner_id : string) (now : Z) :
  strip (lower "timestamp") = lower "timestamp" ->
  CSVParser.parse column_map (dict_reader (CSVExporter.export s)) platform
    chat_name chat_type owner_id now
  = match ChatSession.messages s with
    | [] => Raise (ValueError "CSV 文件为空")
    | _ :: _ => Raise TypeError
    end.
Proof.
  intros Hstr. unfold CSVExporter.export, dict_reader.
  destruct (ChatSession.messages s) as [|m msgs]; [reflexivity|].
  rewrite !fmap_cons. unfold CSVParser.parse.
  change ((zip CSVExporter.header_row (CSVExporter.message_row m)).*1)
    with CSVExporter.header_row.
  replace (CSVParser._detect_columns (AsKeys CSVExporter.header_row)
             column_map)
    with (@Raise (gmap string string) TypeError); [reflexivity|].
  unfold CSVParser._detect_columns, CSVParser.COLUMN_MAPPINGS.
  cbn [for_each CSVParser.detect_variants seq_items seq_subscript].
  destruct (list_in (lower "time") _); [reflexivity|].
  replace (list_in (lower "timestamp")
             ((fun h => strip (lower h)) <$> CSVExporter.header_row))
    with true; [reflexivity|].
  symmetry. apply alias_header_found; [exact Hstr|]. by left.
Qed.
End CsvColumns.

Section CsvColumnsSamples.
Import Reference Samples.
#[local] Existing Instances utc ascii_strings decimal_numbers.

(** Two rows under the header [when,who,what]: the parser returns two
    messages of "unknown", at the times 0 and 1 that are the indices of the
    rows. *)
Lemma csv_parse_reads_no_cell_witness :
  Forall (fun v => strip (lower v) = lower v)
    ["time"; "sender"; "content"; "type"]%string
  /\ Forall (fun row : csv_row => row.*1 = ["when"; "who"; "what"]%string)
       [row_other_header; row_other_header]
  /\ CSVParser.parse ∅ [row_other_header; row_other_header] "wechat" "Test"
       "private" "" 1770985548
     = Ok (ChatSession.new
             {| ChatLabVersion.version := "0.0.1";
                ChatLabVersion.exported_at := 1770985548;
                ChatLabVersion.generator := "chatlab-csv-parser" |}
             {| ChatMeta.name := "Test"; ChatMeta.platform := "wechat";
                ChatMeta.type := "private"; ChatMeta.owner_id := "";
                ChatMeta.avatar := None; ChatMeta.description := None |}
             [ {| ChatMember.platform_id := "unknown";
                  ChatMember.account_name := "unknown";
                  ChatMember.role := None; ChatMember.avatar := None;
                  ChatMember.remark := None |} ]
             [ message "unknown" "unknown" 0 "" "csv_0";
               message "unknown" "unknown" 1 "" "csv_1" ])
  /\ Forall no_cell_read
       [ message "unknown" "unknown" 0 "" "csv_0";
         message "unknown" "unknown" 1 "" "csv_1" ].
Proof.
  assert (Hstr : Forall (fun v => strip (lower v) = lower v)
                   ["time"; "sender"; "content"; "type"]%string).
  { repeat constructor. }
  assert (Hrows : Forall (fun row : csv_row =>
                            row.*1 = ["when"; "who"; "what"]%string)
                    [row_other_header; row_other_header]).
  { repeat constructor. }
  split; [exact Hstr|]. split; [exact Hrows|]. split; [reflexivity|].
  exact (proj1 (proj2 (csv_parse_reads_no_cell _ _ "wechat" "Test" "private"
                         "" 1770985548 _ Hstr Hrows eq_refl))).
Defined.

(** The sample session is written with the header row of the exporter, and
    the parser raises [TypeError] on what was written. *)
Lemma csv_export_not_reimportable_witness :
  strip (lower "timestamp") = lower "timestamp"
  /\ CSVParser.parse ∅ (dict_reader (CSVExporter.export session)) "wechat"
       "Test" "group" "owner1" 1770985548
     = Raise TypeError.
Proof.
  split; [reflexivity|].
  exact (csv_export_not_reimportable session ∅ "wechat" "Test" "group"
           "owner1" 1770985548 eq_refl).
Defined.
End CsvColumnsSamples.

(** ** helpers.py: texts *)

Section TextFacts.
Context {Char : Type}.

(** X17.  [truncate_text] with a suffix no longer than [max_length]: the
    result is never longer than [max_length]; a text that is not longer than
    [max_length] comes back as it is; a longer one comes back as its first
    [max_length - len(suffix)] characters and the suffix, [max_length]
    characters in all. *)
Theorem truncate_text_within (text suffix : list Char) (max_length : Z) :
  Z.of_nat (length suffix) <= max_length ->
  let result := helpers.truncate_text text max_length suffix in
  Z.of_nat (length result) <= max_length
  /\ (Z.of_nat (length text) <= max_length -> result = text)
  /\ (max_length < Z.of_nat (length text) ->
      Z.of_nat (length result) = max_length
      /\ result
         = take (Z.to_nat (max_length - Z.of_nat (length suffix))) text
           ++ suffix).
Proof.
  intros Hsuffix. cbv zeta. unfold helpers.truncate_text, helpers.slice_to.
  destruct (Z.leb_spec (Z.of_nat (length text)) max_length) as [Hshort|Hlong].
  - split; [done|]. split; [done|]. lia.
  - destruct (Z.leb_spec 0 (max_length - Z.of_nat (length suffix)))
      as [_|Hneg]; [|lia].
    assert (Hlen : Z.of_nat
                     (length
                        (take (Z.to_nat (max_length
                                         - Z.of_nat (length suffix))) text
                         ++ suffix))
                   = max_length).
    { rewrite length_app, length_take. lia. }
    split; [lia|]. split; [lia|]. done.
Qed.

(** X18.  [truncate_text] with a suffix longer than [max_length], on a text
    longer than [max_length]: the slice [text[:max_length - len(suffix)]]
    then counts from the end of the text, and the result is longer than
    [max_length]; where [max_length] is positive and the text at least as
    long as the suffix, the result is longer than the text itself, by
    [max_length] characters. *)
Theorem truncate_text_overlong (text suffix : list Char) (max_length : Z) :
  max_length < Z.of_nat (length text) ->
  max_length < Z.of_nat (length suffix) ->
  let result := helpers.truncate_text text max_length suffix in
  max_length < Z.of_nat (length result)
  /\ result
     = take (Z.to_nat (Z.of_nat (length text) + max_length
                       - Z.of_nat (length suffix))) text
       ++ suffix
  /\ (0 <= max_length ->
      (length suffix <= length text)%nat ->
      Z.of_nat (length result) = Z.of_nat (length text) + max_length).
Proof.
  intros Hlong Hsuffix. cbv zeta.
  unfold helpers.truncate_text, helpers.slice_to.
  destruct (Z.leb_spec (Z.of_nat (length text)) max_length) as [Hshort|_];
    [lia|].
  destruct (Z.leb_spec 0 (max_length - Z.of_nat (length suffix)))
    as [Hpos|_]; [lia|].
  replace (Z.of_nat (length text) + (max_length - Z.of_nat (length suffix)))
    with (Z.of_nat (length text) + max_length - Z.of_nat (length suffix))
    by lia.
  split; [|split; [done|]].
  - rewrite length_app. lia.
  - intros Hmax Hle. rewrite length_app, length_take. lia.
Qed.

End TextFacts.

Section TextSamples.

(** The text of ten characters, cut to two with a suffix of three, comes
    back with twelve. *)
Lemma truncate_text_overlong_witness :
  let text := [1; 2; 3; 4; 5; 6; 7; 8; 9; 10]%nat in
  let suffix := [0; 0; 0]%nat in
  2 < Z.of_nat (length text)
  /\ 2 < Z.of_nat (length suffix)
  /\ helpers.truncate_text text 2 suffix
     = [1; 2; 3; 4; 5; 6; 7; 8; 9; 0; 0; 0]%nat
  /\ 2 < Z.of_nat (length (helpers.truncate_text text 2 suffix)).
Proof.
  cbv zeta. split; [reflexivity|]. split; [reflexivity|].
  split; [reflexivity|].
  exact (proj1 (truncate_text_overlong
                  [1; 2; 3; 4; 5; 6; 7; 8; 9; 10]%nat [0; 0; 0]%nat 2
                  eq_refl eq_refl)).
Defined.

(** The same text, cut to five: two characters and the suffix. *)
Lemma truncate_text_within_witness :
  let text := [1; 2; 3; 4; 5; 6; 7; 8; 9; 10]%nat in
  let suffix := [0; 0; 0]%nat in
  Z.of_nat (length suffix) <= 5
  /\ helpers.truncate_text text 5 suffix = [1; 2; 0; 0; 0]%nat
  /\ Z.of_nat (length (helpers.truncate_text text 5 suffix)) <= 5.
Proof.
  cbv zeta. split; [discriminate|]. split; [reflexivity|].
  exact (proj1 (truncate_text_within
                  [1; 2; 3; 4; 5; 6; 7; 8; 9; 10]%nat [0; 0; 0]%nat 5
                  ltac:(discriminate))).
Defined.
End TextSamples.

Section EscapeFacts.

Lemma replace_char_eq (old : Ascii.ascii) (new s : string) :
  helpers.replace_char old new (String old s)
  = new +:+ helpers.replace_char old new s.
Proof. cbn [helpers.replace_char]. by rewrite Ascii.eqb_refl. Qed.

Lemma replace_char_ne (old c : Ascii.ascii) (new s : string) :
  c <> old ->
  helpers.replace_char old new (String c s)
  = String c (helpers.replace_char old new s).
Proof.
  intros Hne. cbn [helpers.replace_char].
  by replace (Ascii.eqb c old) with false
    by (symmetry; by apply Ascii.eqb_neq).
Qed.

Lemma append_String (c : Ascii.ascii) (s x : string) :
  String c s +:+ x = String c (s +:+ x).
Proof. reflexivity. Qed.

Lemma append_Empty (x : string) : EmptyString +:+ x = x.
Proof. reflexivity. Qed.

Lemma escape_content_each (s : string) :
  helpers.escape_content s = escape_each s.
Proof.
  unfold helpers.escape_content.
  induction s as [|c s IH]; [done|].
  cbn [escape_each]. rewrite <- IH. unfold escape_char, helpers.escaped.
  destruct (Ascii.eqb_spec c helpers.backslash) as [->|Hbs].
  - rewrite replace_char_eq. cbn [orb].
    rewrite !append_String, !append_Empty.
    rewrite !(replace_char_ne helpers.single_quote helpers.backslash)
      by done.
    by rewrite !(replace_char_ne helpers.double_quote helpers.backslash)
      by done.
  - rewrite (replace_char_ne helpers.backslash c) by done.
    destruct (Ascii.eqb_spec c helpers.single_quote) as [->|Hsq].
    + rewrite replace_char_eq. cbn [orb].
      rewrite !append_String, !append_Empty.
      rewrite (replace_char_ne helpers.double_quote helpers.backslash)
        by done.
      by rewrite (replace_char_ne helpers.double_quote helpers.single_quote)
        by done.
    + rewrite (replace_char_ne helpers.single_quote c) by done.
      destruct (Ascii.eqb_spec c helpers.double_quote) as [->|Hdq].
      * by rewrite replace_char_eq.
      * rewrite (replace_char_ne helpers.double_quote c) by done.
        cbn [orb]. by rewrite append_String, append_Empty.
Qed.

Lemma unescape_escape_each (s : string) :
  unescape_from false (escape_each s) = s.
Proof.
  induction s as [|c s IH]; [done|].
  cbn [escape_each]. unfold escape_char, helpers.escaped.
  destruct (Ascii.eqb c helpers.backslash || Ascii.eqb c helpers.single_quote
            || Ascii.eqb c helpers.double_quote) eqn:Hc.
  - rewrite !append_String, append_Empty. cbn [unescape_from].
    rewrite Ascii.eqb_refl. by rewrite IH.
  - apply orb_false_iff in Hc as [[Hbs _]%orb_false_iff _].
    rewrite append_String, append_Empty. cbn [unescape_from].
    by rewrite Hbs, IH.
Qed.

(** X19.  [escape_content], three replacements one after the other, is one
    pass over the content that puts a backslash before each backslash,
    single quote and double quote and keeps every other character: no
    replacement touches what an earlier one wrote.  Dropping each such
    backslash gives the content back, so that two contents with the same
    escaped form are the same. *)
Theorem escape_content_one_pass :
  (forall content : string,
      helpers.escape_content content = escape_each content)
  /\ (forall content : string,
        unescape_from false (helpers.escape_content content) = content)
  /\ (forall content1 content2 : string,
        helpers.escape_content content1 = helpers.escape_content content2 ->
        content1 = content2)
  /\ (forall content : string,
        (String.length content <= String.length
                                    (helpers.escape_content content))%nat).
Proof.
  split; [exact escape_content_each|]. split; [|split].
  - intros content. by rewrite escape_content_each, unescape_escape_each.
  - intros content1 content2 Heq.
    rewrite <- (unescape_escape_each content1),
      <- (unescape_escape_each content2), <- !escape_content_each.
    by rewrite Heq.
  - intros content. rewrite escape_content_each.
    induction content as [|c content IH]; [done|].
    cbn [escape_each String.length]. unfold escape_char, helpers.escaped.
    destruct (_ || _); rewrite !append_String, append_Empty;
      cbn [String.length]; lia.
Qed.
End EscapeFacts.

(** ** The number of threads *)

Section ThreadCount.
Context {A : Type} (timestamp : A -> Z).

Lemma runs_from_length (g : Z) (rest current : list A) (prev : A) :
  length (runs_from timestamp g current prev rest)
  = S (gaps_exceeding timestamp g prev rest).
Proof.
  revert current prev.
  induction rest as [|curr rest IH]; intros current prev; [done|].
  cbn [runs_from gaps_exceeding].
  destruct (exceeds timestamp g prev curr); cbn [length]; by rewrite IH.
Qed.

Lemma gaps_exceeding_mono (g g' : Z) (prev : A) (rest : list A) :
  g <= g' ->
  (gaps_exceeding timestamp g' prev rest
   <= gaps_exceeding timestamp g prev rest)%nat.
Proof.
  intros Hg. revert prev.
  induction rest as [|curr rest IH]; intros prev; [done|].
  cbn [gaps_exceeding]. specialize (IH curr).
  destruct (exceeds timestamp g' prev curr) eqn:Hg';
    destruct (exceeds timestamp g prev curr) eqn:Hg0; try lia.
  apply exceeds_true in Hg'. apply exceeds_false in Hg0.
  assert (Hle : (inject_Z g <= inject_Z g')%Q) by (by rewrite <- Zle_Qle).
  lra.
Qed.

Lemma gaps_exceeding_le (g : Z) (prev : A) (rest : list A) :
  (gaps_exceeding timestamp g prev rest <= length rest)%nat.
Proof.
  revert prev. induction rest as [|curr rest IH]; intros prev; [done|].
  cbn [gaps_exceeding length]. specialize (IH curr).
  destruct (exceeds timestamp g prev curr); lia.
Qed.

Lemma runs_from_singletons (g : Z) (rest current : list A) (prev : A) :
  g < 0 ->
  sorted_by_key timestamp (prev :: rest) ->
  runs_from timestamp g current prev rest
  = current :: ((fun m => [m]) <$> rest).
Proof.
  intros Hg. revert current prev.
  induction rest as [|curr rest IH]; intros current prev Hsorted; [done|].
  cbn [runs_from]. unfold sorted_by_key in Hsorted.
  apply StronglySorted_inv in Hsorted as [Hrest Hprev].
  apply Forall_inv in Hprev.
  replace (exceeds timestamp g prev curr) with true.
  - rewrite fmap_cons. f_equal. by apply IH.
  - symmetry. apply exceeds_true.
    pose proof (gap_nonneg (timestamp prev) (timestamp curr) Hprev) as Hgap.
    assert (Hneg : (inject_Z g < inject_Z 0)%Q) by (by rewrite <- Zlt_Qlt).
    change (inject_Z 0) with 0%Q in Hneg. lra.
Qed.
End ThreadCount.

Section ThreadCountSession.
Context `{DateTimeLib}.

(** X20.  The number of threads of a session with messages is one more than
    the number of gaps between neighbours that exceed the threshold; it is
    at most the number of messages, and a larger threshold never gives more
    threads.  With a negative threshold, every message of a session as its
    constructor leaves it is a thread of its own. *)
Theorem thread_count (g : Z) :
  (forall s : ChatSession.t,
      length (ChatSession.get_conversation_threads s g)
      = match ChatSession.messages s with
        | [] => 0%nat
        | first :: rest =>
            S (gaps_exceeding ChatMessage.timestamp g first rest)
        end)
  /\ (forall s : ChatSession.t,
        (length (ChatSession.get_conversation_threads s g)
         <= length (ChatSession.messages s))%nat)
  /\ (forall (s : ChatSession.t) (g' : Z),
        g <= g' ->
        (length (ChatSession.get_conversation_threads s g')
         <= length (ChatSession.get_conversation_threads s g))%nat)
  /\ (forall chatlab meta members (msgs : list ChatMessage.t),
        g < 0 ->
        ChatSession.get_conversation_threads
          (ChatSession.new chatlab meta members msgs) g
        = (fun m => [m])
            <$> ChatSession.messages
                  (ChatSession.new chatlab meta members msgs)).
Proof.
  assert (Hcount : forall (s : ChatSession.t) (g0 : Z),
            length (ChatSession.get_conversation_threads s g0)
            = match ChatSession.messages s with
              | [] => 0%nat
              | first :: rest =>
                  S (gaps_exceeding ChatMessage.timestamp g0 first rest)
              end).
  { intros s g0. rewrite get_conversation_threads_split,
      split_messages_by_time_runs.
    unfold runs. destruct (ChatSession.messages s) as [|first rest]; [done|].
    apply runs_from_length. }
  split; [intros s; apply Hcount|]. split; [|split].
  - intros s. rewrite Hcount.
    destruct (ChatSession.messages s) as [|first rest]; [done|].
    cbn [length].
    pose proof (gaps_exceeding_le ChatMessage.timestamp g first rest). lia.
  - intros s g' Hg. rewrite !Hcount.
    destruct (ChatSession.messages s) as [|first rest]; [done|].
    pose proof (gaps_exceeding_mono ChatMessage.timestamp g g' first rest Hg).
    lia.
  - intros chatlab meta members msgs Hg.
    rewrite get_conversation_threads_split, split_messages_by_time_runs.
    cbn [ChatSession.new ChatSession.__post_init__ ChatSession.messages].
    pose proof (sort_by_key_sorted ChatMessage.timestamp msgs) as Hsorted.
    unfold runs.
    destruct (sort_by_key ChatMessage.timestamp msgs) as [|first rest];
      [done|].
    by rewrite (runs_from_singletons ChatMessage.timestamp g rest [first]
                  first Hg Hsorted).
Qed.
End ThreadCountSession.

(** ** models.py: the totals of the statistics *)

Section StatisticsTotals.
Context `{DateTimeLib}.

Lemma sum_counts_count_up (key : string) (counts : gmap string Z) :
  sum_counts (ChatSession.count_up key counts) = sum_counts counts + 1.
Proof.
  unfold ChatSession.count_up, sum_counts.
  destruct (counts !! key) as [n|] eqn:Hkey; cbn [default id from_option].
  - rewrite <- insert_delete_eq.
    rewrite map_fold_insert_L; [|intros; lia|apply lookup_delete_eq].
    rewrite (map_fold_delete_L _ _ key n counts); [lia|intros; lia|done].
  - rewrite map_fold_insert_L; [lia|intros; lia|done].
Qed.

Lemma sum_counts_fold {A : Type} (f : A -> string) (l : list A) :
  sum_counts (fold_left (fun counts x => ChatSession.count_up (f x) counts)
                l ∅)
  = Z.of_nat (length l).
Proof.
  induction l as [|x l IH] using rev_ind; [done|].
  rewrite fold_left_app. cbn [fold_left].
  rewrite sum_counts_count_up, IH, length_app. cbn [length]. lia.
Qed.

(** X21.  In the statistics of a session the counts by type add up to the
    number of messages, and so do the counts of the timeline; every count
    is at least one; and the dict has the five keys of the early return
    when the session has no message, and "sender_stats" besides when it has
    one. *)
Theorem statistics_totals (s : ChatSession.t) :
  sum_counts (ChatSession.type_counts (ChatSession.messages s))
  = Z.of_nat (length (ChatSession.messages s))
  /\ sum_counts (ChatSession.get_timeline s)
     = Z.of_nat (length (ChatSession.messages s))
  /\ (forall (label : string) (n : Z),
        ChatSession.type_counts (ChatSession.messages s) !! label = Some n ->
        1 <= n)
  /\ (forall (date : string) (n : Z),
        ChatSession.get_timeline s !! date = Some n -> 1 <= n)
  /\ dom (ChatSession.get_statistics s)
     = match ChatSession.messages s with
       | [] =>
           {[ "total_messages"%string ]}
           ∪ ({[ "unique_senders"%string ]}
              ∪ ({[ "date_range"%string ]}
                 ∪ ({[ "message_types"%string ]}
                    ∪ ({[ "timeline"%string ]} ∪ ∅))))
       | _ :: _ =>
           {[ "total_messages"%string ]}
           ∪ ({[ "unique_senders"%string ]}
              ∪ ({[ "date_range"%string ]}
                 ∪ ({[ "message_types"%string ]}
                    ∪ ({[ "timeline"%string ]}
                       ∪ ({[ "sender_stats"%string ]} ∪ ∅)))))
       end.
Proof.
  assert (Hone : forall (f : ChatMessage.t -> string) (k : string) (n : Z),
            fold_left (fun counts x => ChatSession.count_up (f x) counts)
              (ChatSession.messages s) ∅ !! k = Some n ->
            1 <= n).
  { intros f k n. rewrite count_up_fold_empty.
    destruct (List.filter _ _) as [|m found]; [done|].
    intros [= <-]. cbn [length]. lia. }
  split; [apply sum_counts_fold|].
  split; [apply (sum_counts_fold
                   (fun m => str_take 10 (ChatMessage.datetime_str m)))|].
  split; [apply Hone|].
  split; [apply (Hone (fun m => str_take 10 (ChatMessage.datetime_str m)))|].
  unfold ChatSession.get_statistics.
  destruct (ChatSession.messages s); by rewrite !dom_insert_L, dom_empty_L.
Qed.
End StatisticsTotals.
